(** * Iteration-level controller of the OpenFold training job

    A shallow embedding of [openfold/train.py] and
    [openfold/openfold/lr_scheduler.py]: the start-up cadence checks of
    [parse_args], the learning-rate scheduler, [create_alphafold_module],
    [validation] and the loop of [training].

    Python integers are [Z]; [%] and [//] are floor division, which is
    what [Z.modulo] and [Z.div] compute for a non-zero divisor, and they
    raise [ZeroDivisionError] for a zero divisor.  Python exceptions are
    values of [exn]; code that can raise lives in an error monad, and the
    training loop in an error monad with an event log. *)

From Stdlib Require Import ZArith QArith Qcanon Lia List Bool.
From stdpp Require Import base option list gmap strings numbers.

Local Open Scope Z_scope.

(** ** Python exceptions and the error monad *)

Inductive exn : Type :=
| AssertionError (line : Z)   (* the source line of the failing [assert] *)
| ZeroDivisionError
| IndexError
| KeyError
| StopIteration
| ValueError
| RuntimeError
| NameError.

Inductive result (A : Type) : Type :=
| Ok (a : A)
| Raise (e : exn).
Arguments Ok {A} a.
Arguments Raise {A} e.

#[global] Instance result_ret : MRet result := fun A a => Ok a.
#[global] Instance result_bind : MBind result := fun A B k m =>
  match m with
  | Ok a => k a
  | Raise e => Raise e
  end.

Definition py_assert (line : Z) (b : bool) : result unit :=
  if b then Ok tt else Raise (AssertionError line).

(** [a % b] and [a // b] on Python integers. *)
Definition py_mod (a b : Z) : result Z :=
  if b =? 0 then Raise ZeroDivisionError else Ok (a mod b).

Definition py_floordiv (a b : Z) : result Z :=
  if b =? 0 then Raise ZeroDivisionError else Ok (a / b).

Definition is_ok {A} (r : result A) : bool :=
  match r with Ok _ => true | Raise _ => false end.

(** The value of a computation that does not raise. *)
Definition the {A : Type} (r : result A)
    : match r return Type with Ok _ => A | Raise _ => unit end :=
  match r with Ok a => a | Raise _ => tt end.

(** ** Command-line arguments: the fields of [argparse.Namespace] that the
    controller reads *)

Module Cadence.

Record Args : Type := {
  num_train_iters : Z;
  log_every_iters : Z;
  checkpoint_every_iters : Z;
  val_every_iters : Z;
  warmup_lr_iters : Z;
  gradient_accumulation_iters : Z;
  target_avg_lddt_ca_value : Qc;
  keep_last_checkpoints : Z;
  keep_best_checkpoints : Z;
  keep_val_checkpoints : bool;
  save_process_logs : bool;
  distributed : bool;
}.

(** The defaults of the [add_argument] calls. *)
Definition default_args : Args := {|
  num_train_iters := 2000;
  log_every_iters := -1;
  checkpoint_every_iters := 0;
  val_every_iters := 40;
  warmup_lr_iters := 0;
  gradient_accumulation_iters := 1;
  target_avg_lddt_ca_value := Q2Qc (8 # 10);
  keep_last_checkpoints := 0;
  keep_best_checkpoints := 0;
  keep_val_checkpoints := false;
  save_process_logs := false;
  distributed := false;
|}.

(** [assert a % b == 0] at source line [line]. *)
Definition assert_divides (line a b : Z) : result unit :=
  r ← py_mod a b; py_assert line (r =? 0).

(** The checks of [parse_args] that follow [parser.parse_args()]
    (train.py, lines 266-281), in source order. *)
Definition parse_args (args : Args) : result Args :=
  (* saving checkpoints must coincide with validation: *)
  (if 0 <? checkpoint_every_iters args
   then assert_divides 268 (val_every_iters args) (checkpoint_every_iters args)
   else Ok tt) ;;
  (* saving logs must coincide with validation and checkpoints: *)
  (if 0 <? log_every_iters args
   then
     assert_divides 271 (val_every_iters args) (log_every_iters args) ;;
     (if 0 <? checkpoint_every_iters args
      then assert_divides 273 (checkpoint_every_iters args) (log_every_iters args)
      else Ok tt)
   else Ok tt) ;;
  (* everything must be divisible by gradient accumulation length: *)
  py_assert 275 (1 <=? gradient_accumulation_iters args) ;;
  assert_divides 276 (num_train_iters args) (gradient_accumulation_iters args) ;;
  assert_divides 277 (val_every_iters args) (gradient_accumulation_iters args) ;;
  assert_divides 278 (checkpoint_every_iters args) (gradient_accumulation_iters args) ;;
  assert_divides 279 (log_every_iters args) (gradient_accumulation_iters args) ;;
  assert_divides 280 (warmup_lr_iters args) (gradient_accumulation_iters args) ;;
  Ok args.

(** The invariant as the specification words it: the four non-warmup
    intervals are exact multiples of the accumulation length, and the
    validation interval is an exact multiple of the checkpoint and log
    intervals when those are enabled (positive). *)
Definition spec_cadence_invariant (args : Args) : Prop :=
  let g := gradient_accumulation_iters args in
  (g | num_train_iters args) /\
  (g | val_every_iters args) /\
  (g | checkpoint_every_iters args) /\
  (g | log_every_iters args) /\
  (0 < checkpoint_every_iters args ->
     (checkpoint_every_iters args | val_every_iters args)) /\
  (0 < log_every_iters args ->
     (log_every_iters args | val_every_iters args)).

(** The same with disabled (non-positive) intervals exempt from every
    constraint, the reading most favourable to acceptance. *)
Definition spec_cadence_invariant_exempt (args : Args) : Prop :=
  let g := gradient_accumulation_iters args in
  (g | num_train_iters args) /\
  (g | val_every_iters args) /\
  (0 < checkpoint_every_iters args -> (g | checkpoint_every_iters args)) /\
  (0 < log_every_iters args -> (g | log_every_iters args)) /\
  (0 < checkpoint_every_iters args ->
     (checkpoint_every_iters args | val_every_iters args)) /\
  (0 < log_every_iters args ->
     (log_every_iters args | val_every_iters args)).

(** What the code checks. *)
Definition cadence_ok (args : Args) : Prop :=
  let g := gradient_accumulation_iters args in
  1 <= g /\
  (g | num_train_iters args) /\
  (g | val_every_iters args) /\
  (g | checkpoint_every_iters args) /\
  (g | log_every_iters args) /\
  (g | warmup_lr_iters args) /\
  (0 < checkpoint_every_iters args ->
     (checkpoint_every_iters args | val_every_iters args)) /\
  (0 < log_every_iters args ->
     (log_every_iters args | val_every_iters args)) /\
  (0 < checkpoint_every_iters args -> 0 < log_every_iters args ->
     (log_every_iters args | checkpoint_every_iters args)).

(** The two configurations of the specification's test, the unnamed
    fields at their defaults. *)
Definition rejected_example : Args := {|
  num_train_iters := 2000;
  log_every_iters := -1;
  checkpoint_every_iters := 7;
  val_every_iters := 40;
  warmup_lr_iters := 0;
  gradient_accumulation_iters := 1;
  target_avg_lddt_ca_value := Q2Qc (8 # 10);
  keep_last_checkpoints := 0;
  keep_best_checkpoints := 0;
  keep_val_checkpoints := false;
  save_process_logs := false;
  distributed := false;
|}.

Definition accepted_example : Args := {|
  num_train_iters := 2000;
  log_every_iters := 4;
  checkpoint_every_iters := 20;
  val_every_iters := 40;
  warmup_lr_iters := 0;
  gradient_accumulation_iters := 4;
  target_avg_lddt_ca_value := Q2Qc (8 # 10);
  keep_last_checkpoints := 0;
  keep_best_checkpoints := 0;
  keep_val_checkpoints := false;
  save_process_logs := false;
  distributed := false;
|}.

(** The defaults with accumulation over 2: logs stay disabled at -1. *)
Definition accumulation_with_defaults : Args := {|
  num_train_iters := 2000;
  log_every_iters := -1;
  checkpoint_every_iters := 0;
  val_every_iters := 40;
  warmup_lr_iters := 0;
  gradient_accumulation_iters := 2;
  target_avg_lddt_ca_value := Q2Qc (8 # 10);
  keep_last_checkpoints := 0;
  keep_best_checkpoints := 0;
  keep_val_checkpoints := false;
  save_process_logs := false;
  distributed := false;
|}.

(** Checkpoints every 20 iterations, logs every 8: every constraint the
    specification names holds, yet line 273 rejects it. *)
Definition log_checkpoint_mismatch : Args := {|
  num_train_iters := 2000;
  log_every_iters := 8;
  checkpoint_every_iters := 20;
  val_every_iters := 40;
  warmup_lr_iters := 0;
  gradient_accumulation_iters := 4;
  target_avg_lddt_ca_value := Q2Qc (8 # 10);
  keep_last_checkpoints := 0;
  keep_best_checkpoints := 0;
  keep_val_checkpoints := false;
  save_process_logs := false;
  distributed := false;
|}.

(** The namespace with another value for [--val_every_iters]. *)
Definition with_val_every_iters (args : Args) (v : Z) : Args := {|
  num_train_iters := num_train_iters args;
  log_every_iters := log_every_iters args;
  checkpoint_every_iters := checkpoint_every_iters args;
  val_every_iters := v;
  warmup_lr_iters := warmup_lr_iters args;
  gradient_accumulation_iters := gradient_accumulation_iters args;
  target_avg_lddt_ca_value := target_avg_lddt_ca_value args;
  keep_last_checkpoints := keep_last_checkpoints args;
  keep_best_checkpoints := keep_best_checkpoints args;
  keep_val_checkpoints := keep_val_checkpoints args;
  save_process_logs := save_process_logs args;
  distributed := distributed args;
|}.

End Cadence.

(** ** The learning-rate schedule ([lr_scheduler.py]) *)

Module LrScheduler.

(** The float operations the scheduler uses.  [float_ne] is Python's [!=]
    on two floats; [float_div_int x n] is [x / n] for a Python int [n];
    [float_round x d] is [round(x, d)]; [torch_linspace start end steps]
    lists the items of [torch.linspace(start, end, steps, dtype=float64)]. *)
Class PyFloat (F : Type) : Type := {
  float_ne : F -> F -> bool;
  float_div_int : F -> Z -> F;
  float_round : F -> Z -> F;
  torch_linspace : F -> F -> Z -> list F;
}.

(** Values stored in a parameter group: the learning rate is a float, the
    other entries ([params], [betas], [eps], ...) are opaque here. *)
Inductive pyval (F : Type) : Type :=
| PyFloatV (x : F)
| PyOpaque (tag : Z).
Arguments PyFloatV {F} x.
Arguments PyOpaque {F} tag.

(** [optimizer.param_groups]: a list of dictionaries.  The scheduler's
    [self.optimizer] is a reference to the optimizer the training loop
    holds, so the methods below take the optimizer's state and return it. *)
Abbreviation Optimizer F := (list (gmap string (pyval F))).

Section Scheduler.
Context {F : Type} `{PyFloat F}.

Record AlphaFoldLRScheduler : Type := {
  init_lr : F;
  final_lr : F;
  warmup_lr_length : Z;
  init_lr_length : Z;
  verbose : bool;
  _warmup_linspace : list F;
  _prev_lr_value : option F;   (* [None] is Python's [None] *)
}.

Definition set_prev (s : AlphaFoldLRScheduler) (v : F) : AlphaFoldLRScheduler :=
  {| init_lr := init_lr s; final_lr := final_lr s;
     warmup_lr_length := warmup_lr_length s;
     init_lr_length := init_lr_length s; verbose := verbose s;
     _warmup_linspace := _warmup_linspace s;
     _prev_lr_value := Some v |}.

(** [for param_group in optimizer.param_groups: param_group["lr"] = lr_value];
    the second component is what [print] writes when [verbose]. *)
Definition set_learning_rate (optimizer : Optimizer F) (lr_value : F)
    (verbose : bool) : Optimizer F * list F :=
  ((fun param_group => <["lr" := PyFloatV lr_value]> param_group) <$> optimizer,
   if verbose then [lr_value] else []).

Definition __init__ (init_lr final_lr : F) (warmup_lr_length init_lr_length : Z)
    (verbose : bool) : result AlphaFoldLRScheduler :=
  py_assert 48 (0 <=? warmup_lr_length) ;;
  Ok {| init_lr := init_lr; final_lr := final_lr;
        warmup_lr_length := warmup_lr_length;
        init_lr_length := init_lr_length; verbose := verbose;
        _warmup_linspace :=
          torch_linspace (float_div_int init_lr (Z.max warmup_lr_length 1))
                         init_lr warmup_lr_length;
        _prev_lr_value := None |}.

(** [t[idx].item()] on a one-dimensional tensor: a negative index counts
    from the end, an index out of range raises [IndexError]. *)
Definition tensor_item (t : list F) (idx : Z) : result F :=
  let n := Z.of_nat (length t) in
  let pos := if idx <? 0 then idx + n else idx in
  if (0 <=? pos) && (pos <? n)
  then match t !! Z.to_nat pos with
       | Some x => Ok x
       | None => Raise IndexError
       end
  else Raise IndexError.

(** What [torch.linspace(start, end, steps)] returns in any float format:
    a tensor of [steps] entries whose first is [start] and, when there are
    two or more, whose last is [end].  The entries in between are the
    format's interpolation, about which nothing is assumed. *)
Definition linspace_endpoints (start end_ : F) (steps : Z) : Prop :=
  length (torch_linspace start end_ steps) = Z.to_nat steps /\
  (1 <= steps -> head (torch_linspace start end_ steps) = Some start) /\
  (2 <= steps -> list.last (torch_linspace start end_ steps) = Some end_).

(** "Determine lr_value for given iteration" (lines 58-65). *)
Definition lr_value (s : AlphaFoldLRScheduler) (iteration : Z) : result F :=
  if iteration <=? warmup_lr_length s then
    x ← tensor_item (_warmup_linspace s) (iteration - 1);
    Ok (float_round x 10)
  else if iteration <=? init_lr_length s then
    Ok (init_lr s)
  else
    Ok (final_lr s).

(** [lr_value != self._prev_lr_value]: a float differs from [None]. *)
Definition differs_from_prev (lr_value : F) (prev : option F) : bool :=
  match prev with
  | None => true
  | Some p => float_ne lr_value p
  end.

(** [AlphaFoldLRScheduler.__call__]: the new scheduler, the optimizer and
    the printed lines. *)
Definition __call__ (s : AlphaFoldLRScheduler) (iteration : Z)
    (optimizer : Optimizer F) : result (AlphaFoldLRScheduler * Optimizer F * list F) :=
  v ← lr_value s iteration;
  (* Set only if differs from the previous call: *)
  if differs_from_prev v (_prev_lr_value s) then
    let '(optimizer', out) := set_learning_rate optimizer v (verbose s) in
    Ok (set_prev s v, optimizer', out)
  else
    Ok (s, optimizer, []).

(** A sequence of calls, one per listed iteration. *)
Fixpoint calls (s : AlphaFoldLRScheduler) (optimizer : Optimizer F)
    (iterations : list Z) : result (AlphaFoldLRScheduler * Optimizer F) :=
  match iterations with
  | [] => Ok (s, optimizer)
  | i :: rest =>
      r ← __call__ s i optimizer;
      calls r.1.1 r.1.2 rest
  end.

(** The cache agrees with the optimizer: it is [None] and the optimizer
    is as it was at construction ([o0]), or it holds the rate that every
    parameter group stores. *)
Definition cache_coherent (o0 : Optimizer F) (s : AlphaFoldLRScheduler)
    (o : Optimizer F) : Prop :=
  match _prev_lr_value s with
  | None => o = o0
  | Some r => Forall (fun g => g !! "lr" = Some (PyFloatV r)) o
  end.

End Scheduler.

Arguments AlphaFoldLRScheduler F : clear implicits.

(** *** An exact-arithmetic instance, for concrete runs

    Rationals in place of floats: no rounding error, no NaN.  Division,
    [round] and [torch.linspace] follow their documented meaning:
    [linspace] is the evenly spaced sequence from [start] to [end]
    inclusive, [round(x, d)] the nearest multiple of [10^-d], ties to
    even.  The code computes in float64, so an interior entry of the
    warm-up table, and with it the tenth decimal of a warm-up rate, can
    differ from this instance's; the statements about the schedule hold
    for every instance and do not depend on this arithmetic. *)

Definition round_half_even (q : Q) : Z :=
  let n := Qnum q in
  let d := Z.pos (Qden q) in
  let fl := n / d in
  match 2 * (n mod d) ?= d with
  | Lt => fl
  | Gt => fl + 1
  | Eq => if Z.even fl then fl else fl + 1
  end.

Definition Qc_round (x : Qc) (ndigits : Z) : Qc :=
  let scale := Q2Qc (inject_Z (10 ^ ndigits)) in
  (Q2Qc (inject_Z (round_half_even (x * scale)%Qc)) / scale)%Qc.

Definition Qc_linspace (start end_ : Qc) (steps : Z) : list Qc :=
  if steps <=? 0 then []
  else if steps =? 1 then [start]
  else
    let step := ((end_ - start) / Qc_of_Z (steps - 1))%Qc in
    (fun k => (start + Qc_of_Z k * step)%Qc) <$> seqZ 0 steps.

#[global] Instance Qc_float : PyFloat Qc := {|
  float_ne x y := negb (Qc_eq_bool x y);
  float_div_int x n := (x / Qc_of_Z n)%Qc;
  float_round := Qc_round;
  torch_linspace := Qc_linspace;
|}.

(** Decimal literal [n * 10^-d]. *)
Definition dec (n : Z) (d : Z) : Qc := (Qc_of_Z n / Qc_of_Z (10 ^ d))%Qc.

(** An optimizer with two parameter groups, and schedulers to run. *)
Definition sample_optimizer : Optimizer Qc :=
  [ {[ "lr" := PyFloatV (dec 1 3); "eps" := PyOpaque 0 ]};
    {[ "lr" := PyFloatV (dec 1 3); "weight_decay" := PyOpaque 1 ]} ].

(** Warm-up over 10 iterations to 0.001, plateau to iteration 20. *)
Definition sample_scheduler : result (AlphaFoldLRScheduler Qc) :=
  __init__ (dec 1 3) (dec 5 5) 10 20 true.

Definition sample_s0 : AlphaFoldLRScheduler Qc :=
  Eval vm_compute in the sample_scheduler.

(** The scheduler and the optimizer after calls at iterations 1, 2 and 2
    again, and the rate of iteration 3. *)
Definition sample_after_calls : AlphaFoldLRScheduler Qc * Optimizer Qc :=
  Eval vm_compute in the (calls sample_s0 sample_optimizer [1; 2; 2]).

Definition sample_rate : Qc :=
  Eval vm_compute in the (lr_value sample_after_calls.1 3).

(** A plateau that ends before the warm-up does, and a base rate with
    fourteen decimals. *)
Definition short_plateau_scheduler : result (AlphaFoldLRScheduler Qc) :=
  __init__ (dec 12345678912 14) (dec 1 5) 10 5 false.

(** The sample scheduler and optimizer after a first call at iteration 15,
    on the plateau. *)
Definition sample_plateau_call
    : AlphaFoldLRScheduler Qc * Optimizer Qc * list Qc :=
  Eval vm_compute in the (__call__ sample_s0 15 sample_optimizer).

End LrScheduler.

(** ** Deterministic model construction ([create_alphafold_module]) *)

Module Rng.

Section CreateModule.
(** [rng] is what [np.random.get_state], [torch.get_rng_state] and
    [torch.cuda.get_rng_state] return; CUDA devices are numbered. *)
Context {rng AlphaFoldConfig AlphaFold : Type}.

(** The process-wide generator states. *)
Record Globals : Type := {
  numpy_random_state : rng;
  torch_rng_state : rng;
  torch_cuda_rng_state : gmap Z rng;
}.

(** [openfold.numpy_utils.NUMPY_SEED_MODULUS] *)
Variable NUMPY_SEED_MODULUS : Z.
(** The generator states that seeding produces. *)
Variable numpy_seeded torch_seeded cuda_seeded : Z -> rng.
(** [AlphaFold(config=...)] followed by [.to(device=device)]: draws the
    initial parameters from the global generators, and may raise. *)
Variable construct : AlphaFoldConfig -> Z -> Globals -> result (Globals * AlphaFold).

Definition np_random_get_state (g : Globals) : rng := numpy_random_state g.
Definition torch_get_rng_state (g : Globals) : rng := torch_rng_state g.

Definition torch_cuda_get_rng_state (device : Z) (g : Globals) : result rng :=
  match torch_cuda_rng_state g !! device with
  | Some st => Ok st
  | None => Raise RuntimeError
  end.

(** [np.random.seed] accepts seeds between 0 and 2**32 - 1. *)
Definition np_random_seed (seed : Z) (g : Globals) : result Globals :=
  if (0 <=? seed) && (seed <? 2 ^ 32)
  then Ok {| numpy_random_state := numpy_seeded seed;
             torch_rng_state := torch_rng_state g;
             torch_cuda_rng_state := torch_cuda_rng_state g |}
  else Raise ValueError.

(** [torch.manual_seed] seeds the CPU generator and the generator of
    every CUDA device; it accepts seeds in [-2**63, 2**64). *)
Definition torch_manual_seed (seed : Z) (g : Globals) : result Globals :=
  if (- 2 ^ 63 <=? seed) && (seed <? 2 ^ 64)
  then Ok {| numpy_random_state := numpy_random_state g;
             torch_rng_state := torch_seeded seed;
             torch_cuda_rng_state := (fun _ => cuda_seeded seed) <$> torch_cuda_rng_state g |}
  else Raise RuntimeError.

Definition torch_cuda_set_rng_state (st : rng) (device : Z) (g : Globals)
    : result Globals :=
  match torch_cuda_rng_state g !! device with
  | Some _ =>
      Ok {| numpy_random_state := numpy_random_state g;
            torch_rng_state := torch_rng_state g;
            torch_cuda_rng_state := <[device := st]> (torch_cuda_rng_state g) |}
  | None => Raise RuntimeError
  end.

Definition torch_set_rng_state (st : rng) (g : Globals) : Globals :=
  {| numpy_random_state := numpy_random_state g;
     torch_rng_state := st;
     torch_cuda_rng_state := torch_cuda_rng_state g |}.

Definition np_random_set_state (st : rng) (g : Globals) : Globals :=
  {| numpy_random_state := st;
     torch_rng_state := torch_rng_state g;
     torch_cuda_rng_state := torch_cuda_rng_state g |}.

Definition create_alphafold_module (alphafold_config : AlphaFoldConfig)
    (device : Z) (seed : Z) (g : Globals) : result (Globals * AlphaFold) :=
  let numpy_random_state := np_random_get_state g in
  let torch_rng_state := torch_get_rng_state g in
  torch_cuda_rng_state ← torch_cuda_get_rng_state device g;
  s ← py_mod seed NUMPY_SEED_MODULUS;
  g ← np_random_seed s g;
  g ← torch_manual_seed seed g;
  r ← construct alphafold_config device g;
  let '(g, alphafold) := r in
  g ← torch_cuda_set_rng_state torch_cuda_rng_state device g;
  let g := torch_set_rng_state torch_rng_state g in
  let g := np_random_set_state numpy_random_state g in
  Ok (g, alphafold).

End CreateModule.

Arguments Globals rng : clear implicits.

(** A constructor that advances every generator, for concrete runs. *)
Definition drawing_construct (_ : unit) (_ : Z) (g : Globals Z)
    : result (Globals Z * unit) :=
  Ok ({| numpy_random_state := numpy_random_state g + 1;
         torch_rng_state := torch_rng_state g + 1;
         torch_cuda_rng_state := (fun st => st + 1) <$> torch_cuda_rng_state g |}, tt).

Definition sample_globals : Globals Z :=
  {| numpy_random_state := 11;
     torch_rng_state := 22;
     torch_cuda_rng_state := {[ 0 := 33; 1 := 44 ]} |}.

(** The sample globals after constructing a model on device 0. *)
Definition sample_created : Globals Z * unit :=
  Eval vm_compute in
    the (create_alphafold_module (2 ^ 32) (fun s => s) (fun s => s) (fun s => s)
           drawing_construct tt 0 123456789012 sample_globals).

(** A constructor that draws the parameters from the CPU generators and
    leaves the CUDA generators alone; the model is what it drew. *)
Definition cpu_construct (_ : unit) (_ : Z) (g : Globals Z)
    : result (Globals Z * Z) :=
  Ok ({| numpy_random_state := numpy_random_state g + 1;
         torch_rng_state := torch_rng_state g + 1;
         torch_cuda_rng_state := torch_cuda_rng_state g |},
      numpy_random_state g * 1000 + torch_rng_state g).

(** Other generator states on the same two devices. *)
Definition other_globals : Globals Z :=
  {| numpy_random_state := 1;
     torch_rng_state := 2;
     torch_cuda_rng_state := {[ 0 := 3; 1 := 4 ]} |}.

End Rng.

(** ** The validation cycle ([validation]) *)

Module Validation.

Inductive pyobj : Type :=
| PyInt (n : Z)
| PyStr (s : string)
| PyNum (x : Qc).

(** [torch.nn.Module]: only the [training] flag that [eval()] and
    [train()] set. *)
Record TorchModule : Type := { training : bool }.

Definition eval (m : TorchModule) : TorchModule := {| training := false |}.
Definition train (m : TorchModule) : TorchModule := {| training := true |}.

(** A validation batch: the list of identity tuples under key ["id"] and
    the tensors, opaque here. *)
Record ValBatch : Type := {
  batch_id : list (list pyobj);   (* [val_batch["id"]] *)
  tensors : Z;
}.

(** [len(validation_dataloader)] and the batches its iterator yields. *)
Record ValidationDataloader : Type := {
  dl_len : nat;
  dl_batches : list ValBatch;
}.

Definition py_getitem {A} (l : list A) (k : nat) : result A :=
  match l !! k with
  | Some x => Ok x
  | None => Raise IndexError
  end.

Section WithModel.
(** The forward pass through [compute_validation_metrics] and [.item()]:
    the lDDT-Ca of the sample, or an exception.  It sees the module it is
    called on. *)
Variable forward_lddt_ca : TorchModule -> ValBatch -> result Qc.
(** The [time.perf_counter] difference around a sample. *)
Variable perf : ValBatch -> Qc.

(** One turn of the [for] loop (lines 353-375). *)
Definition validation_step (alphafold : TorchModule) (val_batch_iterator : list ValBatch)
    : result (gmap string pyobj * list ValBatch) :=
  match val_batch_iterator with
  | [] => Raise StopIteration
  | val_batch :: rest =>
      py_assert 355 (Z.of_nat (length (batch_id val_batch)) =? 1) ;;
      id_tuple ← py_getitem (batch_id val_batch) 0;
      lddt_ca ← forward_lddt_ca alphafold val_batch;
      val_index ← py_getitem id_tuple 1;
      pdb_chain_id ← py_getitem id_tuple 3;
      Ok (<["duration" := PyNum (perf val_batch)]>
            (<["pdb_chain_id" := pdb_chain_id]>
               (<["val_index" := val_index]>
                  {["lddt_ca" := PyNum lddt_ca]})),
          rest)
  end.

Fixpoint validation_loop (n : nat) (alphafold : TorchModule)
    (val_batch_iterator : list ValBatch) (val_metrics_list : list (gmap string pyobj))
    : result (list (gmap string pyobj)) :=
  match n with
  | O => Ok val_metrics_list
  | S n' =>
      r ← validation_step alphafold val_batch_iterator;
      validation_loop n' alphafold r.2 (val_metrics_list ++ [r.1])
  end.

(** [validation]: the module as it is when control leaves the function,
    and the result or the exception that left it. *)
Definition validation (alphafold : TorchModule)
    (validation_dataloader : ValidationDataloader)
    : TorchModule * result (list (gmap string pyobj)) :=
  let alphafold := eval alphafold in
  match validation_loop (dl_len validation_dataloader) alphafold
          (dl_batches validation_dataloader) [] with
  | Ok val_metrics_list => (train alphafold, Ok val_metrics_list)
  | Raise e => (alphafold, Raise e)
  end.

(** A sample that a turn of the loop gets through: one identity tuple
    with entries at positions 1 and 3, and a forward pass that succeeds. *)
Definition well_formed (alphafold : TorchModule) (b : ValBatch) : Prop :=
  exists id_tuple val_index pdb_chain_id,
    batch_id b = [id_tuple] /\
    id_tuple !! 1%nat = Some val_index /\
    id_tuple !! 3%nat = Some pdb_chain_id /\
    is_ok (forward_lddt_ca alphafold b) = true.

(** The record that a turn of the loop appends for a batch: the metric
    of its forward pass and the fields 1 and 3 of its single identity. *)
Definition record_of (alphafold : TorchModule) (b : ValBatch)
    (r : gmap string pyobj) : Prop :=
  exists id_tuple val_index pdb_chain_id lddt_ca,
    batch_id b = [id_tuple] /\
    id_tuple !! 1%nat = Some val_index /\
    id_tuple !! 3%nat = Some pdb_chain_id /\
    forward_lddt_ca alphafold b = Ok lddt_ca /\
    r = <["duration" := PyNum (perf b)]>
          (<["pdb_chain_id" := pdb_chain_id]>
             (<["val_index" := val_index]> {["lddt_ca" := PyNum lddt_ca]})).

End WithModel.

(** A well-formed sample and one whose batch carries two identities. *)
Definition good_batch : ValBatch :=
  {| batch_id := [[PyStr "val"; PyInt 0; PyInt 0; PyStr "7abc_A"]]; tensors := 0 |}.
Definition double_batch : ValBatch :=
  {| batch_id := [[PyStr "val"; PyInt 1; PyInt 0; PyStr "7abd_A"];
            [PyStr "val"; PyInt 2; PyInt 0; PyStr "7abe_A"]]; tensors := 1 |}.

Definition const_forward (_ : TorchModule) (_ : ValBatch) : result Qc :=
  Ok (Q2Qc (9 # 10)).
Definition failing_forward (_ : TorchModule) (_ : ValBatch) : result Qc :=
  Raise RuntimeError.
Definition unit_perf (_ : ValBatch) : Qc := Q2Qc 1.

End Validation.

(** ** The training loop ([training])

    One process of the job, as an error monad with a log of its actions.
    The model, the loss, the dataloaders, [validation] and the gather are
    external: the loop sees the loss of each iteration and, on the
    coordinator, the gathered validation metrics.  MLPerf logging, the
    in-memory log records and time measurements are left out.  Every rank
    runs the same loop; a collective is modelled by what each rank brings
    to it. *)

Module Training.
Import Cadence.

(** The fields of [AlphaFoldConfig] that the loop reads. *)
Record AlphaFoldConfig : Type := {
  gradient_clipping : bool;
  clip_grad_max_norm : Qc;
  swa_enabled : bool;
}.

(** What lines 384-414 derive from the environment of a process. *)
Record Process : Type := {
  rank : option Z;
  world_size : option Z;
  main_rank : option Z;
  is_main_process : bool;
}.

Definition init_process (distributed : bool) (RANK WORLD_SIZE : Z) : Process :=
  if distributed then
    let main_rank := 0 in
    {| rank := Some RANK; world_size := Some WORLD_SIZE;
       main_rank := Some main_rank; is_main_process := (RANK =? main_rank) |}
  else
    {| rank := None; world_size := None; main_rank := None;
       is_main_process := true |}.

(** The observable actions of a process, in the order it performs them. *)
Inductive event : Type :=
| ResumeFromLatestCheckpoint
| IterationStart (iteration : Z)
| ManualSeed (iteration : Z)
| NextTrainBatch
| Forward
| ZeroGrad
| Backward (loss : Qc)
| ClipGradNorm (max_norm : Qc)
| LrSchedulerCall (iteration : Z)
| OptimizerStep
| SwaUpdate
| DistReduceLossesAvg
| SaveProcessLogs
| SaveTrainLogs
| CallValidation
| DistGatherValMetrics
| EvalAccuracy (val_avg_lddt_ca : Qc)
| SaveValLog
| Broadcast (src : Z)
| SaveCheckpoint (iteration : Z) (is_validation : bool) (val_avg_lddt_ca : option Qc)
| Break (iteration : Z)
| Barrier
| RunStop.

(** Exceptions with a log: the actions performed so far, and the value or
    the exception that ended the computation. *)
Definition M (A : Type) : Type := (list event * result A)%type.

#[global] Instance M_ret : MRet M := fun A a => ([], Ok a).
#[global] Instance M_bind : MBind M := fun A B k m =>
  match m with
  | (log, Ok a) => let '(log', r) := k a in (log ++ log', r)
  | (log, Raise e) => (log, Raise e)
  end.

Definition emit (e : event) : M unit := ([e], Ok tt).
Definition lift {A} (r : result A) : M A := ([], r).
Definition when (b : bool) (m : M unit) : M unit := if b then m else mret tt.

(** Modelled from the spec: [resume_from_latest_checkpoint] of
    [openfold.checkpoint_utils], which is not among the sources.  It
    "locates the checkpoint with the highest iteration number in the target
    location; if none exists, returns 0 (fresh start)".  The argument lists
    the iteration numbers of the checkpoints found in [training_dirpath]. *)
Definition resume_from_latest_checkpoint (checkpoints : list Z) : Z :=
  match checkpoints with
  | [] => 0
  | c :: rest => foldr Z.max c rest
  end.

(** The arithmetic mean of a non-empty column. *)
Definition mean (column : list Qc) : Qc :=
  (foldr Qcplus (Q2Qc 0) column / Qc_of_Z (Z.of_nat (length column)))%Qc.

(** [float(pd.DataFrame(val_metrics_list)["lddt_ca"].mean())]: a frame
    built from an empty list has no column, and selecting one raises
    [KeyError]. *)
Definition dataframe_mean (column : list Qc) : result Qc :=
  match column with
  | [] => Raise KeyError
  | _ => Ok (mean column)
  end.

(** [torch.distributed.broadcast(tensor, src)]: the tensor of every process
    receives the value that process [src] holds.  [tensors] lists what each
    rank brings to the call; when [src] raised before reaching it the
    collective cannot complete, which the peers see as a failure. *)
Definition dist_broadcast (tensors : list (result Z)) (src : Z) : result Z :=
  match tensors !! Z.to_nat src with
  | Some (Ok v) => Ok v
  | _ => Raise RuntimeError
  end.

Section Loop.
Variable args : Args.
Variable alphafold_config : AlphaFoldConfig.
(** The scalar loss that [alphafold_loss] returns at an iteration. *)
Variable train_loss : Z -> Qc.
(** The ["lddt_ca"] column of [val_metrics_list] as the coordinator holds
    it after [validation] and, when distributed, the gather. *)
Variable val_metrics_list : Z -> list Qc.
(** [len(validation_dataset)] *)
Variable len_validation_dataset : Z.
(** The iteration numbers of the checkpoints in [training_dirpath]. *)
Variable checkpoints : list Z.
(** [WORLD_SIZE] of the job. *)
Variable WORLD_SIZE : Z.

Definition is_logging_enabled : bool := 0 <? log_every_iters args.

(** Lines 891-902, run by the coordinator only. *)
Definition coordinator_aggregate (iteration : Z) : M Qc :=
  val_avg_lddt_ca ← lift (dataframe_mean (val_metrics_list iteration));
  let val_size := Z.of_nat (length (val_metrics_list iteration)) in
  lift (py_assert 896 (val_size =? len_validation_dataset)) ;;
  emit (EvalAccuracy val_avg_lddt_ca) ;;
  mret val_avg_lddt_ca.

(** Lines 891-923: the aggregate where it is bound, and the tensor
    [stop_training_flag] as the process holds it before the broadcast. *)
Definition local_stop_flag (p : Process) (iteration : Z) : M (option Qc * Z) :=
  val_avg_lddt_ca ←
    (if is_main_process p
     then v ← coordinator_aggregate iteration; mret (Some v)
     else mret None);
  when (is_main_process p && is_logging_enabled) (emit SaveValLog) ;;
  (* Check if validation reaches target accuracy: *)
  stop_training_flag ←
    (if is_main_process p then
       match val_avg_lddt_ca with
       | Some v =>
           mret (if bool_decide (target_avg_lddt_ca_value args ≤ v)%Qc
                 then 1 else 0)
       | None => lift (Raise NameError)
       end
     else mret 0);
  mret (val_avg_lddt_ca, stop_training_flag).

(** What each rank of the job brings to the broadcast at an iteration. *)
Definition cluster_flags (iteration : Z) : list (result Z) :=
  (fun r =>
     match (local_stop_flag (init_process true r WORLD_SIZE) iteration).2 with
     | Ok vf => Ok vf.2
     | Raise e => Raise e
     end) <$> seqZ 0 WORLD_SIZE.

(** Lines 862-934: the validation branch. *)
Definition validation_cycle (p : Process) (iteration : Z) : M (option Qc * Z) :=
  emit CallValidation ;;
  when (distributed args) (emit DistGatherValMetrics) ;;
  vf ← local_stop_flag p iteration;
  stop_training_flag ←
    (if distributed args then
       emit (Broadcast (default 0 (main_rank p))) ;;
       lift (dist_broadcast (cluster_flags iteration) (default 0 (main_rank p)))
     else mret vf.2);
  mret (vf.1, stop_training_flag).

(** [if is_validation: ...] around the validation branch; outside it
    neither the aggregate nor the stop flag is bound. *)
Definition validation_branch (p : Process) (iteration : Z)
    (is_validation : bool) : M (option Qc * Z) :=
  if is_validation then validation_cycle p iteration else mret (None, 0).

(** Lines 751-796: forward pass, backward pass and, at the end of an
    accumulation group, the optimizer update. *)
Definition train_step (iteration : Z) : M unit :=
  (* Deterministic forward pass during training: *)
  emit (ManualSeed iteration) ;;
  emit NextTrainBatch ;;
  emit Forward ;;
  let loss := (train_loss iteration
               / Qc_of_Z (gradient_accumulation_iters args))%Qc in
  (* Backward pass: *)
  r ← lift (py_mod (iteration - 1) (gradient_accumulation_iters args));
  when (r =? 0) (emit ZeroGrad) ;;
  emit (Backward loss) ;;
  r ← lift (py_mod iteration (gradient_accumulation_iters args));
  when (r =? 0)
    (when (gradient_clipping alphafold_config)
       (emit (ClipGradNorm (clip_grad_max_norm alphafold_config))) ;;
     emit (LrSchedulerCall iteration) ;;
     emit OptimizerStep ;;
     when (swa_enabled alphafold_config) (emit SwaUpdate)).

(** Lines 798-850: loss reduction and log files.  Every process saves its
    process logs when [--save_process_logs] is given; the main process
    saves the train logs. *)
Definition log_step (p : Process) (iteration : Z) : M unit :=
  (* Average losses from distributed training: *)
  when (is_logging_enabled && distributed args) (emit DistReduceLossesAvg) ;;
  (* Save process and train logs: *)
  if is_logging_enabled then
    r ← lift (py_mod iteration (log_every_iters args));
    when (r =? 0)
      (when (save_process_logs args) (emit SaveProcessLogs) ;;
       when (is_main_process p) (emit SaveTrainLogs))
  else mret tt.

(** Lines 936-953: the coordinator saves the checkpoint when one is due. *)
Definition checkpoint_step (p : Process) (iteration : Z) (is_validation : bool)
    (val_avg_lddt_ca : option Qc) : M unit :=
  if is_main_process p && (0 <? checkpoint_every_iters args) then
    r ← lift (py_mod iteration (checkpoint_every_iters args));
    when (r =? 0)
      (emit (SaveCheckpoint iteration is_validation
               (if is_validation then val_avg_lddt_ca else None)))
  else mret tt.

(** The body of the [for] loop (lines 736-957); the result tells whether
    the loop is left by [break]. *)
Definition iteration_body (p : Process) (iteration : Z) : M bool :=
  emit (IterationStart iteration) ;;
  (* Train-val cycle: *)
  _ ← lift (py_floordiv (iteration - 1) (val_every_iters args));
  _ ← lift (py_mod (iteration - 1) (val_every_iters args));
  r ← lift (py_mod iteration (val_every_iters args));
  let is_train_val_cycle_end := r =? 0 in
  train_step iteration ;;
  log_step p iteration ;;
  (* Validation (evaluation): *)
  let is_validation := is_train_val_cycle_end in
  vf ← validation_branch p iteration is_validation;
  (* Save checkpoint: *)
  checkpoint_step p iteration is_validation vf.1 ;;
  (* Stop training if reached target validation metric: *)
  if is_validation && negb (vf.2 =? 0)
  then emit (Break iteration) ;; mret true
  else mret false.

(** [for iteration in range(first_iteration, args.num_train_iters + 1)] *)
Fixpoint training_loop (p : Process) (iterations : list Z) : M unit :=
  match iterations with
  | [] => mret tt
  | iteration :: rest =>
      stop ← iteration_body p iteration;
      if stop : bool then (mret tt : M unit) else training_loop p rest
  end.

Definition range (start stop : Z) : list Z := seqZ start (stop - start).

(** [training], from the resume on (lines 591-964). *)
Definition training (p : Process) : M unit :=
  emit ResumeFromLatestCheckpoint ;;
  let num_prev_iters := resume_from_latest_checkpoint checkpoints in
  r ← lift (py_mod num_prev_iters (gradient_accumulation_iters args));
  lift (py_assert 600 (r =? 0)) ;;
  (* Training loop: *)
  let first_iteration := num_prev_iters + 1 in
  training_loop p (range first_iteration (num_train_iters args + 1)) ;;
  (* Synchronize before return: *)
  when (distributed args) (emit Barrier) ;;
  emit RunStop.

End Loop.

(** [training(parse_args())] in the process of rank [RANK]. *)
Definition main (args : Args) (alphafold_config : AlphaFoldConfig)
    (train_loss : Z -> Qc) (val_metrics_list : Z -> list Qc)
    (len_validation_dataset : Z) (checkpoints : list Z)
    (RANK WORLD_SIZE : Z) : M unit :=
  args ← lift (parse_args args);
  training args alphafold_config train_loss val_metrics_list
    len_validation_dataset checkpoints WORLD_SIZE
    (init_process (distributed args) RANK WORLD_SIZE).

(** The iterations a log went through. *)
Definition iterations_of (log : list event) : list Z :=
  omap (fun e => match e with IterationStart i => Some i | _ => None end) log.

(** Whether the coordinator's comparison at an iteration asks to stop:
    the iteration ends a train-val cycle and the mean metric reaches the
    target. *)
Definition target_reached (args : Args) (val_metrics_list : Z -> list Qc)
    (iteration : Z) : bool :=
  (iteration mod val_every_iters args =? 0)
  && bool_decide (target_avg_lddt_ca_value args ≤ mean (val_metrics_list iteration))%Qc.

(** The iterations of a range that run when the loop is left at the first
    iteration where the target is reached. *)
Fixpoint until_target (args : Args) (val_metrics_list : Z -> list Qc)
    (iterations : list Z) : list Z :=
  match iterations with
  | [] => []
  | i :: rest =>
      if target_reached args val_metrics_list i then [i]
      else i :: until_target args val_metrics_list rest
  end.

(** The coordinator's stop decision as a tensor value. *)
Definition coordinator_flag (args : Args) (val_metrics_list : Z -> list Qc)
    (iteration : Z) : Z :=
  if bool_decide (target_avg_lddt_ca_value args ≤ mean (val_metrics_list iteration))%Qc
  then 1 else 0.

Definition is_validation_event (e : event) : bool :=
  match e with
  | CallValidation | DistGatherValMetrics | EvalAccuracy _ | SaveValLog
  | Broadcast _ => true
  | _ => false
  end.

(** The actions of the training step and the log step. *)
Definition is_train_event (e : event) : bool :=
  match e with
  | ManualSeed _ | NextTrainBatch | Forward | ZeroGrad | Backward _
  | ClipGradNorm _ | LrSchedulerCall _ | OptimizerStep | SwaUpdate
  | DistReduceLossesAvg | SaveProcessLogs | SaveTrainLogs => true
  | _ => false
  end.

(** The actions between the start of an iteration and its checkpoint. *)
Definition is_step_event (e : event) : bool :=
  is_train_event e || is_validation_event e.

(** The iterations at which a log leaves the loop by [break]. *)
Definition breaks_of (log : list event) : list Z :=
  omap (fun e => match e with Break i => Some i | _ => None end) log.

Definition is_optimizer_action (e : event) : bool :=
  match e with
  | ClipGradNorm _ | LrSchedulerCall _ | OptimizerStep | SwaUpdate => true
  | _ => false
  end.

Definition is_gradient_action (e : event) : bool :=
  match e with
  | ZeroGrad | Backward _ => true
  | _ => is_optimizer_action e
  end.

(** The end-to-end scenario of the specification: 8 iterations,
    accumulation over 2, validation and checkpoint every 4; logs every 2. *)
Definition scenario_args : Args := {|
  num_train_iters := 8;
  log_every_iters := 2;
  checkpoint_every_iters := 4;
  val_every_iters := 4;
  warmup_lr_iters := 0;
  gradient_accumulation_iters := 2;
  target_avg_lddt_ca_value := Q2Qc (8 # 10);
  keep_last_checkpoints := 0;
  keep_best_checkpoints := 0;
  keep_val_checkpoints := false;
  save_process_logs := false;
  distributed := false;
|}.

Definition scenario_args_distributed : Args := {|
  num_train_iters := 8;
  log_every_iters := 2;
  checkpoint_every_iters := 4;
  val_every_iters := 4;
  warmup_lr_iters := 0;
  gradient_accumulation_iters := 2;
  target_avg_lddt_ca_value := Q2Qc (8 # 10);
  keep_last_checkpoints := 0;
  keep_best_checkpoints := 0;
  keep_val_checkpoints := false;
  save_process_logs := false;
  distributed := true;
|}.

Definition scenario_config : AlphaFoldConfig :=
  {| gradient_clipping := true; clip_grad_max_norm := Q2Qc (1 # 10);
     swa_enabled := true |}.

Definition scenario_loss (iteration : Z) : Qc := Qc_of_Z iteration.

(** Two validation samples; the mean is 0.5 at iteration 4 and 0.9 from
    iteration 8 on. *)
Definition scenario_metrics (iteration : Z) : list Qc :=
  if iteration <? 8 then [Q2Qc (4 # 10); Q2Qc (6 # 10)]
  else [Q2Qc (8 # 10); Q2Qc 1].

(** The target is already met at iteration 4. *)
Definition early_metrics (iteration : Z) : list Qc := [Q2Qc (8 # 10); Q2Qc 1].

(** One sample is missing from the gather. *)
Definition short_metrics (iteration : Z) : list Qc := [Q2Qc (9 # 10)].

(** The iterations at which a log calls the LR scheduler. *)
Definition lr_calls_of (log : list event) : list Z :=
  omap (fun e => match e with LrSchedulerCall i => Some i | _ => None end) log.

Definition is_optimizer_step (e : event) : bool :=
  match e with OptimizerStep => true | _ => false end.

(** The actions of the log step (lines 798-850). *)
Definition is_log_action (e : event) : bool :=
  match e with
  | DistReduceLossesAvg | SaveProcessLogs | SaveTrainLogs => true
  | _ => false
  end.

(** The calls into [torch.distributed], which every rank has to enter. *)
Definition is_collective (e : event) : bool :=
  match e with
  | DistReduceLossesAvg | DistGatherValMetrics | Broadcast _ | Barrier => true
  | _ => false
  end.

(** What the code guards with [is_main_process]: the published aggregate,
    the validation log and the checkpoint. *)
Definition is_coordinator_output (e : event) : bool :=
  match e with
  | EvalAccuracy _ | SaveValLog | SaveCheckpoint _ _ _ => true
  | _ => false
  end.

End Training.

(** * Properties *)

(** ** Cadence validation *)

Section CadenceFacts.
Import Cadence.

Lemma assert_divides_spec (line a b : Z) :
  b <> 0 ->
  (assert_divides line a b = Ok tt /\ (b | a)) \/
  (assert_divides line a b = Raise (AssertionError line) /\ ~ (b | a)).
Proof.
  intros Hb. unfold assert_divides, py_mod.
  destruct (Z.eqb_spec b 0) as [|_]; [contradiction|]. cbn.
  destruct (Z.eqb_spec (a mod b) 0) as [E|E].
  - left. split; [reflexivity|]. now apply Z.mod_divide.
  - right. split; [reflexivity|]. intros D. apply E. now apply Z.mod_divide.
Qed.

Ltac step_divides line a b Hb :=
  let H := fresh "H" in
  let D := fresh "D" in
  destruct (assert_divides_spec line a b Hb) as [[H D]|[H D]];
  rewrite H; cbn;
  [| right; eexists; split; [reflexivity | unfold cadence_ok; intuition lia]].

Lemma parse_args_cases (args : Args) :
  (parse_args args = Ok args /\ cadence_ok args) \/
  (exists line, parse_args args = Raise (AssertionError line) /\ ~ cadence_ok args).
Proof.
  unfold parse_args.
  destruct args as [nt le ce ve wu g tgt kl kb kv sp di]; cbn.
  destruct (Z.ltb_spec 0 ce) as [Hce|Hce]; cbn.
  - assert (Hce0 : ce <> 0) by lia.
    step_divides 268 ve ce Hce0.
    destruct (Z.ltb_spec 0 le) as [Hle|Hle]; cbn.
    + assert (Hle0 : le <> 0) by lia.
      step_divides 271 ve le Hle0.
      step_divides 273 ce le Hle0.
      destruct (Z.leb_spec 1 g) as [Hg|Hg]; cbn;
        [| right; eexists; split; [reflexivity | unfold cadence_ok; cbn; lia]].
      assert (Hg0 : g <> 0) by lia.
      step_divides 276 nt g Hg0. step_divides 277 ve g Hg0.
      step_divides 278 ce g Hg0. step_divides 279 le g Hg0.
      step_divides 280 wu g Hg0.
      left. split; [reflexivity|]. unfold cadence_ok; cbn. intuition.
    + destruct (Z.leb_spec 1 g) as [Hg|Hg]; cbn;
        [| right; eexists; split; [reflexivity | unfold cadence_ok; cbn; lia]].
      assert (Hg0 : g <> 0) by lia.
      step_divides 276 nt g Hg0. step_divides 277 ve g Hg0.
      step_divides 278 ce g Hg0. step_divides 279 le g Hg0.
      step_divides 280 wu g Hg0.
      left. split; [reflexivity|]. unfold cadence_ok; cbn. intuition lia.
  - destruct (Z.ltb_spec 0 le) as [Hle|Hle]; cbn.
    + assert (Hle0 : le <> 0) by lia.
      step_divides 271 ve le Hle0.
      destruct (Z.leb_spec 1 g) as [Hg|Hg]; cbn;
        [| right; eexists; split; [reflexivity | unfold cadence_ok; cbn; lia]].
      assert (Hg0 : g <> 0) by lia.
      step_divides 276 nt g Hg0. step_divides 277 ve g Hg0.
      step_divides 278 ce g Hg0. step_divides 279 le g Hg0.
      step_divides 280 wu g Hg0.
      left. split; [reflexivity|]. unfold cadence_ok; cbn. intuition lia.
    + destruct (Z.leb_spec 1 g) as [Hg|Hg]; cbn;
        [| right; eexists; split; [reflexivity | unfold cadence_ok; cbn; lia]].
      assert (Hg0 : g <> 0) by lia.
      step_divides 276 nt g Hg0. step_divides 277 ve g Hg0.
      step_divides 278 ce g Hg0. step_divides 279 le g Hg0.
      step_divides 280 wu g Hg0.
      left. split; [reflexivity|]. unfold cadence_ok; cbn. intuition lia.
Qed.

Example default_args_accepted : parse_args default_args = Ok default_args.
Proof. reflexivity. Qed.

(** The check of line 279 applies to a disabled log interval too. *)
Example disabled_log_interval_checked :
  parse_args accumulation_with_defaults = Raise (AssertionError 279).
Proof. reflexivity. Qed.

(** C1, as the claim words it, fails: with checkpoints every 20 iterations
    and logs every 8, every constraint the claim lists holds (all four
    intervals are multiples of the accumulation length 4, and 40 is a
    multiple of both 20 and 8), yet start-up validation fails, at the
    assertion of line 273 that the checkpoint interval is a multiple of the
    log interval. *)
Lemma cadence_claim_counterexample :
  spec_cadence_invariant log_checkpoint_mismatch /\
  spec_cadence_invariant_exempt log_checkpoint_mismatch /\
  parse_args log_checkpoint_mismatch = Raise (AssertionError 273).
Proof.
  unfold spec_cadence_invariant, spec_cadence_invariant_exempt; cbn.
  assert (D1 : (4 | 2000)) by (exists 500; reflexivity).
  assert (D2 : (4 | 40)) by (exists 10; reflexivity).
  assert (D3 : (4 | 20)) by (exists 5; reflexivity).
  assert (D4 : (4 | 8)) by (exists 2; reflexivity).
  assert (D5 : (20 | 40)) by (exists 2; reflexivity).
  assert (D6 : (8 | 40)) by (exists 5; reflexivity).
  repeat split; auto.
Qed.

(** C1 (amended): start-up validation succeeds exactly when the accumulation
    length is at least 1, each of the five intervals (training, validation,
    checkpoint, log and warm-up) is an exact multiple of it, the validation
    interval is a multiple of the checkpoint interval when that is positive
    and of the log interval when that is positive, and the checkpoint
    interval is a multiple of the log interval when both are positive.  A
    violation raises an [AssertionError] and the run performs no action at
    all.  The configuration with validation every 40 and checkpoints every 7
    is rejected; validation every 40, checkpoints every 20, accumulation
    over 4 and logs every 4 is accepted. *)
Theorem cadence_validation_iff (args : Args)
    (alphafold_config : Training.AlphaFoldConfig)
    (train_loss : Z -> Qc) (val_metrics_list : Z -> list Qc)
    (len_validation_dataset : Z) (checkpoints : list Z) (RANK WORLD_SIZE : Z) :
  (parse_args args = Ok args <-> cadence_ok args) /\
  (~ cadence_ok args <->
     exists line,
       parse_args args = Raise (AssertionError line) /\
       Training.main args alphafold_config train_loss val_metrics_list
         len_validation_dataset checkpoints RANK WORLD_SIZE
       = ([], Raise (AssertionError line))) /\
  parse_args rejected_example = Raise (AssertionError 268) /\
  parse_args accepted_example = Ok accepted_example.
Proof.
  split; [|split; [|split; reflexivity]].
  - destruct (parse_args_cases args) as [[E C]|[line [E C]]]; rewrite E.
    + tauto.
    + split; [discriminate | contradiction].
  - destruct (parse_args_cases args) as [[E C]|[line [E C]]].
    + split; [contradiction|]. intros [line [E' _]]. congruence.
    + split; [|auto]. intros _. exists line. split; [exact E|].
      unfold Training.main. rewrite E. reflexivity.
Qed.

(** *** What acceptance implies for the loop *)

Lemma mod_of_multiple (a b i : Z) : (a | b) -> i mod b = 0 -> i mod a = 0.
Proof.
  intros [k ->] Hi.
  destruct (Z.eq_dec a 0) as [->|Ha].
  - rewrite Z.mul_0_r in Hi. exact Hi.
  - destruct (Z.eq_dec k 0) as [->|Hk].
    + rewrite Z.mul_0_l, Z.mod_0_r in Hi. subst i. now apply Z.mod_0_l.
    + apply Z.mod_divide; [exact Ha|].
      apply Z.mod_divide in Hi; [|lia].
      destruct Hi as [q ->]. exists (q * k). ring.
Qed.

(** X1: under an accepted configuration the cadences of the loop are nested:
    an iteration that ends a train-val cycle ([i % val_every_iters = 0])
    also ends an accumulation group, is a checkpoint iteration when
    checkpoints are enabled and a log iteration when logs are enabled; a
    checkpoint iteration ends an accumulation group and is a log iteration
    when logs are enabled; a log iteration ends an accumulation group. *)
Theorem accepted_cadences_coincide (args : Args) (i : Z) :
  parse_args args = Ok args ->
  let g := gradient_accumulation_iters args in
  let ce := checkpoint_every_iters args in
  let le := log_every_iters args in
  (i mod val_every_iters args = 0 ->
     i mod g = 0 /\ (0 < ce -> i mod ce = 0) /\ (0 < le -> i mod le = 0)) /\
  (0 < ce -> i mod ce = 0 -> i mod g = 0 /\ (0 < le -> i mod le = 0)) /\
  (0 < le -> i mod le = 0 -> i mod g = 0).
Proof.
  intros Hacc g ce le.
  destruct (parse_args_cases args) as [[_ C]|[line [E _]]]; [|congruence].
  destruct C as (Hg & _ & Dv & Dc & Dl & _ & Dcv & Dlv & Dlc).
  fold g ce le in Hg, Dv, Dc, Dl, Dcv, Dlv, Dlc.
  split; [|split].
  - intros Hi. split; [now apply (mod_of_multiple _ _ _ Dv)|].
    split; intros Hpos.
    + now apply (mod_of_multiple _ _ _ (Dcv Hpos)).
    + now apply (mod_of_multiple _ _ _ (Dlv Hpos)).
  - intros Hpos Hi. split; [now apply (mod_of_multiple _ _ _ Dc)|].
    intros Hl. now apply (mod_of_multiple _ _ _ (Dlc Hpos Hl)).
  - intros _ Hi. now apply (mod_of_multiple _ _ _ Dl).
Qed.

(** X2: the accumulation checks of lines 278-279 apply to disabled intervals
    too: an accepted configuration whose log (or checkpoint) interval lies
    strictly between minus the accumulation length and the accumulation
    length has that interval equal to 0.  So the default [-1] of
    [--log_every_iters] is accepted only without accumulation. *)
Theorem disabled_interval_must_divide (args : Args) :
  parse_args args = Ok args ->
  let g := gradient_accumulation_iters args in
  (- g < log_every_iters args < g -> log_every_iters args = 0) /\
  (- g < checkpoint_every_iters args < g -> checkpoint_every_iters args = 0) /\
  (log_every_iters args = -1 -> g = 1).
Proof.
  intros Hacc g.
  destruct (parse_args_cases args) as [[_ C]|[line [E _]]]; [|congruence].
  destruct C as (Hg & _ & _ & Dc & Dl & _). fold g in Hg, Dc, Dl.
  assert (Hsmall : forall x, (g | x) -> - g < x < g -> x = 0).
  { intros x [k ->] Hx.
    destruct (Z.lt_trichotomy k 0) as [Hk|[->|Hk]]; [|reflexivity|].
    - assert ((k + 1) * g <= 0) by (apply Z.mul_nonpos_nonneg; lia). lia.
    - assert (0 <= (k - 1) * g) by (apply Z.mul_nonneg_nonneg; lia). lia. }
  split; [exact (Hsmall _ Dl)|]. split; [exact (Hsmall _ Dc)|].
  intros Hl. assert (Hin : - g < log_every_iters args < g -> False).
  { intros Hx. specialize (Hsmall _ Dl Hx). lia. }
  lia.
Qed.

Lemma accepted_cadences_coincide_witness :
  40 mod 4 = 0 /\ (0 < 20 -> 40 mod 20 = 0) /\ (0 < 4 -> 40 mod 4 = 0).
Proof.
  exact (proj1 (accepted_cadences_coincide accepted_example 40 eq_refl) eq_refl).
Defined.

Lemma disabled_interval_must_divide_witness :
  (- 1 < log_every_iters default_args < 1 -> log_every_iters default_args = 0) /\
  (- 1 < checkpoint_every_iters default_args < 1
   -> checkpoint_every_iters default_args = 0) /\
  (log_every_iters default_args = -1 -> gradient_accumulation_iters default_args = 1).
Proof.
  exact (disabled_interval_must_divide default_args eq_refl).
Defined.

End CadenceFacts.

(** ** The learning-rate schedule *)

Section LrFacts.
Import LrScheduler.
Context {F : Type} `{PyFloat F}.

Lemma lr_value_set_prev (s : AlphaFoldLRScheduler F) (v : F) (i : Z) :
  lr_value (set_prev s v) i = lr_value s i.
Proof. reflexivity. Qed.

Lemma set_learning_rate_groups (o : Optimizer F) (v : F) (vb : bool) :
  (set_learning_rate o v vb).1
  = (fun g : gmap string (pyval F) => <["lr" := PyFloatV v]> g) <$> o.
Proof. reflexivity. Qed.

Lemma set_learning_rate_length (o : Optimizer F) (v : F) (vb : bool) :
  length (set_learning_rate o v vb).1 = length o.
Proof. rewrite set_learning_rate_groups. apply length_fmap. Qed.

Lemma set_learning_rate_lr (o : Optimizer F) (v : F) (vb : bool) :
  Forall (fun g => g !! "lr" = Some (PyFloatV v)) (set_learning_rate o v vb).1.
Proof.
  rewrite set_learning_rate_groups. apply Forall_fmap, Forall_forall.
  intros g _. cbn. apply lookup_insert_eq.
Qed.

Lemma set_learning_rate_frame (o : Optimizer F) (v : F) (vb : bool)
    (k : nat) (g' : gmap string (pyval F)) :
  (set_learning_rate o v vb).1 !! k = Some g' ->
  exists g, o !! k = Some g /\ forall key, key <> "lr" -> g' !! key = g !! key.
Proof.
  rewrite set_learning_rate_groups, list_lookup_fmap.
  destruct (o !! k) as [g|]; [|discriminate].
  cbn. intros [= <-]. exists g. split; [reflexivity|].
  intros key Hk. now apply lookup_insert_ne.
Qed.

(** What a call does, read off [__call__]. *)
Lemma call_unchanged (s : AlphaFoldLRScheduler F) (i : Z) (o : Optimizer F) (v : F) :
  lr_value s i = Ok v ->
  differs_from_prev v (_prev_lr_value s) = false ->
  __call__ s i o = Ok (s, o, []).
Proof. intros Hv Hd. unfold __call__. rewrite Hv. cbn. now rewrite Hd. Qed.

Lemma call_writes (s : AlphaFoldLRScheduler F) (i : Z) (o : Optimizer F) (v : F) :
  lr_value s i = Ok v ->
  differs_from_prev v (_prev_lr_value s) = true ->
  __call__ s i o
  = Ok (set_prev s v, (set_learning_rate o v (verbose s)).1,
        if verbose s then [v] else []).
Proof. intros Hv Hd. unfold __call__. rewrite Hv. cbn. now rewrite Hd. Qed.

Lemma call_coherent (o0 : Optimizer F) (s s' : AlphaFoldLRScheduler F)
    (o o' : Optimizer F) (i : Z) (out : list F) :
  cache_coherent o0 s o ->
  __call__ s i o = Ok (s', o', out) ->
  cache_coherent o0 s' o'.
Proof.
  intros Hc. unfold __call__.
  destruct (lr_value s i) as [v|e]; cbn; [|discriminate].
  destruct (differs_from_prev v (_prev_lr_value s)); cbn.
  - intros [= <- <- _]. unfold cache_coherent; cbn.
    apply (set_learning_rate_lr o v (verbose s)).
  - now intros [= <- <- _].
Qed.

Lemma calls_coherent (o0 : Optimizer F) (its : list Z) :
  forall (s s' : AlphaFoldLRScheduler F) (o o' : Optimizer F),
    cache_coherent o0 s o ->
    calls s o its = Ok (s', o') ->
    cache_coherent o0 s' o'.
Proof.
  induction its as [|i its IH]; intros s s' o o' Hc; cbn.
  - now intros [= <- <-].
  - destruct (__call__ s i o) as [[[s1 o1] out]|e] eqn:E; cbn; [|discriminate].
    intros Hrest. eapply IH; [|exact Hrest]. eapply call_coherent; eauto.
Qed.

Lemma init_coherent (init final : F) (w p : Z) (vb : bool)
    (s0 : AlphaFoldLRScheduler F) (o0 : Optimizer F) :
  __init__ init final w p vb = Ok s0 -> cache_coherent o0 s0 o0.
Proof.
  unfold __init__. destruct (0 <=? w); cbn; [|discriminate].
  intros [= <-]. reflexivity.
Qed.

(** C3: for any sequence of calls on a fresh scheduler, the cache is the
    rate last written to the parameter groups; a further call whose rate
    equals the cached one leaves scheduler and parameter groups as they
    are and prints nothing; a call whose rate differs from the cache (or
    the first call, the cache being [None]) writes the rate under ["lr"]
    in every parameter group, touches no other entry, and records the rate
    as the last applied one; applying the schedule twice at one iteration
    changes nothing the second time. *)
Theorem lr_applied_only_on_change
    (init final : F) (w p : Z) (vb : bool) (o0 : Optimizer F) (its : list Z)
    (s0 s : AlphaFoldLRScheduler F) (o : Optimizer F) (i : Z) (v : F) :
  __init__ init final w p vb = Ok s0 ->
  calls s0 o0 its = Ok (s, o) ->
  lr_value s i = Ok v ->
  cache_coherent o0 s o /\
  (forall r, _prev_lr_value s = Some r -> float_ne v r = false ->
     __call__ s i o = Ok (s, o, [])) /\
  (differs_from_prev v (_prev_lr_value s) = true ->
     exists s' o' out,
       __call__ s i o = Ok (s', o', out) /\
       _prev_lr_value s' = Some v /\
       length o' = length o /\
       Forall (fun g => g !! "lr" = Some (PyFloatV v)) o' /\
       (forall k g', o' !! k = Some g' ->
          exists g, o !! k = Some g /\
                    forall key, key <> "lr" -> g' !! key = g !! key)) /\
  (float_ne v v = false ->
     forall s1 o1 out, __call__ s i o = Ok (s1, o1, out) ->
       __call__ s1 i o1 = Ok (s1, o1, [])).
Proof.
  intros Hinit Hcalls Hv. split; [|split; [|split]].
  - eapply calls_coherent; [|exact Hcalls]. eapply init_coherent; eauto.
  - intros r Hr Hne. apply (call_unchanged s i o v Hv). now rewrite Hr.
  - intros Hd. eexists _, _, _. split; [apply (call_writes s i o v Hv Hd)|].
    split; [reflexivity|]. split; [apply set_learning_rate_length|].
    split; [apply set_learning_rate_lr|]. intros k g'.
    apply set_learning_rate_frame.
  - intros Hrefl s1 o1 out.
    destruct (differs_from_prev v (_prev_lr_value s)) eqn:Hd.
    + rewrite (call_writes s i o v Hv Hd). intros [= <- <- _].
      apply (call_unchanged _ i _ v); [exact Hv|]. cbn. exact Hrefl.
    + rewrite (call_unchanged s i o v Hv Hd). intros [= <- <- _].
      now apply (call_unchanged s i o v).
Qed.

(** *** The three segments *)

Lemma tensor_item_in_range (t : list F) (k : Z) :
  0 <= k < Z.of_nat (length t) ->
  exists x, t !! Z.to_nat k = Some x /\ tensor_item t k = Ok x.
Proof.
  intros Hk. unfold tensor_item.
  destruct (Z.ltb_spec k 0); [lia|].
  destruct (Z.leb_spec 0 k); [|lia].
  destruct (Z.ltb_spec k (Z.of_nat (length t))); [|lia]. cbn [andb].
  destruct (lookup_lt_is_Some_2 t (Z.to_nat k)) as [x Hx]; [lia|].
  exists x. now rewrite Hx.
Qed.

(** C4 (amended): in any float format in which the warm-up table
    [torch.linspace(init_lr / max(warmup_lr_length, 1), init_lr,
    warmup_lr_length)] has [warmup_lr_length] entries, the first of them
    its [start] and, when there are two or more, the last its [end], the
    schedule of a scheduler that could be constructed is, for an iteration
    [i >= 1]: while [i <= warmup_lr_length], the entry [i - 1] of the
    table rounded to 10 decimals by the format's [round], so that the
    first rate is [init_lr / warmup_lr_length] rounded and, with a warm-up
    of two or more iterations, the last warm-up rate is [init_lr] rounded;
    for [warmup_lr_length < i <= init_lr_length] exactly [init_lr]; and for
    [i] beyond both [warmup_lr_length] and [init_lr_length] exactly
    [final_lr].  The warm-up branch is tested first. *)
Theorem lr_schedule_three_segments
    (init final : F) (w p : Z) (vb : bool) (s : AlphaFoldLRScheduler F) (i : Z) :
  linspace_endpoints (float_div_int init (Z.max w 1)) init w ->
  __init__ init final w p vb = Ok s ->
  1 <= i ->
  (i <= w ->
     exists x,
       torch_linspace (float_div_int init (Z.max w 1)) init w !! Z.to_nat (i - 1)
       = Some x /\
       lr_value s i = Ok (float_round x 10)) /\
  (w < i <= p -> lr_value s i = Ok init) /\
  (w < i -> p < i -> lr_value s i = Ok final) /\
  (1 <= w -> lr_value s 1 = Ok (float_round (float_div_int init w) 10)) /\
  (2 <= w -> lr_value s w = Ok (float_round init 10)).
Proof.
  intros (Hlen & Hhead & Hlast) Hinit Hi. unfold __init__ in Hinit.
  destruct (Z.leb_spec 0 w) as [Hw|Hw]; cbn in Hinit; [|discriminate].
  injection Hinit as <-.
  set (table := torch_linspace (float_div_int init (Z.max w 1)) init w) in *.
  assert (Hwarm : forall j, 1 <= j <= w ->
            exists x, table !! Z.to_nat (j - 1) = Some x /\
                      lr_value
                        {| init_lr := init; final_lr := final;
                           warmup_lr_length := w; init_lr_length := p;
                           verbose := vb; _warmup_linspace := table;
                           _prev_lr_value := None |} j
                      = Ok (float_round x 10)).
  { intros j Hj. unfold lr_value; cbn [warmup_lr_length _warmup_linspace].
    destruct (Z.leb_spec j w); [|lia].
    destruct (tensor_item_in_range table (j - 1)) as (x & Hx & ->); [lia|].
    exists x. split; [exact Hx | reflexivity]. }
  split; [|split; [|split; [|split]]].
  - intros Hle. apply Hwarm. lia.
  - intros [H1 H2]. unfold lr_value; cbn.
    destruct (Z.leb_spec i w); [lia|].
    destruct (Z.leb_spec i p); [reflexivity | lia].
  - intros H1 H2. unfold lr_value; cbn.
    destruct (Z.leb_spec i w); [lia|].
    destruct (Z.leb_spec i p); [lia | reflexivity].
  - intros H1. destruct (Hwarm 1) as (x & Hx & ->); [lia|].
    specialize (Hhead H1). rewrite head_lookup in Hhead.
    change (Z.to_nat (1 - 1)) with 0%nat in Hx. rewrite Hx in Hhead.
    injection Hhead as ->. now replace (Z.max w 1) with w by lia.
  - intros H2. destruct (Hwarm w) as (x & Hx & ->); [lia|].
    specialize (Hlast H2). rewrite last_lookup, Hlen in Hlast.
    replace (Nat.pred (Z.to_nat w)) with (Z.to_nat (w - 1)) in Hlast by lia.
    rewrite Hx in Hlast. now injection Hlast as ->.
Qed.

(** *** Further properties of the scheduler *)

(** X3: writing a rate and then another leaves the parameter groups as
    writing the second alone does; in particular writing a rate twice is
    writing it once. *)
Theorem set_learning_rate_last_wins (o : Optimizer F) (a b : F) (va vb : bool) :
  (set_learning_rate (set_learning_rate o a va).1 b vb).1
  = (set_learning_rate o b vb).1.
Proof.
  rewrite !set_learning_rate_groups, <- list_fmap_compose.
  apply list_fmap_ext. intros k g _. cbn. apply insert_insert_eq.
Qed.

(** Over a sequence of calls the optimizer keeps its parameter groups,
    and every entry other than ["lr"]. *)
Lemma calls_frame (its : list Z) :
  forall (s s' : AlphaFoldLRScheduler F) (o o' : Optimizer F),
    calls s o its = Ok (s', o') ->
    length o' = length o /\
    forall k g', o' !! k = Some g' ->
      exists g, o !! k = Some g /\
                forall key, key <> "lr" -> g' !! key = g !! key.
Proof.
  induction its as [|i its IH]; intros s s' o o'; cbn.
  - intros [= <- <-]. split; [reflexivity|]. eauto.
  - unfold __call__ at 1.
    destruct (lr_value s i) as [v|e]; cbn; [|discriminate].
    destruct (differs_from_prev v (_prev_lr_value s)); cbn.
    + intros Hrest. destruct (IH _ _ _ _ Hrest) as [Hlen Hfr].
      split; [now rewrite Hlen, length_fmap|].
      intros k g' Hk. destruct (Hfr k g' Hk) as (g1 & Hg1 & Hkeys).
      destruct (set_learning_rate_frame o v (verbose s) k g1 Hg1)
        as (g & Hg & Hkeys').
      exists g. split; [exact Hg|]. intros key Hkey.
      now rewrite Hkeys, Hkeys'.
    + intros Hrest. now apply (IH _ _ _ _ Hrest).
Qed.

Lemma calls_cache_set (its : list Z) :
  forall (s s' : AlphaFoldLRScheduler F) (o o' : Optimizer F),
    its <> [] \/ is_Some (_prev_lr_value s) ->
    calls s o its = Ok (s', o') ->
    (forall r, _prev_lr_value s = Some r ->
       Forall (fun g => g !! "lr" = Some (PyFloatV r)) o) ->
    exists r, _prev_lr_value s' = Some r /\
              Forall (fun g => g !! "lr" = Some (PyFloatV r)) o'.
Proof.
  induction its as [|i its IH]; intros s s' o o' Hne Hcalls Hcoh; cbn in Hcalls.
  - injection Hcalls as <- <-. destruct Hne as [Hne|[r Hr]]; [contradiction|].
    exists r. split; [exact Hr | now apply Hcoh].
  - unfold __call__ at 1 in Hcalls.
    destruct (lr_value s i) as [v|e]; cbn in Hcalls; [|discriminate].
    destruct (differs_from_prev v (_prev_lr_value s)) eqn:Hd; cbn in Hcalls.
    + refine (IH _ _ _ _ _ Hcalls _); [right; eexists; reflexivity|].
      cbn. intros r [= <-]. apply (set_learning_rate_lr o v (verbose s)).
    + destruct (_prev_lr_value s) as [r0|] eqn:Hp; [|discriminate].
      rewrite <- Hp in Hcoh.
      refine (IH _ _ _ _ _ Hcalls Hcoh). right. rewrite Hp. eexists; reflexivity.
Qed.

(** X4: after at least one call on a fresh scheduler the rate of the optimizer
    is the scheduler's, whatever the optimizer held before: the cache is
    set, every parameter group stores the cached rate under ["lr"], and
    the optimizer has the groups it had, with every other entry as it
    was. *)
Theorem calls_take_over_rate
    (init final : F) (w p : Z) (vb : bool) (o0 o : Optimizer F)
    (its : list Z) (s0 s : AlphaFoldLRScheduler F) :
  __init__ init final w p vb = Ok s0 ->
  its <> [] ->
  calls s0 o0 its = Ok (s, o) ->
  (exists r, _prev_lr_value s = Some r /\
             Forall (fun g => g !! "lr" = Some (PyFloatV r)) o) /\
  length o = length o0 /\
  (forall k g', o !! k = Some g' ->
     exists g, o0 !! k = Some g /\
               forall key, key <> "lr" -> g' !! key = g !! key).
Proof.
  intros Hinit Hne Hcalls. split; [|exact (calls_frame its _ _ _ _ Hcalls)].
  refine (calls_cache_set its _ _ _ _ (or_introl Hne) Hcalls _).
  unfold __init__ in Hinit. destruct (0 <=? w); cbn in Hinit; [|discriminate].
  injection Hinit as <-. cbn. discriminate.
Qed.

(** X5: a call that recomputes the cached rate writes nothing, whatever the
    optimizer holds: once a rate is applied, a change made to the
    optimizer from outside (such as loading a state) is not undone by
    calls at iterations with the same rate. *)
Theorem call_does_not_reapply
    (s s' : AlphaFoldLRScheduler F) (o o' : Optimizer F) (out : list F)
    (i j : Z) (v : F) :
  __call__ s i o = Ok (s', o', out) ->
  lr_value s i = Ok v ->
  lr_value s j = Ok v ->
  float_ne v v = false ->
  forall o2 : Optimizer F, __call__ s' j o2 = Ok (s', o2, []).
Proof.
  intros Hcall Hi Hj Hrefl o2.
  assert (Hs' : differs_from_prev v (_prev_lr_value s') = false
                /\ lr_value s' j = Ok v).
  { unfold __call__ in Hcall. rewrite Hi in Hcall. cbn in Hcall.
    destruct (differs_from_prev v (_prev_lr_value s)) eqn:Hd; cbn in Hcall.
    - injection Hcall as <- _ _. split; [exact Hrefl | exact Hj].
    - injection Hcall as <- _ _. split; [exact Hd | exact Hj]. }
  destruct Hs' as [Hd Hv]. now apply (call_unchanged s' j o2 v Hv).
Qed.

(** Within a segment of constant rate the schedule is applied once: when
    the cache holds [init_lr], calls at plateau iterations change neither
    scheduler nor optimizer, and likewise for [final_lr] in the tail. *)
Lemma constant_segment_calls
    (s : AlphaFoldLRScheduler F) (o : Optimizer F) (its : list Z) :
  (_prev_lr_value s = Some (init_lr s) ->
   float_ne (init_lr s) (init_lr s) = false ->
   Forall (fun j => warmup_lr_length s < j <= init_lr_length s) its ->
   calls s o its = Ok (s, o)) /\
  (_prev_lr_value s = Some (final_lr s) ->
   float_ne (final_lr s) (final_lr s) = false ->
   Forall (fun j => warmup_lr_length s < j /\ init_lr_length s < j) its ->
   calls s o its = Ok (s, o)).
Proof.
  split; intros Hp Hrefl Hits; induction Hits as [|j its Hj _ IH];
    try reflexivity; cbn [calls].
  - rewrite (call_unchanged s j o (init_lr s)); [exact IH | |].
    + unfold lr_value. destruct (Z.leb_spec j (warmup_lr_length s)); [lia|].
      destruct (Z.leb_spec j (init_lr_length s)); [reflexivity | lia].
    + now rewrite Hp.
  - rewrite (call_unchanged s j o (final_lr s)); [exact IH | |].
    + unfold lr_value. destruct (Z.leb_spec j (warmup_lr_length s)); [lia|].
      destruct (Z.leb_spec j (init_lr_length s)); [lia | reflexivity].
    + now rewrite Hp.
Qed.

End LrFacts.

Section LrExact.
Import LrScheduler.
Local Open Scope Qc_scope.

Lemma Qc_linspace_length (start end_ : Qc) (steps : Z) :
  length (Qc_linspace start end_ steps) = Z.to_nat steps.
Proof.
  unfold Qc_linspace.
  destruct (Z.leb_spec steps 0); [cbn; lia|].
  destruct (Z.eqb_spec steps 1) as [->|]; [reflexivity|].
  now rewrite length_fmap, length_seqZ.
Qed.

Lemma Qc_linspace_lookup (start end_ : Qc) (steps k : Z) :
  (2 <= steps)%Z -> (0 <= k < steps)%Z ->
  Qc_linspace start end_ steps !! Z.to_nat k
  = Some (start + Qc_of_Z k * ((end_ - start) / Qc_of_Z (steps - 1))).
Proof.
  intros Hs Hk. unfold Qc_linspace.
  destruct (Z.leb_spec steps 0); [lia|].
  destruct (Z.eqb_spec steps 1); [lia|].
  rewrite list_lookup_fmap, lookup_seqZ_lt by lia.
  cbn. now rewrite Z2Nat.id by lia.
Qed.

Lemma Qc_of_Z_nonzero (n : Z) : n <> 0%Z -> Qc_of_Z n <> 0.
Proof. intros Hn E. apply Hn. apply Z2Qc_inj. now rewrite E, Z2Qc_inj_0. Qed.

(** The exact-arithmetic instance has the endpoints of [torch.linspace]. *)
Lemma Qc_linspace_endpoints (start end_ : Qc) (steps : Z) :
  linspace_endpoints start end_ steps.
Proof.
  unfold linspace_endpoints. cbn [torch_linspace Qc_float].
  split; [apply Qc_linspace_length|]. split.
  - intros Hs. rewrite head_lookup.
    destruct (Z.eq_dec steps 1%Z) as [->|Hs1]; [reflexivity|].
    change 0%nat with (Z.to_nat 0%Z). rewrite Qc_linspace_lookup by lia.
    f_equal. rewrite Z2Qc_inj_0. ring.
  - intros Hs. rewrite last_lookup, Qc_linspace_length.
    replace (Nat.pred (Z.to_nat steps)) with (Z.to_nat (steps - 1)%Z) by lia.
    rewrite Qc_linspace_lookup by lia. f_equal.
    assert (Hn : Qc_of_Z (steps - 1) <> 0) by (apply Qc_of_Z_nonzero; lia).
    now field.
Qed.

(** The sample scheduler after calls at iterations 1, 2 and 2 again, about
    to be called at iteration 3: the cache is coherent and the call writes
    the new rate to both parameter groups. *)
Lemma lr_applied_only_on_change_witness :
  sample_scheduler = Ok sample_s0 /\
  calls sample_s0 sample_optimizer [1; 2; 2]%Z = Ok sample_after_calls /\
  lr_value sample_after_calls.1 3 = Ok sample_rate /\
  cache_coherent sample_optimizer sample_after_calls.1 sample_after_calls.2 /\
  exists s' o' out,
    __call__ sample_after_calls.1 3 sample_after_calls.2 = Ok (s', o', out) /\
    _prev_lr_value s' = Some sample_rate /\
    length o' = 2%nat /\
    Forall (fun g => g !! "lr" = Some (PyFloatV sample_rate)) o'.
Proof.
  assert (H0 : sample_scheduler = Ok sample_s0) by (vm_compute; reflexivity).
  assert (H1 : calls sample_s0 sample_optimizer [1; 2; 2]%Z
               = Ok (sample_after_calls.1, sample_after_calls.2))
    by (vm_compute; reflexivity).
  assert (H2 : lr_value sample_after_calls.1 3 = Ok sample_rate)
    by (vm_compute; reflexivity).
  assert (Hd : differs_from_prev sample_rate (_prev_lr_value sample_after_calls.1)
               = true) by (vm_compute; reflexivity).
  split; [exact H0|]. split; [exact H1|]. split; [exact H2|].
  destruct (lr_applied_only_on_change (dec 1 3) (dec 5 5) 10 20 true
              sample_optimizer [1; 2; 2]%Z sample_s0 sample_after_calls.1
              sample_after_calls.2 3 sample_rate H0 H1 H2)
    as (Hc & _ & Hw & _).
  split; [exact Hc|].
  destruct (Hw Hd) as (s' & o' & out & E & Hp & Hl & Hf & _).
  exists s', o', out. auto.
Defined.

(** The theorem at the sample scheduler in exact arithmetic, a warm-up of
    10 iterations to 0.001: iterations 7, 1 and 10. *)
Lemma lr_schedule_three_segments_witness :
  exists s x,
    sample_scheduler = Ok s /\
    Qc_linspace (dec 1 3 / Qc_of_Z 10) (dec 1 3) 10 !! 6%nat = Some x /\
    lr_value s 7 = Ok (Qc_round x 10) /\
    lr_value s 1 = Ok (Qc_round (dec 1 3 / Qc_of_Z 10) 10) /\
    lr_value s 10 = Ok (Qc_round (dec 1 3) 10).
Proof.
  pose proof (lr_schedule_three_segments (dec 1 3) (dec 5 5) 10 20 true _ 7
                (Qc_linspace_endpoints _ _ _) eq_refl ltac:(lia))
    as (Hwarm & _ & _ & Hfirst & Hlast).
  destruct Hwarm as (x & Hx & Hrate); [lia|].
  eexists _, x. split; [reflexivity|]. split; [exact Hx|].
  split; [exact Hrate|]. split; [apply Hfirst | apply Hlast]; lia.
Defined.

(** C4, as the claim words it, fails on a scheduler whose plateau ends at
    iteration 5, before its warm-up of 10 iterations, with base rate
    0.00012345678912: iteration 7 lies beyond the plateau, yet the rate is
    the warm-up rate 0.0000864198 and not [final_lr]; at iteration 10, the
    end of the warm-up, the rate is 0.0001234568 and not [init_lr]; and at
    iteration 1 it is 0.0000123457 and not [init_lr / 10]. *)
Lemma lr_schedule_claim_counterexample :
  exists s,
    short_plateau_scheduler = Ok s /\
    (init_lr_length s < 7)%Z /\
    lr_value s 7 = Ok (dec 864198 10) /\ dec 864198 10 <> final_lr s /\
    lr_value s (warmup_lr_length s) = Ok (dec 1234568 10) /\
    dec 1234568 10 <> init_lr s /\
    lr_value s 1 = Ok (dec 123457 10) /\
    dec 123457 10 <> init_lr s / Qc_of_Z (warmup_lr_length s).
Proof.
  eexists. split; [reflexivity|]. cbn [init_lr_length warmup_lr_length final_lr init_lr].
  split; [lia|].
  assert (Hneq : forall a b : Qc, Qc_eq_bool a b = false -> a <> b).
  { intros a b Hb ->. unfold Qc_eq_bool in Hb.
    destruct (Qcanon.Qc_eq_dec b b); [discriminate|congruence]. }
  assert (Heq : forall a b : Qc, Qc_eq_bool a b = true -> Ok a = Ok b).
  { intros a b Hb. f_equal. now apply Qc_eq_bool_correct. }
  repeat split; try (apply Heq; vm_compute; reflexivity);
    apply Hneq; vm_compute; reflexivity.
Qed.

(** X6: at an iteration that is not positive the index [iteration - 1] is
    negative and counts from the end of the warm-up table: such an
    iteration gets the rate of iteration [iteration + warmup_lr_length]
    (iteration 0 that of the last warm-up iteration) as long as the index
    stays within the table, and raises [IndexError] beyond it; without a
    warm-up, every such iteration raises. *)
Theorem warmup_index_wraps
    (init final : Qc) (w p : Z) (vb : bool) (s : AlphaFoldLRScheduler Qc) (i : Z) :
  __init__ init final w p vb = Ok s ->
  (i <= 0)%Z ->
  ((- w < i)%Z -> lr_value s i = lr_value s (i + w)) /\
  ((i <= - w)%Z -> lr_value s i = Raise IndexError).
Proof.
  unfold __init__. intros Hinit Hi.
  destruct (Z.leb_spec 0 w) as [Hw|Hw]; cbn in Hinit; [|discriminate].
  injection Hinit as <-.
  unfold lr_value, tensor_item;
    cbn [warmup_lr_length _warmup_linspace torch_linspace Qc_float].
  rewrite Qc_linspace_length, Z2Nat.id by lia.
  destruct (Z.leb_spec i w); [|lia].
  destruct (Z.ltb_spec (i - 1) 0); [|lia].
  split.
  - intros Hlo. destruct (Z.leb_spec (i + w) w); [|lia].
    destruct (Z.ltb_spec (i + w - 1) 0); [lia|].
    now replace (i - 1 + w)%Z with (i + w - 1)%Z by lia.
  - intros Hlo. destruct (Z.leb_spec 0 (i - 1 + w)); [lia | reflexivity].
Qed.

(** With a warm-up of 10 iterations, iteration 0 gets the rate of
    iteration 10. *)
Lemma warmup_index_wraps_witness :
  sample_scheduler = Ok sample_s0 /\
  lr_value sample_s0 0 = lr_value sample_s0 10.
Proof.
  assert (H0 : sample_scheduler = Ok sample_s0) by (vm_compute; reflexivity).
  split; [exact H0|].
  exact (proj1 (warmup_index_wraps (dec 1 3) (dec 5 5) 10 20 true sample_s0 0
                  H0 ltac:(lia)) ltac:(lia)).
Defined.

(** *** The schedule never fails during training *)

Lemma lr_value_in_table (s : AlphaFoldLRScheduler Qc) (i : Z) :
  length (_warmup_linspace s) = Z.to_nat (warmup_lr_length s) ->
  (1 <= i)%Z ->
  exists v, lr_value s i = Ok v.
Proof.
  intros Hlen Hi. unfold lr_value.
  destruct (Z.leb_spec i (warmup_lr_length s)) as [Hw|Hw].
  - unfold tensor_item. rewrite Hlen, Z2Nat.id by lia.
    destruct (Z.ltb_spec (i - 1) 0); [lia|].
    destruct (Z.leb_spec 0 (i - 1)); [|lia].
    destruct (Z.ltb_spec (i - 1) (warmup_lr_length s)); [|lia]. cbn [andb].
    destruct (lookup_lt_is_Some_2 (_warmup_linspace s) (Z.to_nat (i - 1)))
      as [x ->]; [lia|].
    cbn. eauto.
  - destruct (i <=? init_lr_length s); eauto.
Qed.

Lemma calls_return (its : list Z) :
  forall (s : AlphaFoldLRScheduler Qc) (o : Optimizer Qc),
    length (_warmup_linspace s) = Z.to_nat (warmup_lr_length s) ->
    Forall (fun i => 1 <= i)%Z its ->
    exists s' o', calls s o its = Ok (s', o').
Proof.
  induction its as [|i its IH]; intros s o Hlen Hits; [cbn; eauto|].
  inversion Hits as [|? ? Hi Hrest]; subst.
  destruct (lr_value_in_table s i Hlen Hi) as [v Hv].
  cbn [calls]. unfold __call__. rewrite Hv. cbn.
  destruct (differs_from_prev v (_prev_lr_value s)); cbn.
  - apply IH; [exact Hlen | exact Hrest].
  - apply IH; [exact Hlen | exact Hrest].
Qed.

(** X7: a scheduler that could be constructed never raises when it is called
    at iterations from 1 on, in any order and any number of times: the
    index into the warm-up table stays within the table. *)
Theorem schedule_returns_on_positive_iterations
    (init final : Qc) (w p : Z) (vb : bool) (s0 : AlphaFoldLRScheduler Qc)
    (o0 : Optimizer Qc) (its : list Z) :
  __init__ init final w p vb = Ok s0 ->
  Forall (fun i => 1 <= i)%Z its ->
  exists s o, calls s0 o0 its = Ok (s, o).
Proof.
  intros Hinit Hits. apply calls_return; [|exact Hits].
  unfold __init__ in Hinit.
  destruct (Z.leb_spec 0 w) as [Hw|Hw]; cbn in Hinit; [|discriminate].
  injection Hinit as <-. cbn [_warmup_linspace warmup_lr_length torch_linspace
                               Qc_float].
  apply Qc_linspace_length.
Qed.

Lemma schedule_returns_on_positive_iterations_witness :
  exists s o, calls sample_s0 sample_optimizer [30; 1; 10; 11]%Z = Ok (s, o).
Proof.
  assert (H0 : sample_scheduler = Ok sample_s0) by (vm_compute; reflexivity).
  assert (H1 : Forall (fun i => 1 <= i)%Z [30; 1; 10; 11]%Z)
    by (repeat constructor; lia).
  exact (schedule_returns_on_positive_iterations (dec 1 3) (dec 5 5) 10 20 true
           sample_s0 sample_optimizer [30; 1; 10; 11]%Z H0 H1).
Defined.

(** After the calls at iterations 1, 2 and 2 on the sample scheduler, both
    parameter groups hold the cached rate. *)
Lemma calls_take_over_rate_witness :
  exists r,
    _prev_lr_value sample_after_calls.1 = Some r /\
    Forall (fun g => g !! "lr" = Some (PyFloatV r)) sample_after_calls.2.
Proof.
  assert (H0 : sample_scheduler = Ok sample_s0) by (vm_compute; reflexivity).
  assert (H1 : calls sample_s0 sample_optimizer [1; 2; 2]%Z
               = Ok (sample_after_calls.1, sample_after_calls.2))
    by (vm_compute; reflexivity).
  assert (H2 : [1; 2; 2]%Z <> []) by discriminate.
  exact (proj1 (calls_take_over_rate (dec 1 3) (dec 5 5) 10 20 true
                  sample_optimizer sample_after_calls.2 [1; 2; 2]%Z
                  sample_s0 sample_after_calls.1 H0 H2 H1)).
Defined.

(** After a call at iteration 15, on the plateau, a call at iteration 16
    on the untouched sample optimizer writes nothing. *)
Lemma call_does_not_reapply_witness :
  __call__ sample_plateau_call.1.1 16 sample_optimizer
  = Ok (sample_plateau_call.1.1, sample_optimizer, []).
Proof.
  assert (H1 : __call__ sample_s0 15 sample_optimizer
               = Ok (sample_plateau_call.1.1, sample_plateau_call.1.2,
                     sample_plateau_call.2))
    by (vm_compute; reflexivity).
  assert (H2 : lr_value sample_s0 15 = Ok (dec 1 3)) by reflexivity.
  assert (H3 : lr_value sample_s0 16 = Ok (dec 1 3)) by reflexivity.
  assert (H4 : float_ne (dec 1 3) (dec 1 3) = false) by (vm_compute; reflexivity).
  exact (call_does_not_reapply sample_s0 sample_plateau_call.1.1
           sample_optimizer sample_plateau_call.1.2 sample_plateau_call.2
           15 16 (dec 1 3) H1 H2 H3 H4 sample_optimizer).
Defined.

End LrExact.

(** ** Deterministic model construction *)

Section RngFacts.
Import Rng.
Context {rng AlphaFoldConfig AlphaFold : Type}.
Variable NUMPY_SEED_MODULUS : Z.
Variable numpy_seeded torch_seeded cuda_seeded : Z -> rng.
Variable construct :
  AlphaFoldConfig -> Z -> Globals rng -> result (Globals rng * AlphaFold).

Local Abbreviation create :=
  (create_alphafold_module NUMPY_SEED_MODULUS numpy_seeded torch_seeded
     cuda_seeded construct).

(** The call returns whenever the device exists, the seeds are in range and
    the constructor returns without dropping the device. *)
Lemma create_alphafold_module_returns (cfg : AlphaFoldConfig) (device seed : Z)
    (g : Globals rng) :
  is_Some (torch_cuda_rng_state g !! device) ->
  NUMPY_SEED_MODULUS <> 0 ->
  0 <= seed mod NUMPY_SEED_MODULUS < 2 ^ 32 ->
  - 2 ^ 63 <= seed < 2 ^ 64 ->
  (forall gs, exists gc m,
      construct cfg device gs = Ok (gc, m) /\
      dom (torch_cuda_rng_state gc) = dom (torch_cuda_rng_state gs)) ->
  exists g' m, create cfg device seed g = Ok (g', m).
Proof.
  intros [st Hst] HM Hnp Ht Hc.
  unfold create_alphafold_module, torch_cuda_get_rng_state.
  rewrite Hst; cbn. unfold py_mod.
  destruct (Z.eqb_spec NUMPY_SEED_MODULUS 0); [contradiction|]. cbn.
  unfold np_random_seed.
  destruct (Z.leb_spec 0 (seed mod NUMPY_SEED_MODULUS)); [|lia].
  destruct (Z.ltb_spec (seed mod NUMPY_SEED_MODULUS) (2 ^ 32)); [|lia]. cbn.
  unfold torch_manual_seed.
  destruct (Z.leb_spec (- 2 ^ 63) seed); [|lia].
  destruct (Z.ltb_spec seed (2 ^ 64)); [|lia]. cbn.
  match goal with |- context [construct cfg device ?gs] =>
    destruct (Hc gs) as (gc & m & -> & Hdom) end.
  cbn. unfold torch_cuda_set_rng_state.
  assert (Hin : is_Some (torch_cuda_rng_state gc !! device)).
  { apply elem_of_dom. rewrite Hdom. cbn. rewrite dom_fmap.
    apply elem_of_dom. eauto. }
  destruct Hin as [st' ->]. cbn. eauto.
Qed.

(** C9: whenever [create_alphafold_module] returns, the NumPy state, the
    torch CPU state and the CUDA state of the target device are what they
    were before the call, whatever the constructor drew; and the
    constructor ran on generators seeded from the seed argument: NumPy
    with [seed % NUMPY_SEED_MODULUS], torch and the device with [seed]. *)
Theorem create_alphafold_module_preserves_rng (cfg : AlphaFoldConfig)
    (device seed : Z) (g g' : Globals rng) (alphafold : AlphaFold) :
  create cfg device seed g = Ok (g', alphafold) ->
  numpy_random_state g' = numpy_random_state g /\
  torch_rng_state g' = torch_rng_state g /\
  torch_cuda_rng_state g' !! device = torch_cuda_rng_state g !! device /\
  exists gs gc,
    construct cfg device gs = Ok (gc, alphafold) /\
    numpy_random_state gs = numpy_seeded (seed mod NUMPY_SEED_MODULUS) /\
    torch_rng_state gs = torch_seeded seed /\
    torch_cuda_rng_state gs !! device = Some (cuda_seeded seed).
Proof.
  unfold create_alphafold_module, torch_cuda_get_rng_state.
  destruct (torch_cuda_rng_state g !! device) as [st|] eqn:Hst; cbn; [|discriminate].
  unfold py_mod. destruct (NUMPY_SEED_MODULUS =? 0); cbn; [discriminate|].
  unfold np_random_seed.
  destruct ((0 <=? seed mod NUMPY_SEED_MODULUS)
            && (seed mod NUMPY_SEED_MODULUS <? 2 ^ 32)); cbn; [|discriminate].
  unfold torch_manual_seed.
  destruct ((- 2 ^ 63 <=? seed) && (seed <? 2 ^ 64)); cbn; [|discriminate].
  match goal with |- context [construct cfg device ?gs] =>
    set (seeded := gs);
    destruct (construct cfg device seeded) as [[gc m]|e] eqn:Hc end;
    cbn; [|discriminate].
  unfold torch_cuda_set_rng_state.
  destruct (torch_cuda_rng_state gc !! device) as [st'|]; cbn; [|discriminate].
  intros [= <- <-]. cbn.
  split; [reflexivity|]. split; [reflexivity|].
  split; [now rewrite lookup_insert_eq|].
  exists seeded, gc. split; [exact Hc|]. split; [reflexivity|].
  split; [reflexivity|]. subst seeded; cbn.
  now rewrite lookup_fmap, Hst.
Qed.

(** *** Further properties of [create_alphafold_module] *)

Lemma seeded_cuda_same_devices (c : rng) (m1 m2 : gmap Z rng) :
  dom m1 = dom m2 ->
  (fun _ : rng => c) <$> m1 = (fun _ : rng => c) <$> m2.
Proof.
  intros Hdom. apply map_eq. intros d. rewrite !lookup_fmap.
  destruct (m1 !! d) as [x|] eqn:E1, (m2 !! d) as [y|] eqn:E2; try reflexivity.
  - apply not_elem_of_dom in E2. rewrite <- Hdom in E2.
    exfalso. apply E2. apply elem_of_dom. eauto.
  - apply not_elem_of_dom in E1. rewrite Hdom in E1.
    exfalso. apply E1. apply elem_of_dom. eauto.
Qed.

(** X8: the model that is built does not depend on the generator states at the
    time of the call: two calls with the same arguments, from any two
    global states with the same CUDA devices, build the same model or
    raise the same exception. *)
Theorem create_alphafold_module_ignores_prior_rng (cfg : AlphaFoldConfig)
    (device seed : Z) (g1 g2 : Globals rng) :
  dom (torch_cuda_rng_state g1) = dom (torch_cuda_rng_state g2) ->
  match create cfg device seed g1, create cfg device seed g2 with
  | Ok r1, Ok r2 => r1.2 = r2.2
  | Raise e1, Raise e2 => e1 = e2
  | _, _ => False
  end.
Proof.
  intros Hdom. unfold create_alphafold_module, torch_cuda_get_rng_state.
  destruct (torch_cuda_rng_state g1 !! device) as [st1|] eqn:E1;
    destruct (torch_cuda_rng_state g2 !! device) as [st2|] eqn:E2; cbn;
    [ | apply not_elem_of_dom in E2; rewrite <- Hdom in E2;
        exfalso; apply E2, elem_of_dom; eauto
      | apply not_elem_of_dom in E1; rewrite Hdom in E1;
        exfalso; apply E1, elem_of_dom; eauto
      | reflexivity ].
  unfold py_mod. destruct (NUMPY_SEED_MODULUS =? 0); cbn; [reflexivity|].
  unfold np_random_seed.
  destruct ((0 <=? seed mod NUMPY_SEED_MODULUS)
            && (seed mod NUMPY_SEED_MODULUS <? 2 ^ 32)); cbn; [|reflexivity].
  unfold torch_manual_seed.
  destruct ((- 2 ^ 63 <=? seed) && (seed <? 2 ^ 64)); cbn; [|reflexivity].
  rewrite (seeded_cuda_same_devices (cuda_seeded seed) _ _ Hdom).
  destruct (construct cfg device _) as [[gc m]|e]; cbn; [|reflexivity].
  unfold torch_cuda_set_rng_state.
  destruct (torch_cuda_rng_state gc !! device); reflexivity.
Qed.

(** X9: only the state of the target device is put back: when the constructor
    leaves the CUDA generators as it finds them, every other device ends
    with the state that [torch.manual_seed] gave it. *)
Theorem other_devices_stay_seeded (cfg : AlphaFoldConfig)
    (device seed d : Z) (g g' : Globals rng) (alphafold : AlphaFold) :
  (forall gs gc m, construct cfg device gs = Ok (gc, m) ->
     torch_cuda_rng_state gc = torch_cuda_rng_state gs) ->
  create cfg device seed g = Ok (g', alphafold) ->
  d <> device ->
  is_Some (torch_cuda_rng_state g !! d) ->
  torch_cuda_rng_state g' !! d = Some (cuda_seeded seed).
Proof.
  intros Hkeep Hcreate Hd [st Hst]. revert Hcreate.
  unfold create_alphafold_module, torch_cuda_get_rng_state.
  destruct (torch_cuda_rng_state g !! device) as [st0|]; cbn; [|discriminate].
  unfold py_mod. destruct (NUMPY_SEED_MODULUS =? 0); cbn; [discriminate|].
  unfold np_random_seed.
  destruct ((0 <=? seed mod NUMPY_SEED_MODULUS)
            && (seed mod NUMPY_SEED_MODULUS <? 2 ^ 32)); cbn; [|discriminate].
  unfold torch_manual_seed.
  destruct ((- 2 ^ 63 <=? seed) && (seed <? 2 ^ 64)); cbn; [|discriminate].
  destruct (construct cfg device _) as [[gc m]|e] eqn:Hc; cbn; [|discriminate].
  apply Hkeep in Hc. cbn in Hc.
  unfold torch_cuda_set_rng_state.
  destruct (torch_cuda_rng_state gc !! device); cbn; [|discriminate].
  intros [= <- _]. cbn.
  rewrite lookup_insert_ne by congruence.
  now rewrite Hc, lookup_fmap, Hst.
Qed.

(** The call fails before the constructor runs, and so whatever the
    constructor is, when the device has no generator ([RuntimeError]),
    when the modulus is zero ([ZeroDivisionError]), when the reduced seed
    is outside NumPy's range ([ValueError]) and when the seed is outside
    torch's range ([RuntimeError]); the checks come in this order. *)
Lemma create_alphafold_module_rejects (cfg : AlphaFoldConfig)
    (device seed : Z) (g : Globals rng) :
  (torch_cuda_rng_state g !! device = None ->
   create cfg device seed g = Raise RuntimeError) /\
  (is_Some (torch_cuda_rng_state g !! device) ->
   (NUMPY_SEED_MODULUS = 0 ->
    create cfg device seed g = Raise ZeroDivisionError) /\
   (NUMPY_SEED_MODULUS <> 0 ->
    (~ 0 <= seed mod NUMPY_SEED_MODULUS < 2 ^ 32 ->
     create cfg device seed g = Raise ValueError) /\
    (0 <= seed mod NUMPY_SEED_MODULUS < 2 ^ 32 ->
     ~ - 2 ^ 63 <= seed < 2 ^ 64 ->
     create cfg device seed g = Raise RuntimeError))).
Proof.
  unfold create_alphafold_module, torch_cuda_get_rng_state.
  split; [intros ->; reflexivity|]. intros [st ->]. cbn. unfold py_mod.
  split; [intros ->; reflexivity|]. intros HM.
  destruct (Z.eqb_spec NUMPY_SEED_MODULUS 0); [contradiction|]. cbn.
  unfold np_random_seed. split.
  - intros Hr.
    destruct (Z.leb_spec 0 (seed mod NUMPY_SEED_MODULUS));
      destruct (Z.ltb_spec (seed mod NUMPY_SEED_MODULUS) (2 ^ 32));
      try reflexivity. lia.
  - intros Hr Ht.
    destruct (Z.leb_spec 0 (seed mod NUMPY_SEED_MODULUS)); [|lia].
    destruct (Z.ltb_spec (seed mod NUMPY_SEED_MODULUS) (2 ^ 32)); [|lia]. cbn.
    unfold torch_manual_seed.
    destruct (Z.leb_spec (- 2 ^ 63) seed); destruct (Z.ltb_spec seed (2 ^ 64));
      try reflexivity. lia.
Qed.

End RngFacts.

(** On the sample globals, with a constructor that advances every
    generator: the three states are restored, device 1 is not. *)
Lemma create_alphafold_module_preserves_rng_witness :
  Rng.create_alphafold_module (2 ^ 32) (fun s => s) (fun s => s) (fun s => s)
    Rng.drawing_construct tt 0 123456789012 Rng.sample_globals
  = Ok Rng.sample_created /\
  Rng.numpy_random_state Rng.sample_created.1 = 11 /\
  Rng.torch_rng_state Rng.sample_created.1 = 22 /\
  Rng.torch_cuda_rng_state Rng.sample_created.1 !! 0 = Some 33 /\
  Rng.torch_cuda_rng_state Rng.sample_created.1 !! 1 = Some 123456789013.
Proof.
  assert (H : Rng.create_alphafold_module (2 ^ 32) (fun s => s) (fun s => s)
                (fun s => s) Rng.drawing_construct tt 0 123456789012
                Rng.sample_globals
              = Ok (Rng.sample_created.1, Rng.sample_created.2))
    by (vm_compute; reflexivity).
  destruct (create_alphafold_module_preserves_rng _ _ _ _ _ _ _ _ _ _ _ H)
    as (Hn & Ht & Hc & _).
  split; [exact H|]. split; [exact Hn|]. split; [exact Ht|].
  split; [rewrite Hc; reflexivity | vm_compute; reflexivity].
Defined.

(** From two different global states with the same two devices, the
    same seed builds the same model. *)
Lemma create_alphafold_module_ignores_prior_rng_witness :
  match Rng.create_alphafold_module (2 ^ 32) (fun s => s) (fun s => s)
          (fun s => s) Rng.cpu_construct tt 0 123456789012 Rng.sample_globals,
        Rng.create_alphafold_module (2 ^ 32) (fun s => s) (fun s => s)
          (fun s => s) Rng.cpu_construct tt 0 123456789012 Rng.other_globals
  with
  | Ok r1, Ok r2 => r1.2 = r2.2
  | Raise e1, Raise e2 => e1 = e2
  | _, _ => False
  end.
Proof.
  assert (H : dom (Rng.torch_cuda_rng_state Rng.sample_globals)
              = dom (Rng.torch_cuda_rng_state Rng.other_globals))
    by (vm_compute; reflexivity).
  exact (create_alphafold_module_ignores_prior_rng (2 ^ 32) (fun s => s)
           (fun s => s) (fun s => s) Rng.cpu_construct tt 0 123456789012
           Rng.sample_globals Rng.other_globals H).
Defined.

(** On the sample globals, building a model on device 0 leaves device 1
    with the seed as its state. *)
Lemma other_devices_stay_seeded_witness :
  exists g' m,
    Rng.create_alphafold_module (2 ^ 32) (fun s => s) (fun s => s)
      (fun s => s) Rng.cpu_construct tt 0 123456789012 Rng.sample_globals
    = Ok (g', m) /\
    Rng.torch_cuda_rng_state g' !! 1 = Some 123456789012.
Proof.
  eexists _, _. split; [vm_compute; reflexivity|].
  refine (other_devices_stay_seeded (2 ^ 32) (fun s => s) (fun s => s)
            (fun s => s) Rng.cpu_construct tt 0 123456789012 1
            Rng.sample_globals _ _ _ _ _ _).
  - intros gs gc m [= <- _]. reflexivity.
  - vm_compute. reflexivity.
  - lia.
  - vm_compute. eexists. reflexivity.
Defined.

(** ** The validation cycle *)

Section ValidationFacts.
Import Validation.
Variable forward_lddt_ca : TorchModule -> ValBatch -> result Qc.
Variable perf : ValBatch -> Qc.

Lemma validation_step_eval_only (alphafold : TorchModule) (it : list ValBatch) :
  training alphafold = false ->
  validation_step forward_lddt_ca perf alphafold it
  = validation_step (fun _ => forward_lddt_ca {| training := false |}) perf
      alphafold it.
Proof. destruct alphafold as [[]]; [discriminate | reflexivity]. Qed.

Lemma validation_loop_eval_only (n : nat) (alphafold : TorchModule) :
  training alphafold = false ->
  forall it acc,
    validation_loop forward_lddt_ca perf n alphafold it acc
    = validation_loop (fun _ => forward_lddt_ca {| training := false |}) perf
        n alphafold it acc.
Proof.
  intros Hm. induction n as [|n IH]; intros it acc; cbn; [reflexivity|].
  rewrite validation_step_eval_only by exact Hm.
  destruct (validation_step _ perf alphafold it); cbn; [apply IH | reflexivity].
Qed.

Lemma validation_loop_returns (alphafold : TorchModule) (n : nat) :
  forall it acc,
    (n <= length it)%nat ->
    Forall (well_formed forward_lddt_ca alphafold) (take n it) ->
    exists l, validation_loop forward_lddt_ca perf n alphafold it acc = Ok l /\
              length l = (length acc + n)%nat.
Proof.
  induction n as [|n IH]; intros it acc Hlen Hwf; cbn.
  - exists acc. split; [reflexivity | lia].
  - destruct it as [|b it]; cbn in Hlen; [lia|].
    cbn in Hwf. inversion Hwf as [|? ? Hb Hwf']; subst. clear Hwf.
    destruct Hb as (t & vi & pc & Hid & H1 & H3 & Hf).
    unfold validation_step. rewrite Hid.
    change (Z.of_nat (length [t]) =? 1) with true.
    destruct (forward_lddt_ca alphafold b) as [x|]; [|discriminate].
    unfold py_getitem. cbn. rewrite H1, H3. cbn.
    match goal with |- context [validation_loop _ _ n alphafold it ?acc'] =>
      destruct (IH it acc' ltac:(lia) Hwf') as (l & -> & Hl) end.
    exists l. split; [reflexivity|]. rewrite Hl, length_app. cbn. lia.
Qed.

(** C7, as the claim words it, fails: on a dataloader whose second batch
    carries two identities the assertion of line 355 raises, and on a model
    whose forward pass raises the exception propagates; both leave the
    function with the model in evaluation mode. *)
Lemma validation_claim_counterexample :
  validation const_forward unit_perf {| training := true |}
    {| dl_len := 2; dl_batches := [good_batch; double_batch] |}
  = ({| training := false |}, Raise (AssertionError 355)) /\
  validation failing_forward unit_perf {| training := true |}
    {| dl_len := 1; dl_batches := [good_batch] |}
  = ({| training := false |}, Raise RuntimeError).
Proof. split; vm_compute; reflexivity. Qed.

(** C7 (amended): [validation] puts the model in evaluation mode on entry,
    so that every forward pass of the cycle runs on a model in evaluation
    mode; whenever it returns, the model is in training mode, and it does
    return when the dataloader yields the announced number of well-formed
    samples and every forward pass succeeds; whenever an exception leaves
    it, the model is still in evaluation mode. *)
Theorem validation_mode_on_exit (alphafold : TorchModule)
    (validation_dataloader : ValidationDataloader) :
  let run := validation forward_lddt_ca perf alphafold validation_dataloader in
  run = validation (fun _ => forward_lddt_ca {| training := false |}) perf
          alphafold validation_dataloader /\
  (forall val_metrics_list, run.2 = Ok val_metrics_list -> training run.1 = true) /\
  (forall e, run.2 = Raise e -> training run.1 = false) /\
  ((dl_len validation_dataloader <= length (dl_batches validation_dataloader))%nat ->
   Forall (well_formed forward_lddt_ca {| training := false |})
     (take (dl_len validation_dataloader) (dl_batches validation_dataloader)) ->
   exists val_metrics_list,
     run = ({| training := true |}, Ok val_metrics_list) /\
     length val_metrics_list = dl_len validation_dataloader).
Proof.
  cbn zeta. unfold validation.
  rewrite <- (validation_loop_eval_only _ (eval alphafold) eq_refl).
  split; [reflexivity|].
  destruct (validation_loop _ _ _ _ _ _) as [l|e] eqn:E; cbn.
  - split; [reflexivity|]. split; [discriminate|].
    intros Hlen Hwf.
    destruct (validation_loop_returns (eval alphafold) _ _ [] Hlen Hwf)
      as (l' & E' & Hl).
    rewrite E in E'. injection E' as ->. eauto.
  - split; [discriminate|]. split; [reflexivity|].
    intros Hlen Hwf.
    destruct (validation_loop_returns (eval alphafold) _ _ [] Hlen Hwf)
      as (l' & E' & _).
    rewrite E in E'. discriminate.
Qed.

(** *** Further properties of [validation] *)

Lemma validation_step_inv (alphafold : TorchModule) (it rest : list ValBatch)
    (r : gmap string pyobj) :
  validation_step forward_lddt_ca perf alphafold it = Ok (r, rest) ->
  exists b, it = b :: rest /\ record_of forward_lddt_ca perf alphafold b r.
Proof.
  unfold validation_step. destruct it as [|b it']; [discriminate|].
  destruct (Z.eqb_spec (Z.of_nat (length (batch_id b))) 1) as [Hone|_];
    [|discriminate].
  destruct (batch_id b) as [|t [|t' ts]] eqn:Hid;
    [cbn in Hone; lia | | cbn in Hone; lia]. cbn.
  destruct (forward_lddt_ca alphafold b) as [x|] eqn:Hf; cbn; [|discriminate].
  unfold py_getitem.
  destruct (t !! 1%nat) as [vi|] eqn:H1; cbn; [|discriminate].
  destruct (t !! 3%nat) as [pc|] eqn:H3; cbn; [|discriminate].
  intros [= <- <-]. exists b. split; [reflexivity|].
  exists t, vi, pc, x. repeat split; assumption.
Qed.

Lemma validation_loop_inv (alphafold : TorchModule) (n : nat) :
  forall it acc l,
    validation_loop forward_lddt_ca perf n alphafold it acc = Ok l ->
    exists l', l = acc ++ l' /\
               Forall2 (record_of forward_lddt_ca perf alphafold) (take n it) l' /\
               (n <= length it)%nat.
Proof.
  induction n as [|n IH]; intros it acc l; cbn.
  - intros [= <-]. exists []. rewrite app_nil_r.
    split; [reflexivity|]. split; [constructor | lia].
  - destruct (validation_step _ _ _ it) as [[r rest]|e] eqn:Hs; cbn;
      [|discriminate].
    apply validation_step_inv in Hs as (b & -> & Hrec).
    intros Hl. destruct (IH _ _ _ Hl) as (l' & -> & Hall & Hlen).
    exists (r :: l'). rewrite <- app_assoc. split; [reflexivity|].
    split; [now constructor | cbn; lia].
Qed.

(** X10: whenever [validation] returns, its result has one record per sample,
    in the order the dataloader yields them: the record at a position
    holds the metric of the forward pass, run in evaluation mode, on the
    batch at that position, with the fields 1 and 3 of that batch's single
    identity tuple as [val_index] and [pdb_chain_id]. *)
Theorem validation_records (alphafold : TorchModule)
    (validation_dataloader : ValidationDataloader)
    (val_metrics_list : list (gmap string pyobj)) :
  (validation forward_lddt_ca perf alphafold validation_dataloader).2
  = Ok val_metrics_list ->
  Forall2 (record_of forward_lddt_ca perf {| training := false |})
    (take (dl_len validation_dataloader) (dl_batches validation_dataloader))
    val_metrics_list /\
  length val_metrics_list = dl_len validation_dataloader.
Proof.
  unfold validation.
  destruct (validation_loop _ _ _ _ _ _) as [l|e] eqn:E; cbn; [|discriminate].
  intros [= <-]. apply validation_loop_inv in E as (l' & -> & Hall & Hlen).
  cbn. split; [exact Hall|].
  apply Forall2_length in Hall. rewrite <- Hall, length_take. lia.
Qed.

Lemma validation_loop_take (alphafold : TorchModule) (n : nat) :
  forall it acc,
    validation_loop forward_lddt_ca perf n alphafold (take n it) acc
    = validation_loop forward_lddt_ca perf n alphafold it acc.
Proof.
  induction n as [|n IH]; intros it acc; [reflexivity|].
  destruct it as [|b it]; [reflexivity|]. cbn [take validation_loop].
  unfold validation_step.
  destruct (py_assert 355 _); cbn; [|reflexivity].
  destruct (py_getitem (batch_id b) 0); cbn; [|reflexivity].
  destruct (forward_lddt_ca alphafold b); cbn; [|reflexivity].
  destruct (py_getitem _ 1); cbn; [|reflexivity].
  destruct (py_getitem _ 3); cbn; [|reflexivity].
  apply IH.
Qed.

(** X11: [validation] asks the iterator for [len(validation_dataloader)]
    batches and no more: what the dataloader would yield beyond its length
    has no influence on the result, the exception or the mode. *)
Theorem validation_reads_len_batches (alphafold : TorchModule) (n : nat)
    (batches : list ValBatch) :
  validation forward_lddt_ca perf alphafold
    {| dl_len := n; dl_batches := batches |}
  = validation forward_lddt_ca perf alphafold
      {| dl_len := n; dl_batches := take n batches |}.
Proof.
  unfold validation. cbn [dl_len dl_batches].
  now rewrite validation_loop_take.
Qed.

Lemma validation_loop_exhausted (alphafold : TorchModule) (n : nat) :
  forall it acc,
    (length it < n)%nat ->
    Forall (well_formed forward_lddt_ca alphafold) it ->
    validation_loop forward_lddt_ca perf n alphafold it acc
    = Raise StopIteration.
Proof.
  induction n as [|n IH]; intros it acc Hlen Hwf; [lia|].
  destruct it as [|b it]; [reflexivity|]. cbn in Hlen.
  inversion Hwf as [|? ? Hb Hwf']; subst.
  destruct Hb as (t & vi & pc & Hid & H1 & H3 & Hf).
  cbn [validation_loop]. unfold validation_step. rewrite Hid.
  change (Z.of_nat (length [t]) =? 1) with true.
  destruct (forward_lddt_ca alphafold b) as [x|]; [|discriminate].
  unfold py_getitem. cbn. rewrite H1, H3. cbn.
  apply IH; [lia | exact Hwf'].
Qed.

(** X12: a dataloader that yields fewer batches than its length: when all the
    batches it yields get through, the cycle ends with [StopIteration],
    and the model stays in evaluation mode. *)
Theorem validation_short_dataloader (alphafold : TorchModule)
    (validation_dataloader : ValidationDataloader) :
  (length (dl_batches validation_dataloader) < dl_len validation_dataloader)%nat ->
  Forall (well_formed forward_lddt_ca {| training := false |})
    (dl_batches validation_dataloader) ->
  validation forward_lddt_ca perf alphafold validation_dataloader
  = ({| training := false |}, Raise StopIteration).
Proof.
  intros Hlen Hwf. unfold validation.
  now rewrite (validation_loop_exhausted (eval alphafold) _ _ [] Hlen Hwf).
Qed.

Lemma validation_loop_skip (alphafold : TorchModule) (pre : list ValBatch) :
  forall n rest acc,
    Forall (well_formed forward_lddt_ca alphafold) pre ->
    exists acc',
      validation_loop forward_lddt_ca perf (length pre + n) alphafold
        (pre ++ rest) acc
      = validation_loop forward_lddt_ca perf n alphafold rest acc'.
Proof.
  induction pre as [|b pre IH]; intros n rest acc Hwf; [cbn; eauto|].
  inversion Hwf as [|? ? Hb Hwf']; subst.
  destruct Hb as (t & vi & pc & Hid & H1 & H3 & Hf).
  cbn [length Nat.add app validation_loop]. unfold validation_step.
  rewrite Hid. change (Z.of_nat (length [t]) =? 1) with true.
  destruct (forward_lddt_ca alphafold b) as [x|]; [|discriminate].
  unfold py_getitem. cbn. rewrite H1, H3. cbn.
  apply IH. exact Hwf'.
Qed.

(** X13: the first sample that does not get through ends the cycle, with the
    model left in evaluation mode and no record returned.  The checks on a
    sample come in this order: a batch that does not carry exactly one
    identity tuple raises the assertion error of line 355; otherwise an
    exception of the forward pass comes out as it is; otherwise an
    identity tuple with fewer than four fields raises [IndexError]. *)
Theorem validation_first_failure (alphafold : TorchModule) (n : nat)
    (pre : list ValBatch) (b : ValBatch) (post : list ValBatch) :
  Forall (well_formed forward_lddt_ca {| training := false |}) pre ->
  (length pre < n)%nat ->
  let run := validation forward_lddt_ca perf alphafold
               {| dl_len := n; dl_batches := pre ++ b :: post |} in
  (length (batch_id b) <> 1%nat ->
   run = ({| training := false |}, Raise (AssertionError 355))) /\
  (forall t e, batch_id b = [t] ->
     forward_lddt_ca {| training := false |} b = Raise e ->
     run = ({| training := false |}, Raise e)) /\
  (forall t x, batch_id b = [t] ->
     forward_lddt_ca {| training := false |} b = Ok x ->
     (length t < 4)%nat ->
     run = ({| training := false |}, Raise IndexError)).
Proof.
  intros Hwf Hlen run. subst run. unfold validation. cbn [dl_len dl_batches].
  replace n with (length pre + S (n - length pre - 1))%nat by lia.
  destruct (validation_loop_skip (eval alphafold) pre (S (n - length pre - 1))
              (b :: post) [] Hwf) as [acc' ->].
  cbn [validation_loop]. unfold validation_step, eval.
  split; [|split].
  - intros Hid.
    destruct (Z.eqb_spec (Z.of_nat (length (batch_id b))) 1) as [E|_]; [lia|].
    reflexivity.
  - intros t e Hid Hf. rewrite Hid, Hf.
    change (Z.of_nat (length [t]) =? 1) with true. reflexivity.
  - intros t x Hid Hf Ht. rewrite Hid, Hf.
    change (Z.of_nat (length [t]) =? 1) with true.
    unfold py_getitem. cbn.
    assert (H3 : t !! 3%nat = None) by (apply lookup_ge_None; lia).
    rewrite H3. now destruct (t !! 1%nat).
Qed.

End ValidationFacts.

(** ** The training loop *)

Section MonadFacts.
Import Training.

Lemma bind_ok {A B} (m : M A) (k : A -> M B) (log : list event) (a : A) :
  m = (log, Ok a) -> m ≫= k = (log ++ (k a).1, (k a).2).
Proof. intros ->. unfold mbind, M_bind. now destruct (k a). Qed.

Lemma bind_raise {A B} (m : M A) (k : A -> M B) (log : list event) (e : exn) :
  m = (log, Raise e) -> m ≫= k = (log, Raise e).
Proof. now intros ->. Qed.

Lemma bind_log {A B} (m : M A) (k : A -> M B) :
  (m ≫= k).1 = m.1 ++ match m.2 with Ok a => (k a).1 | Raise _ => [] end.
Proof.
  destruct m as [log [a|e]]; cbn.
  - unfold mbind, M_bind. now destruct (k a).
  - unfold mbind, M_bind. cbn. now rewrite app_nil_r.
Qed.

Lemma bind_res {A B} (m : M A) (k : A -> M B) :
  (m ≫= k).2 = match m.2 with Ok a => (k a).2 | Raise e => Raise e end.
Proof.
  destruct m as [log [a|e]]; cbn; [|reflexivity].
  unfold mbind, M_bind. now destruct (k a).
Qed.

Lemma bind_emit {B} (e : event) (k : unit -> M B) :
  emit e ≫= k = (e :: (k tt).1, (k tt).2).
Proof. unfold emit. now rewrite (bind_ok _ k [e] tt eq_refl). Qed.

Lemma bind_lift_ok {A B} (a : A) (k : A -> M B) : lift (Ok a) ≫= k = k a.
Proof. unfold lift. rewrite (bind_ok _ k [] a eq_refl). now destruct (k a). Qed.

Lemma bind_lift_raise {A B} (e : exn) (k : A -> M B) :
  lift (Raise e) ≫= k = ([], Raise e).
Proof. reflexivity. Qed.

Lemma bind_ret {A B} (a : A) (k : A -> M B) : mret a ≫= k = k a.
Proof. apply (bind_lift_ok a k). Qed.

End MonadFacts.

(** Run the monad on closed control flow. *)
Ltac run_M :=
  cbn [mbind mret Training.M_bind Training.M_ret Training.emit Training.lift
       Training.when fst snd app py_assert].

Section LoopFacts.
Import Cadence Training.
Variable args : Args.
Variable alphafold_config : AlphaFoldConfig.
Variable train_loss : Z -> Qc.
Variable val_metrics_list : Z -> list Qc.
Variable len_validation_dataset : Z.
Variable checkpoints : list Z.
Variable WORLD_SIZE : Z.

Local Abbreviation g := (gradient_accumulation_iters args).
Local Abbreviation ve := (val_every_iters args).
Local Abbreviation train_step := (train_step args alphafold_config train_loss).
Local Abbreviation log_step := (log_step args).
Local Abbreviation checkpoint_step := (checkpoint_step args).
Local Abbreviation local_stop_flag :=
  (local_stop_flag args val_metrics_list len_validation_dataset).
Local Abbreviation coordinator_aggregate :=
  (coordinator_aggregate val_metrics_list len_validation_dataset).
Local Abbreviation cluster_flags :=
  (cluster_flags args val_metrics_list len_validation_dataset WORLD_SIZE).
Local Abbreviation validation_cycle :=
  (validation_cycle args val_metrics_list len_validation_dataset WORLD_SIZE).
Local Abbreviation validation_branch :=
  (validation_branch args val_metrics_list len_validation_dataset WORLD_SIZE).
Local Abbreviation iteration_body :=
  (iteration_body args alphafold_config train_loss val_metrics_list
     len_validation_dataset WORLD_SIZE).
Local Abbreviation training_loop :=
  (training_loop args alphafold_config train_loss val_metrics_list
     len_validation_dataset WORLD_SIZE).
Local Abbreviation training :=
  (training args alphafold_config train_loss val_metrics_list
     len_validation_dataset checkpoints WORLD_SIZE).

(** The log of the training step, written out. *)
Lemma train_step_run (i : Z) :
  g <> 0 ->
  train_step i
  = ([ManualSeed i; NextTrainBatch; Forward]
     ++ (if (i - 1) mod g =? 0 then [ZeroGrad] else [])
     ++ [Backward (train_loss i / Qc_of_Z g)%Qc]
     ++ (if i mod g =? 0
         then (if gradient_clipping alphafold_config
               then [ClipGradNorm (clip_grad_max_norm alphafold_config)] else [])
              ++ [LrSchedulerCall i; OptimizerStep]
              ++ (if swa_enabled alphafold_config then [SwaUpdate] else [])
         else []),
     Ok tt).
Proof.
  intros Hg. unfold Training.train_step, py_mod, when.
  destruct (Z.eqb_spec g 0) as [|_]; [contradiction|].
  rewrite !bind_emit, !bind_lift_ok.
  destruct ((i - 1) mod g =? 0), (i mod g =? 0),
    (gradient_clipping alphafold_config), (swa_enabled alphafold_config);
    reflexivity.
Qed.

Lemma train_step_div0 (i : Z) :
  g = 0 ->
  train_step i = ([ManualSeed i; NextTrainBatch; Forward], Raise ZeroDivisionError).
Proof.
  intros Hg. unfold Training.train_step, py_mod. rewrite Hg. reflexivity.
Qed.

Lemma log_step_run (p : Process) (i : Z) :
  exists log, log_step p i = (log, Ok tt) /\
              Forall (fun e => e = DistReduceLossesAvg \/ e = SaveProcessLogs
                               \/ e = SaveTrainLogs) log.
Proof.
  unfold Training.log_step, is_logging_enabled, py_mod, when.
  destruct (Z.ltb_spec 0 (log_every_iters args)) as [Hl|Hl]; cbn [andb].
  - destruct (Z.eqb_spec (log_every_iters args) 0) as [|_]; [lia|].
    destruct (distributed args); rewrite ?bind_emit, ?bind_ret, !bind_lift_ok;
      destruct (i mod log_every_iters args =? 0), (save_process_logs args),
        (is_main_process p);
      eexists; (split; [reflexivity|]);
      repeat (constructor; [solve [auto]|]); constructor.
  - eexists; split; [reflexivity|]. constructor.
Qed.

Lemma checkpoint_step_run (p : Process) (i : Z) (is_validation : bool)
    (val_avg : option Qc) :
  checkpoint_step p i is_validation val_avg
  = (if is_main_process p && (0 <? checkpoint_every_iters args)
        && (i mod checkpoint_every_iters args =? 0)
     then [SaveCheckpoint i is_validation (if is_validation then val_avg else None)]
     else [],
     Ok tt).
Proof.
  unfold Training.checkpoint_step, py_mod, when.
  destruct (is_main_process p); cbn [andb]; [|reflexivity].
  destruct (Z.ltb_spec 0 (checkpoint_every_iters args)); cbn [andb]; [|reflexivity].
  destruct (Z.eqb_spec (checkpoint_every_iters args) 0) as [|_]; [lia|].
  rewrite bind_lift_ok.
  now destruct (i mod checkpoint_every_iters args =? 0).
Qed.

(** *** The validation branch *)

Lemma local_stop_flag_cases (p : Process) (i : Z) :
  local_stop_flag p i
  = if is_main_process p then
      match val_metrics_list i with
      | [] => ([], Raise KeyError)
      | _ =>
          if Z.of_nat (length (val_metrics_list i)) =? len_validation_dataset
          then (EvalAccuracy (mean (val_metrics_list i))
                  :: (if is_logging_enabled args then [SaveValLog] else []),
                Ok (Some (mean (val_metrics_list i)),
                    coordinator_flag args val_metrics_list i))
          else ([], Raise (AssertionError 896))
      end
    else ([], Ok (None, 0)).
Proof.
  unfold Training.local_stop_flag, Training.coordinator_aggregate,
    coordinator_flag, dataframe_mean, when.
  destruct (is_main_process p); cbn [andb]; [|reflexivity].
  destruct (val_metrics_list i) as [|x l] eqn:E; [reflexivity|].
  rewrite !bind_lift_ok.
  destruct (Z.of_nat (length (x :: l)) =? len_validation_dataset);
    [|reflexivity].
  destruct (is_logging_enabled args); run_M; reflexivity.
Qed.

(** Before the broadcast every process other than the coordinator holds
    a zero tensor. *)
Lemma local_stop_flag_other (p : Process) (i : Z) :
  is_main_process p = false -> local_stop_flag p i = ([], Ok (None, 0)).
Proof. intros Hp. now rewrite local_stop_flag_cases, Hp. Qed.

(** What the coordinator brings to the broadcast. *)
Lemma cluster_flags_main (i : Z) :
  0 < WORLD_SIZE ->
  cluster_flags i !! 0%nat
  = Some (match (local_stop_flag (init_process true 0 WORLD_SIZE) i).2 with
          | Ok vf => Ok vf.2
          | Raise e => Raise e
          end).
Proof.
  intros Hw. unfold Training.cluster_flags.
  rewrite list_lookup_fmap, lookup_seqZ_lt by lia. reflexivity.
Qed.

Lemma cluster_flags_other (i : Z) (r : nat) :
  (0 < r)%nat -> Z.of_nat r < WORLD_SIZE ->
  cluster_flags i !! r = Some (Ok 0).
Proof.
  intros Hr Hw. unfold Training.cluster_flags.
  rewrite list_lookup_fmap, lookup_seqZ_lt by lia. cbn [fmap option_fmap option_map].
  rewrite local_stop_flag_other; [reflexivity|].
  unfold init_process; cbn. apply Z.eqb_neq. lia.
Qed.

(** The broadcast hands every process the coordinator's decision, and
    fails exactly when the coordinator failed or the job is empty. *)
Lemma broadcast_from_main (i : Z) :
  dist_broadcast (cluster_flags i) 0
  = if (0 <? WORLD_SIZE)
       && negb (bool_decide (val_metrics_list i = []))
       && (Z.of_nat (length (val_metrics_list i)) =? len_validation_dataset)
    then Ok (coordinator_flag args val_metrics_list i)
    else Raise RuntimeError.
Proof.
  unfold dist_broadcast. change (Z.to_nat 0) with 0%nat.
  destruct (Z.ltb_spec 0 WORLD_SIZE) as [Hw|Hw]; cbn [andb].
  - rewrite cluster_flags_main by exact Hw.
    rewrite local_stop_flag_cases. cbn [init_process is_main_process Z.eqb].
    destruct (val_metrics_list i) as [|x l] eqn:E; [reflexivity|].
    rewrite bool_decide_eq_false_2 by discriminate. cbn [negb andb].
    now destruct (Z.of_nat (length (x :: l)) =? len_validation_dataset).
  - unfold Training.cluster_flags. rewrite seqZ_nil by lia. reflexivity.
Qed.

(** The validation branch, written out. *)
Lemma validation_cycle_unfold (p : Process) (i : Z) :
  validation_cycle p i
  = let pre := CallValidation
               :: (if distributed args then [DistGatherValMetrics] else []) in
    match local_stop_flag p i with
    | (llog, Raise e) => (pre ++ llog, Raise e)
    | (llog, Ok vf) =>
        if distributed args then
          let src := default 0 (main_rank p) in
          (pre ++ llog ++ [Broadcast src],
           match dist_broadcast (cluster_flags i) src with
           | Ok f => Ok (vf.1, f)
           | Raise e => Raise e
           end)
        else (pre ++ llog, Ok vf)
    end.
Proof.
  unfold Training.validation_cycle. cbn zeta.
  destruct (local_stop_flag p i) as [llog [vf|e]];
    destruct (distributed args); run_M.
  - destruct (dist_broadcast _ _) as [f|e]; run_M;
      now rewrite ?app_nil_r.
  - rewrite app_nil_r. now destruct vf.
  - reflexivity.
  - reflexivity.
Qed.

Lemma validation_cycle_events (p : Process) (i : Z) :
  Forall (fun e => is_validation_event e = true) (validation_cycle p i).1.
Proof.
  rewrite validation_cycle_unfold, local_stop_flag_cases. cbn zeta.
  destruct (is_main_process p), (distributed args),
    (val_metrics_list i) as [|x l];
    try destruct (Z.of_nat (length (x :: l)) =? len_validation_dataset);
    destruct (is_logging_enabled args);
    cbn [fst snd app]; repeat (constructor; [reflexivity|]); constructor.
Qed.

Lemma validation_branch_events (p : Process) (i : Z) (is_validation : bool) :
  Forall (fun e => is_validation_event e = true)
    (validation_branch p i is_validation).1.
Proof.
  destruct is_validation; [apply validation_cycle_events | constructor].
Qed.

(** *** One iteration *)

Lemma iteration_body_div0_val (p : Process) (i : Z) :
  ve = 0 -> iteration_body p i = ([IterationStart i], Raise ZeroDivisionError).
Proof.
  intros Hv. unfold Training.iteration_body, py_floordiv. rewrite Hv.
  reflexivity.
Qed.

Lemma iteration_body_div0_acc (p : Process) (i : Z) :
  ve <> 0 -> g = 0 ->
  iteration_body p i
  = ([IterationStart i; ManualSeed i; NextTrainBatch; Forward],
     Raise ZeroDivisionError).
Proof.
  intros Hv Hg. unfold Training.iteration_body, py_floordiv, py_mod.
  destruct (Z.eqb_spec ve 0) as [|_]; [contradiction|].
  rewrite bind_emit, !bind_lift_ok. cbn zeta.
  now rewrite (bind_raise _ _ _ _ (train_step_div0 i Hg)).
Qed.

(** The loop body, written out: the training step, the log step, the
    validation branch when the iteration ends a train-val cycle, then, if
    that did not raise, the checkpoint step and the [break]. *)
Lemma iteration_body_unfold (p : Process) (i : Z) :
  ve <> 0 -> g <> 0 ->
  iteration_body p i
  = let is_validation := i mod ve =? 0 in
    let vc := validation_branch p i is_validation in
    let head := IterationStart i :: (train_step i).1 ++ (log_step p i).1 ++ vc.1 in
    match vc.2 with
    | Raise e => (head, Raise e)
    | Ok vf =>
        let stop := is_validation && negb (vf.2 =? 0) in
        (head ++ (checkpoint_step p i is_validation vf.1).1
              ++ (if stop then [Break i] else []),
         Ok stop)
    end.
Proof.
  intros Hv Hg. unfold Training.iteration_body, py_floordiv, py_mod.
  destruct (Z.eqb_spec ve 0) as [|_]; [contradiction|].
  rewrite bind_emit, !bind_lift_ok. cbn zeta.
  rewrite (bind_ok _ _ _ tt (train_step_run i Hg)).
  destruct (log_step_run p i) as (llog & El & _).
  rewrite (bind_ok _ _ _ tt El), El.
  rewrite train_step_run by exact Hg. cbn [fst snd].
  destruct (validation_branch p i (i mod ve =? 0)) as [vlog [vf|e]].
  - rewrite (bind_ok _ _ vlog vf eq_refl).
    rewrite (bind_ok _ _ _ tt (checkpoint_step_run p i _ _)).
    rewrite ?checkpoint_step_run. cbn [fst snd].
    destruct ((i mod ve =? 0) && negb (vf.2 =? 0)); run_M;
      rewrite ?checkpoint_step_run; cbn [fst snd];
      rewrite <- ?app_assoc; cbn [app]; rewrite <- ?app_assoc;
      rewrite ?app_nil_r; reflexivity.
  - rewrite (bind_raise _ _ vlog e eq_refl). cbn [fst snd].
    rewrite <- ?app_assoc; cbn [app]; rewrite <- ?app_assoc. reflexivity.
Qed.

Lemma filter_none (f : event -> bool) (l : list event) :
  Forall (fun e => f e = false) l -> List.filter f l = [].
Proof.
  induction 1 as [|e l He _ IH]; [reflexivity|]. cbn. now rewrite He.
Qed.

(** The gradient and optimizer actions of an iteration are those of its
    training step. *)
Lemma iteration_gradient_actions (p : Process) (i : Z) :
  ve <> 0 -> g <> 0 ->
  List.filter is_gradient_action (iteration_body p i).1
  = List.filter is_gradient_action (train_step i).1.
Proof.
  intros Hv Hg. rewrite iteration_body_unfold by assumption. cbn zeta.
  destruct (log_step_run p i) as (llog & El & Hl). rewrite El. cbn [fst snd].
  assert (Hnone_l : List.filter is_gradient_action llog = []).
  { apply filter_none. eapply List.Forall_impl; [|exact Hl].
    intros e [-> | [-> | ->]]; reflexivity. }
  pose proof (validation_branch_events p i (i mod ve =? 0)) as Hvc.
  destruct (validation_branch p i (i mod ve =? 0)) as [vlog [vf|e]];
    cbn [fst snd] in *.
  - assert (Hnone_v : List.filter is_gradient_action vlog = []).
    { apply filter_none. eapply List.Forall_impl; [|exact Hvc].
      intros [] He; try discriminate He; reflexivity. }
    rewrite checkpoint_step_run. cbn [fst snd].
    rewrite !List.filter_app.
    cbn [List.filter is_gradient_action is_optimizer_action].
    rewrite !List.filter_app, Hnone_l, Hnone_v.
    destruct (is_main_process p && (0 <? checkpoint_every_iters args)
              && (i mod checkpoint_every_iters args =? 0)),
      ((i mod ve =? 0) && negb (vf.2 =? 0));
      cbn; now rewrite ?app_nil_r.
  - assert (Hnone_v : List.filter is_gradient_action vlog = []).
    { apply filter_none. eapply List.Forall_impl; [|exact Hvc].
      intros [] He; try discriminate He; reflexivity. }
    cbn [List.filter is_gradient_action is_optimizer_action].
    rewrite !List.filter_app, Hnone_l, Hnone_v. now rewrite ?app_nil_r.
Qed.

(** C2: in every iteration [i] whose loop body gets past its cadence
    arithmetic, the gradient and optimizer actions are, in this order: the
    zeroing of the gradients, present exactly when [(i - 1) % k = 0] for the
    accumulation length [k]; the backward pass on the loss scaled by [1/k];
    and, present exactly when [i % k = 0], gradient clipping to the
    configured norm if clipping is configured, the call of the LR schedule,
    the optimizer step, and the weight-averager update if SWA is enabled.
    At any other iteration none of these four actions occurs. *)
Theorem accumulation_group_actions (p : Process) (i : Z) :
  ve <> 0 -> g <> 0 ->
  let log := (iteration_body p i).1 in
  List.filter is_gradient_action log
  = (if (i - 1) mod g =? 0 then [ZeroGrad] else [])
    ++ [Backward (train_loss i * (1 / Qc_of_Z g))%Qc]
    ++ (if i mod g =? 0
        then (if gradient_clipping alphafold_config
              then [ClipGradNorm (clip_grad_max_norm alphafold_config)] else [])
             ++ [LrSchedulerCall i; OptimizerStep]
             ++ (if swa_enabled alphafold_config then [SwaUpdate] else [])
        else []) /\
  (In ZeroGrad log <-> (i - 1) mod g = 0) /\
  (i mod g <> 0 -> Forall (fun e => is_optimizer_action e = false) log).
Proof.
  intros Hv Hg log.
  assert (Hf : List.filter is_gradient_action log
    = (if (i - 1) mod g =? 0 then [ZeroGrad] else [])
      ++ [Backward (train_loss i * (1 / Qc_of_Z g))%Qc]
      ++ (if i mod g =? 0
          then (if gradient_clipping alphafold_config
                then [ClipGradNorm (clip_grad_max_norm alphafold_config)] else [])
               ++ [LrSchedulerCall i; OptimizerStep]
               ++ (if swa_enabled alphafold_config then [SwaUpdate] else [])
          else [])).
  { subst log. rewrite iteration_gradient_actions by assumption.
    rewrite train_step_run by exact Hg. cbn [fst].
    replace (train_loss i * (1 / Qc_of_Z g))%Qc
      with (train_loss i / Qc_of_Z g)%Qc
      by (unfold Qcdiv; now rewrite Qcmult_1_l).
    destruct ((i - 1) mod g =? 0), (i mod g =? 0),
      (gradient_clipping alphafold_config), (swa_enabled alphafold_config);
      reflexivity. }
  split; [exact Hf|]. split.
  - transitivity (In ZeroGrad (List.filter is_gradient_action log)).
    + rewrite List.filter_In. cbn. tauto.
    + rewrite Hf. destruct (Z.eqb_spec ((i - 1) mod g) 0) as [E|E].
      * split; [auto|]. intros _. now left.
      * split; [|contradiction]. intros Hin. exfalso.
        apply List.in_app_or in Hin as [[]|Hin].
        destruct Hin as [Hb|Hin]; [discriminate|].
        destruct (i mod g =? 0); [|destruct Hin].
        destruct (gradient_clipping alphafold_config),
          (swa_enabled alphafold_config); cbn in Hin;
          intuition discriminate.
  - intros Hb. apply List.Forall_forall. intros e He.
    destruct (is_optimizer_action e) eqn:Ho; [|reflexivity]. exfalso.
    assert (Hin : In e (List.filter is_gradient_action log)).
    { apply List.filter_In. split; [exact He|].
      destruct e; try discriminate Ho; reflexivity. }
    rewrite Hf in Hin.
    destruct (Z.eqb_spec (i mod g) 0) as [|_]; [contradiction|].
    destruct ((i - 1) mod g =? 0); cbn in Hin;
      intuition (subst; discriminate).
Qed.

(** *** The shape of an iteration's log *)

Lemma train_step_events (i : Z) :
  Forall (fun e => is_train_event e = true) (train_step i).1.
Proof.
  destruct (Z.eq_dec g 0) as [Hg|Hg].
  - rewrite train_step_div0 by exact Hg. repeat constructor.
  - rewrite train_step_run by exact Hg. cbn [fst].
    destruct ((i - 1) mod g =? 0), (i mod g =? 0),
      (gradient_clipping alphafold_config), (swa_enabled alphafold_config);
      repeat constructor.
Qed.

Lemma log_step_events (p : Process) (i : Z) :
  Forall (fun e => is_train_event e = true) (log_step p i).1.
Proof.
  destruct (log_step_run p i) as (llog & -> & Hl). cbn [fst].
  eapply List.Forall_impl; [|exact Hl]. intros e [-> | [-> | ->]]; reflexivity.
Qed.

Lemma validation_branch_step_events (p : Process) (i : Z) (b : bool) :
  Forall (fun e => is_step_event e = true) (validation_branch p i b).1.
Proof.
  eapply List.Forall_impl; [|apply validation_branch_events].
  intros [] He; try discriminate He; reflexivity.
Qed.

Lemma iteration_body_shape (p : Process) (i : Z) :
  exists mid,
    Forall (fun e => is_step_event e = true) mid /\
    ((exists e, iteration_body p i = (IterationStart i :: mid, Raise e)) \/
     (exists vf,
        ve <> 0 /\ g <> 0 /\
        (validation_branch p i (i mod ve =? 0)).2 = Ok vf /\
        iteration_body p i
        = (IterationStart i
             :: mid ++ (checkpoint_step p i (i mod ve =? 0) vf.1).1
                    ++ (if (i mod ve =? 0) && negb (vf.2 =? 0)
                        then [Break i] else []),
           Ok ((i mod ve =? 0) && negb (vf.2 =? 0))))).
Proof.
  destruct (Z.eq_dec ve 0) as [Hv|Hv].
  { exists []. split; [constructor|]. left. eexists.
    now apply iteration_body_div0_val. }
  destruct (Z.eq_dec g 0) as [Hg|Hg].
  { eexists. split; [|left; eexists; now apply iteration_body_div0_acc].
    repeat constructor. }
  rewrite iteration_body_unfold by assumption. cbn zeta.
  exists ((train_step i).1 ++ (log_step p i).1
          ++ (validation_branch p i (i mod ve =? 0)).1).
  split.
  { rewrite !Forall_app.
    assert (Hte : forall e, is_train_event e = true -> is_step_event e = true)
      by (intros e He; unfold is_step_event; now rewrite He).
    split; [eapply List.Forall_impl; [exact Hte | apply train_step_events]|].
    split; [eapply List.Forall_impl; [exact Hte | apply log_step_events]
           | apply validation_branch_step_events]. }
  destruct (validation_branch p i (i mod ve =? 0)) as [vlog [vf|e]];
    cbn [fst snd].
  - right. exists vf. split; [assumption|]. split; [assumption|].
    split; reflexivity.
  - left. eauto.
Qed.

Lemma iterations_of_app (l1 l2 : list event) :
  iterations_of (l1 ++ l2) = iterations_of l1 ++ iterations_of l2.
Proof. apply omap_app. Qed.

Lemma breaks_of_app (l1 l2 : list event) :
  breaks_of (l1 ++ l2) = breaks_of l1 ++ breaks_of l2.
Proof. apply omap_app. Qed.

Lemma step_events_no_marker (l : list event) :
  Forall (fun e => is_step_event e = true) l ->
  iterations_of l = [] /\ breaks_of l = [] /\
  ~ In ResumeFromLatestCheckpoint l.
Proof.
  induction 1 as [|e l He _ (IH1 & IH2 & IH3)].
  - repeat split. intros [].
  - unfold iterations_of, breaks_of in *.
    destruct e; try discriminate He; cbn; rewrite ?IH1, ?IH2;
      (repeat split; [intros [?|?]; [discriminate | contradiction]]).
Qed.

Lemma checkpoint_step_no_marker (p : Process) (i : Z) (b : bool) (v : option Qc) :
  iterations_of (checkpoint_step p i b v).1 = [] /\
  breaks_of (checkpoint_step p i b v).1 = [] /\
  ~ In ResumeFromLatestCheckpoint (checkpoint_step p i b v).1.
Proof.
  rewrite checkpoint_step_run. cbn [fst].
  destruct (_ && _); cbn; repeat split; intuition discriminate.
Qed.

(** Every turn of the loop starts exactly one iteration, its own; it logs
    a [break] exactly when it leaves the loop. *)
Lemma iteration_body_markers (p : Process) (i : Z) :
  iterations_of (iteration_body p i).1 = [i] /\
  breaks_of (iteration_body p i).1
  = (match (iteration_body p i).2 with Ok true => [i] | _ => [] end) /\
  ~ In ResumeFromLatestCheckpoint (iteration_body p i).1.
Proof.
  destruct (iteration_body_shape p i) as (mid & Hmid & [[e ->] | H]).
  - destruct (step_events_no_marker mid Hmid) as (H1 & H2 & H3).
    cbn [fst snd]. unfold iterations_of, breaks_of in *. cbn.
    rewrite H1, H2. repeat split. intros [?|?]; [discriminate|contradiction].
  - destruct H as (vf & _ & _ & _ & ->).
    destruct (step_events_no_marker mid Hmid) as (H1 & H2 & H3).
    destruct (checkpoint_step_no_marker p i (i mod ve =? 0) vf.1)
      as (C1 & C2 & C3).
    cbn [fst snd].
    change (IterationStart i :: ?l) with ([IterationStart i] ++ l).
    rewrite !iterations_of_app, !breaks_of_app, H1, H2, C1, C2.
    destruct ((i mod ve =? 0) && negb (vf.2 =? 0)); cbn;
      (repeat split; [rewrite !List.in_app_iff; cbn; intuition discriminate]).
Qed.

(** *** The loop *)

Lemma training_loop_cons (p : Process) (i : Z) (rest : list Z) :
  training_loop p (i :: rest)
  = match iteration_body p i with
    | (log, Ok true) => (log, Ok tt)
    | (log, Ok false) =>
        (log ++ (training_loop p rest).1, (training_loop p rest).2)
    | (log, Raise e) => (log, Raise e)
    end.
Proof.
  cbn [Training.training_loop].
  destruct (iteration_body p i) as [log [[]|e]]; run_M.
  - now rewrite app_nil_r.
  - now destruct (training_loop p rest).
  - reflexivity.
Qed.

Lemma in_breaks_of (log : list event) (i : Z) :
  In (Break i) log <-> In i (breaks_of log).
Proof.
  unfold breaks_of. rewrite <- !list_elem_of_In, list_elem_of_omap. split.
  - intros Hin. exists (Break i). auto.
  - intros (e & Hin & He). destruct e; try discriminate He.
    now injection He as ->.
Qed.

(** The iterations the loop goes through are an initial segment of its
    range, starting at the first; a [break] is the last thing the loop
    does; and without exception or [break] the whole range is run. *)
Lemma training_loop_iterations (p : Process) (l : list Z) :
  iterations_of (training_loop p l).1 `prefix_of` l /\
  head (iterations_of (training_loop p l).1) = head l /\
  ~ In ResumeFromLatestCheckpoint (training_loop p l).1 /\
  ((training_loop p l).2 = Ok tt ->
   breaks_of (training_loop p l).1 = [] ->
   iterations_of (training_loop p l).1 = l) /\
  (forall i, In (Break i) (training_loop p l).1 ->
     (training_loop p l).2 = Ok tt /\
     (iteration_body p i).2 = Ok true /\
     exists pre, (training_loop p l).1 = pre ++ (iteration_body p i).1).
Proof.
  induction l as [|j rest (IH1 & IH2 & IH3 & IH4 & IH5)].
  - cbn. repeat split; try tauto. apply prefix_nil.
  - rewrite training_loop_cons.
    destruct (iteration_body_markers p j) as (M1 & M2 & M3).
    destruct (iteration_body p j) as [log [[]|e]] eqn:Eb; cbn [fst snd] in *.
    + rewrite M1. split; [apply prefix_cons, prefix_nil|].
      split; [reflexivity|]. split; [exact M3|].
      split; [rewrite M2; discriminate|].
      intros i Hi. apply in_breaks_of in Hi. rewrite M2 in Hi.
      destruct Hi as [<-|[]]. rewrite Eb. split; [reflexivity|].
      split; [reflexivity|]. now exists [].
    + rewrite iterations_of_app, breaks_of_app, M1, M2. cbn [app].
      split; [now apply prefix_cons|]. split; [reflexivity|].
      split; [rewrite List.in_app_iff; tauto|].
      split; [intros Hr Hb; f_equal; now apply IH4|].
      intros i Hi. apply List.in_app_or in Hi as [Hi|Hi].
      * apply in_breaks_of in Hi. rewrite M2 in Hi. destruct Hi.
      * destruct (IH5 i Hi) as (R & B & pre & E).
        split; [exact R|]. split; [exact B|].
        exists (log ++ pre). now rewrite E, app_assoc.
    + rewrite M1. split; [apply prefix_cons, prefix_nil|].
      split; [reflexivity|]. split; [exact M3|].
      split; [discriminate|].
      intros i Hi. apply in_breaks_of in Hi. rewrite M2 in Hi. destruct Hi.
Qed.

(** *** Resuming *)

Lemma resume_from_latest_checkpoint_max (c : Z) (rest : list Z) :
  In (resume_from_latest_checkpoint (c :: rest)) (c :: rest) /\
  Forall (fun x => x <= resume_from_latest_checkpoint (c :: rest)) (c :: rest).
Proof.
  cbn [resume_from_latest_checkpoint].
  induction rest as [|x rest (IHin & IHle)]; cbn [foldr].
  - split; [now left | repeat constructor; lia].
  - inversion IHle as [|? ? Hc Hrest]; subst. split.
    + destruct (Z.max_spec x (foldr Z.max c rest)) as [[_ ->]|[_ ->]].
      * destruct IHin as [<-|Hin]; [now left | right; now right].
      * right. now left.
    + constructor; [lia|]. constructor; [lia|].
      eapply List.Forall_impl; [|exact Hrest]. intros; cbn in *; lia.
Qed.

Lemma training_unfold (p : Process) :
  g <> 0 ->
  training p
  = if resume_from_latest_checkpoint checkpoints mod g =? 0 then
      match training_loop p
              (range (resume_from_latest_checkpoint checkpoints + 1)
                     (num_train_iters args + 1)) with
      | (log, Ok _) =>
          (ResumeFromLatestCheckpoint
             :: log ++ (if distributed args then [Barrier] else []) ++ [RunStop],
           Ok tt)
      | (log, Raise e) => (ResumeFromLatestCheckpoint :: log, Raise e)
      end
    else ([ResumeFromLatestCheckpoint], Raise (AssertionError 600)).
Proof.
  intros Hg. unfold Training.training, py_mod. cbn zeta.
  destruct (Z.eqb_spec g 0) as [|_]; [contradiction|].
  rewrite bind_emit, bind_lift_ok.
  destruct (_ mod g =? 0); [|reflexivity].
  destruct (training_loop p _) as [log [[]|e]];
    destruct (distributed args); reflexivity.
Qed.

(** C5: the controller resumes once, before anything else, and takes the
    number of previous iterations from it, 0 when the directory holds no
    checkpoint; if that number is not a multiple of the accumulation length
    the run ends with the assertion error of line 600 and no iteration has
    started; otherwise the iterations run are an initial segment of
    [num_prev_iters + 1 .. num_train_iters], the first one run is
    [num_prev_iters + 1], and a run that ends without exception and without
    [break] has gone through all of them. *)
Theorem resume_contract (p : Process) :
  g <> 0 ->
  let num_prev_iters := resume_from_latest_checkpoint checkpoints in
  let log := (training p).1 in
  (exists rest, log = ResumeFromLatestCheckpoint :: rest /\
                ~ In ResumeFromLatestCheckpoint rest) /\
  (checkpoints = [] -> num_prev_iters = 0) /\
  (num_prev_iters mod g <> 0 ->
     training p = ([ResumeFromLatestCheckpoint], Raise (AssertionError 600))) /\
  (num_prev_iters mod g = 0 ->
     iterations_of log
       `prefix_of` seqZ (num_prev_iters + 1) (num_train_iters args - num_prev_iters) /\
     (num_prev_iters < num_train_iters args ->
        head (iterations_of log) = Some (num_prev_iters + 1)) /\
     ((training p).2 = Ok tt -> breaks_of log = [] ->
        iterations_of log
        = seqZ (num_prev_iters + 1) (num_train_iters args - num_prev_iters))).
Proof.
  intros Hg num_prev_iters log. subst log.
  rewrite training_unfold by exact Hg. fold num_prev_iters. unfold range.
  replace (num_train_iters args + 1 - (num_prev_iters + 1))
    with (num_train_iters args - num_prev_iters) by lia.
  set (l := seqZ (num_prev_iters + 1) (num_train_iters args - num_prev_iters)).
  destruct (training_loop_iterations p l) as (L1 & L2 & L3 & L4 & _).
  split; [|split; [|split]].
  - destruct (num_prev_iters mod g =? 0).
    + destruct (training_loop p l) as [log [[]|e]]; cbn [fst snd] in *;
        eexists; (split; [reflexivity|]); [|exact L3].
      rewrite !List.in_app_iff. intros [H|[H|H]]; [contradiction| |].
      * destruct (distributed args); cbn in H; intuition discriminate.
      * cbn in H; intuition discriminate.
    + exists []. split; [reflexivity | intros []].
  - intros E. subst num_prev_iters. now rewrite E.
  - intros Hm. destruct (Z.eqb_spec (num_prev_iters mod g) 0); [contradiction|].
    reflexivity.
  - intros Hm. rewrite Hm. cbn [Z.eqb].
    assert (Htail : forall log : list event,
              iterations_of (ResumeFromLatestCheckpoint
                               :: log ++ (if distributed args then [Barrier] else [])
                                      ++ [RunStop])
              = iterations_of log /\
              breaks_of (ResumeFromLatestCheckpoint
                           :: log ++ (if distributed args then [Barrier] else [])
                                  ++ [RunStop])
              = breaks_of log).
    { intros log.
      change (ResumeFromLatestCheckpoint :: ?x)
        with ([ResumeFromLatestCheckpoint] ++ x).
      rewrite !iterations_of_app, !breaks_of_app.
      destruct (distributed args); cbn; now rewrite !app_nil_r. }
    destruct (training_loop p l) as [log [[]|e]]; cbn [fst snd] in *.
    + destruct (Htail log) as [-> ->]. split; [exact L1|]. split.
      * intros Hlt. rewrite L2. subst l. now rewrite seqZ_cons by lia.
      * intros _ Hb. now apply L4.
    + change (iterations_of (ResumeFromLatestCheckpoint :: log))
        with (iterations_of log).
      split; [exact L1|]. split; [|discriminate].
      intros Hlt. rewrite L2. subst l. now rewrite seqZ_cons by lia.
Qed.

(** *** Early stop *)

Lemma until_target_shape (l : list Z) :
  (until_target args val_metrics_list l = l /\
   Forall (fun i => target_reached args val_metrics_list i = false) l) \/
  (exists pre i post,
     l = pre ++ i :: post /\
     until_target args val_metrics_list l = pre ++ [i] /\
     target_reached args val_metrics_list i = true /\
     Forall (fun i => target_reached args val_metrics_list i = false) pre).
Proof.
  induction l as [|j rest IH]; [left; split; [reflexivity | constructor]|].
  cbn [until_target].
  destruct (target_reached args val_metrics_list j) eqn:Ej.
  - right. exists [], j, rest. split; [reflexivity|]. split; [reflexivity|].
    split; [exact Ej | constructor].
  - destruct IH as [[E F]|(pre & i & post & E1 & E2 & T & F)].
    + left. rewrite E. split; [reflexivity | now constructor].
    + right. exists (j :: pre), i, post. rewrite E2.
      split; [now rewrite E1|]. split; [reflexivity|].
      split; [exact T | now constructor].
Qed.

Lemma local_stop_flag_ok (p : Process) (i : Z) :
  val_metrics_list i <> [] ->
  Z.of_nat (length (val_metrics_list i)) = len_validation_dataset ->
  local_stop_flag p i
  = (if is_main_process p
     then EvalAccuracy (mean (val_metrics_list i))
            :: (if is_logging_enabled args then [SaveValLog] else [])
     else [],
     Ok (if is_main_process p then Some (mean (val_metrics_list i)) else None,
         if is_main_process p then coordinator_flag args val_metrics_list i
         else 0)).
Proof.
  intros Hne Hlen. rewrite local_stop_flag_cases.
  destruct (is_main_process p); [|reflexivity].
  apply Z.eqb_eq in Hlen. rewrite Hlen.
  now destruct (val_metrics_list i).
Qed.

Lemma broadcast_ok (i : Z) :
  0 < WORLD_SIZE ->
  val_metrics_list i <> [] ->
  Z.of_nat (length (val_metrics_list i)) = len_validation_dataset ->
  dist_broadcast (cluster_flags i) 0
  = Ok (coordinator_flag args val_metrics_list i).
Proof.
  intros Hw Hne Hlen. rewrite broadcast_from_main.
  apply Z.eqb_eq in Hlen. rewrite Hlen.
  destruct (Z.ltb_spec 0 WORLD_SIZE); [|lia].
  now rewrite bool_decide_eq_false_2 by exact Hne.
Qed.

(** When the gather brought the whole validation set, the validation
    cycle leaves every process with the coordinator's decision. *)
Lemma validation_cycle_decision (RANK : Z) (i : Z) :
  (distributed args = true -> 0 < WORLD_SIZE) ->
  val_metrics_list i <> [] ->
  Z.of_nat (length (val_metrics_list i)) = len_validation_dataset ->
  let p := init_process (distributed args) RANK WORLD_SIZE in
  (validation_cycle p i).2
  = Ok (if is_main_process p then Some (mean (val_metrics_list i)) else None,
        coordinator_flag args val_metrics_list i) /\
  (distributed args = true -> In (Broadcast 0) (validation_cycle p i).1).
Proof.
  intros Hw Hne Hlen p. subst p.
  rewrite validation_cycle_unfold, local_stop_flag_ok by assumption.
  cbn zeta. unfold init_process.
  destruct (distributed args); cbn [is_main_process main_rank default fst snd].
  - change (default 0 (Some 0)) with 0.
    rewrite broadcast_ok by auto. split; [reflexivity|]. intros _.
    rewrite !List.in_app_iff. right. right. now left.
  - split; [reflexivity | discriminate].
Qed.

Lemma iteration_body_result (RANK : Z) (i : Z) :
  ve <> 0 -> g <> 0 ->
  (distributed args = true -> 0 < WORLD_SIZE) ->
  (i mod ve = 0 ->
   val_metrics_list i <> [] /\
   Z.of_nat (length (val_metrics_list i)) = len_validation_dataset) ->
  (iteration_body (init_process (distributed args) RANK WORLD_SIZE) i).2
  = Ok (target_reached args val_metrics_list i).
Proof.
  intros Hv Hg Hw Hok. rewrite iteration_body_unfold by assumption. cbn zeta.
  unfold Training.validation_branch, target_reached.
  destruct (Z.eqb_spec (i mod ve) 0) as [E|E].
  - destruct (Hok E) as [Hne Hlen].
    destruct (validation_cycle_decision RANK i Hw Hne Hlen) as [Hr _].
    destruct (validation_cycle _ i) as [vlog r]. cbn [fst snd] in *. subst r.
    cbn [fst snd andb]. unfold coordinator_flag.
    now destruct (bool_decide _).
  - reflexivity.
Qed.

Lemma training_loop_until_target (RANK : Z) (l : list Z) :
  ve <> 0 -> g <> 0 ->
  (distributed args = true -> 0 < WORLD_SIZE) ->
  (forall i, In i l -> i mod ve = 0 ->
     val_metrics_list i <> [] /\
     Z.of_nat (length (val_metrics_list i)) = len_validation_dataset) ->
  let p := init_process (distributed args) RANK WORLD_SIZE in
  (training_loop p l).2 = Ok tt /\
  iterations_of (training_loop p l).1 = until_target args val_metrics_list l.
Proof.
  intros Hv Hg Hw Hok p. induction l as [|j rest IH]; [now split|].
  rewrite training_loop_cons. cbn [until_target].
  pose proof (iteration_body_result RANK j Hv Hg Hw (Hok j (or_introl eq_refl)))
    as Hres.
  destruct (iteration_body_markers p j) as (M1 & _).
  fold p in Hres. destruct (iteration_body p j) as [log r].
  cbn [fst snd] in *. subst r.
  destruct (target_reached args val_metrics_list j); cbn [fst snd].
  - now split.
  - destruct IH as [IH1 IH2]; [intros i Hi; apply Hok; now right|].
    split; [exact IH1|]. now rewrite iterations_of_app, M1, IH2.
Qed.

(** C6: in a job whose gathers bring the whole validation set, at every
    validation iteration the processes other than the coordinator hold a
    zero flag before the broadcast, the coordinator holds 1 exactly when
    the mean metric is at least the target, and after the validation cycle
    (whose log holds the broadcast when the job is distributed) the process
    of every rank holds the coordinator's flag; the process of every rank
    returns from the loop, after the same iterations [until_target], which
    do not depend on the rank: the whole range when the target is never
    reached at a validation, and otherwise the range up to and including
    the first validation iteration at which the target is reached. *)
Theorem stop_flag_handshake (RANK : Z) (l : list Z) :
  ve <> 0 -> g <> 0 ->
  (distributed args = true -> 0 <= RANK < WORLD_SIZE) ->
  (forall i, In i l -> i mod ve = 0 ->
     val_metrics_list i <> [] /\
     Z.of_nat (length (val_metrics_list i)) = len_validation_dataset) ->
  let p := init_process (distributed args) RANK WORLD_SIZE in
  (forall i, In i l -> i mod ve = 0 ->
     (local_stop_flag p i).2
     = Ok (if is_main_process p then Some (mean (val_metrics_list i)) else None,
           if is_main_process p
           then (if bool_decide (target_avg_lddt_ca_value args
                                 ≤ mean (val_metrics_list i))%Qc then 1 else 0)
           else 0) /\
     (validation_cycle p i).2
     = Ok (if is_main_process p then Some (mean (val_metrics_list i)) else None,
           if bool_decide (target_avg_lddt_ca_value args
                           ≤ mean (val_metrics_list i))%Qc then 1 else 0) /\
     (distributed args = true -> In (Broadcast 0) (validation_cycle p i).1)) /\
  (training_loop p l).2 = Ok tt /\
  iterations_of (training_loop p l).1 = until_target args val_metrics_list l /\
  ((until_target args val_metrics_list l = l /\
    Forall (fun i => target_reached args val_metrics_list i = false) l) \/
   (exists pre i post,
      l = pre ++ i :: post /\
      until_target args val_metrics_list l = pre ++ [i] /\
      target_reached args val_metrics_list i = true /\
      Forall (fun i => target_reached args val_metrics_list i = false) pre)).
Proof.
  intros Hv Hg Hr Hok p.
  assert (Hw : distributed args = true -> 0 < WORLD_SIZE)
    by (intros Hd; specialize (Hr Hd); lia).
  split; [|split; [|split]].
  - intros i Hi Hm. destruct (Hok i Hi Hm) as [Hne Hlen].
    destruct (validation_cycle_decision RANK i Hw Hne Hlen) as [Hc Hb].
    split; [|split; [exact Hc | exact Hb]].
    now rewrite local_stop_flag_ok by assumption.
  - apply (training_loop_until_target RANK l Hv Hg Hw Hok).
  - apply (training_loop_until_target RANK l Hv Hg Hw Hok).
  - apply until_target_shape.
Qed.

(** *** The count check *)

(** C8: on the coordinator, at a validation iteration whose gathered list
    does not have the size of the validation set, the loop ends with an
    exception as soon as it reaches that iteration: the assertion error of
    the count check (line 896) when at least one sample was gathered, and
    the [KeyError] of the mean over a frame without columns when none was.
    The log of the iteration ends with the validation call and the gather:
    the aggregate is not published, no stop flag is broadcast, no
    checkpoint is saved, and no later iteration starts. *)
Theorem gather_count_mismatch_is_fatal (p : Process) (i : Z) (rest : list Z) :
  ve <> 0 -> g <> 0 ->
  is_main_process p = true ->
  i mod ve = 0 ->
  Z.of_nat (length (val_metrics_list i)) <> len_validation_dataset ->
  exists tl,
    Forall (fun e => is_train_event e = true) tl /\
    training_loop p (i :: rest)
    = (IterationStart i
         :: tl ++ CallValidation
                    :: (if distributed args then [DistGatherValMetrics] else []),
       Raise (if bool_decide (val_metrics_list i = [])
              then KeyError else AssertionError 896)).
Proof.
  intros Hv Hg Hp Hm Hlen.
  exists ((train_step i).1 ++ (log_step p i).1). split.
  { rewrite Forall_app. split; [apply train_step_events | apply log_step_events]. }
  rewrite training_loop_cons, iteration_body_unfold by assumption. cbn zeta.
  rewrite Hm. cbn [Z.eqb Training.validation_branch].
  rewrite validation_cycle_unfold, local_stop_flag_cases, Hp. cbn zeta.
  apply Z.eqb_neq in Hlen. rewrite Hlen.
  destruct (val_metrics_list i) as [|x l]; cbn [fst snd].
  - rewrite bool_decide_eq_true_2 by reflexivity.
    rewrite app_nil_r, <- app_assoc. reflexivity.
  - rewrite bool_decide_eq_false_2 by discriminate.
    rewrite app_nil_r, <- app_assoc. reflexivity.
Qed.

(** *** The checkpoint of the stopping iteration *)

Lemma validation_cycle_coordinator (i : Z) (vf : option Qc * Z) :
  (validation_cycle (init_process (distributed args) 0 WORLD_SIZE) i).2 = Ok vf ->
  vf = (Some (mean (val_metrics_list i)),
        coordinator_flag args val_metrics_list i) /\
  In (EvalAccuracy (mean (val_metrics_list i)))
     (validation_cycle (init_process (distributed args) 0 WORLD_SIZE) i).1.
Proof.
  rewrite validation_cycle_unfold, local_stop_flag_cases. cbn zeta.
  assert (Hmain : is_main_process (init_process (distributed args) 0 WORLD_SIZE)
                  = true) by (unfold init_process; now destruct (distributed args)).
  rewrite Hmain.
  destruct (val_metrics_list i) as [|x l] eqn:E; [discriminate|]. rewrite <- E.
  destruct (Z.of_nat (length (val_metrics_list i)) =? len_validation_dataset)
    eqn:Hlen; [|discriminate].
  destruct (distributed args) eqn:Hd; cbn [fst snd].
  - change (default 0 (main_rank (init_process true 0 WORLD_SIZE))) with 0.
    rewrite broadcast_from_main, Hlen, E.
    rewrite bool_decide_eq_false_2 by discriminate. rewrite <- E.
    destruct (0 <? WORLD_SIZE); cbn [andb negb]; [|discriminate].
    intros [= <-]. split; [reflexivity|].
    rewrite !List.in_app_iff. right. left. now left.
  - intros [= <-]. split; [reflexivity|].
    rewrite !List.in_app_iff. right. now left.
Qed.

(** C10: on the coordinator, whenever the loop logs the [break] of an
    iteration [i] at which a checkpoint is due ([checkpoint_every_iters]
    positive and dividing [i]), the loop has returned and its log ends with
    the saving of the checkpoint of iteration [i], tagged as a validation
    checkpoint and carrying the mean metric of that validation, followed
    by the [break]; that metric was published by the validation of the
    same iteration and is at least the target. *)
Theorem checkpoint_saved_before_break (l : list Z) (i : Z) :
  let p := init_process (distributed args) 0 WORLD_SIZE in
  In (Break i) (training_loop p l).1 ->
  0 < checkpoint_every_iters args ->
  i mod checkpoint_every_iters args = 0 ->
  (training_loop p l).2 = Ok tt /\
  (target_avg_lddt_ca_value args ≤ mean (val_metrics_list i))%Qc /\
  exists pre,
    (training_loop p l).1
    = pre ++ [SaveCheckpoint i true (Some (mean (val_metrics_list i))); Break i] /\
    In (IterationStart i) pre /\
    In (EvalAccuracy (mean (val_metrics_list i))) pre.
Proof.
  intros p Hin Hck Hdue.
  destruct (training_loop_iterations p l) as (_ & _ & _ & _ & Hbreak).
  destruct (Hbreak i Hin) as (Hret & Hres & pre & Hlog).
  split; [exact Hret|].
  destruct (iteration_body_shape p i) as (mid & _ & [[e He] | H]).
  { rewrite He in Hres. discriminate. }
  destruct H as (vf & Hv & Hg & Hvb & Hbody).
  rewrite Hbody in Hres. cbn [snd] in Hres. injection Hres as Hstop.
  apply andb_true_iff in Hstop as [Hval Hflag].
  rewrite Hval in Hvb. cbn [Training.validation_branch] in Hvb.
  destruct (validation_cycle_coordinator i vf Hvb) as [-> Heval].
  cbn [fst snd] in *.
  assert (Htarget : (target_avg_lddt_ca_value args ≤ mean (val_metrics_list i))%Qc).
  { unfold coordinator_flag in Hflag.
    destruct (bool_decide_reflect
                (target_avg_lddt_ca_value args ≤ mean (val_metrics_list i))%Qc)
      as [H|H]; [exact H | discriminate]. }
  split; [exact Htarget|].
  rewrite iteration_body_unfold in Hlog by assumption. cbn zeta in Hlog.
  rewrite Hval in Hlog. cbn [Training.validation_branch] in Hlog.
  rewrite Hvb in Hlog. cbn [fst snd andb] in Hlog. rewrite Hflag in Hlog.
  rewrite checkpoint_step_run in Hlog.
  assert (Hmain : is_main_process p = true)
    by (unfold p, init_process; now destruct (distributed args)).
  rewrite Hmain in Hlog.
  destruct (Z.ltb_spec 0 (checkpoint_every_iters args)); [|lia].
  rewrite Hdue in Hlog. cbn [andb Z.eqb fst] in Hlog.
  eexists. split.
  { rewrite Hlog. rewrite app_assoc. reflexivity. }
  split; apply List.in_or_app; right.
  - now left.
  - right. apply List.in_or_app. right. apply List.in_or_app. right.
    exact Heval.
Qed.

(** *** Where the actions of a run come from *)

Lemma training_div0 (p : Process) :
  g = 0 -> training p = ([ResumeFromLatestCheckpoint], Raise ZeroDivisionError).
Proof.
  intros Hg. unfold Training.training, py_mod. rewrite Hg. reflexivity.
Qed.

Lemma in_training_loop (p : Process) (l : list Z) (e : event) :
  In e (training_loop p l).1 ->
  exists i, In i l /\ In e (iteration_body p i).1.
Proof.
  induction l as [|j rest IH]; [intros []|].
  rewrite training_loop_cons.
  destruct (iteration_body p j) as [log [[]|x]] eqn:Eb; cbn [fst].
  - intros Hin. exists j. rewrite Eb. split; [now left | exact Hin].
  - intros Hin. apply List.in_app_or in Hin as [Hin|Hin].
    + exists j. rewrite Eb. split; [now left | exact Hin].
    + destruct (IH Hin) as (i & Hi & He). exists i. split; [now right | exact He].
  - intros Hin. exists j. rewrite Eb. split; [now left | exact Hin].
Qed.

Lemma in_training (p : Process) (e : event) :
  In e (training p).1 ->
  e = ResumeFromLatestCheckpoint \/
  (e = Barrier /\ distributed args = true /\ (training p).2 = Ok tt) \/
  (e = RunStop /\ (training p).2 = Ok tt) \/
  (exists i,
     resume_from_latest_checkpoint checkpoints < i <= num_train_iters args /\
     In e (iteration_body p i).1).
Proof.
  destruct (Z.eq_dec g 0) as [Hg|Hg].
  { rewrite training_div0 by exact Hg. cbn. intuition. }
  rewrite training_unfold by exact Hg.
  destruct (_ mod g =? 0); [|cbn; intuition].
  set (l := range _ _).
  assert (Hl : forall i, In i l ->
            resume_from_latest_checkpoint checkpoints < i <= num_train_iters args).
  { intros i Hi. subst l. unfold range in Hi.
    apply list_elem_of_In, elem_of_seqZ in Hi. lia. }
  pose proof (in_training_loop p l e) as Hloop.
  destruct (training_loop p l) as [log [[]|x]]; cbn [fst snd] in *.
  - intros [<-|Hin]; [now left|].
    apply List.in_app_or in Hin as [Hin|Hin].
    + right. right. right. destruct (Hloop Hin) as (i & Hi & He).
      exists i. split; [now apply Hl | exact He].
    + apply List.in_app_or in Hin as [Hin|Hin].
      * destruct (distributed args); [|destruct Hin].
        destruct Hin as [<-|[]]. right. left. auto.
      * destruct Hin as [<-|[]]. right. right. left. auto.
  - intros [<-|Hin]; [now left|].
    right. right. right. destruct (Hloop Hin) as (i & Hi & He).
    exists i. split; [now apply Hl | exact He].
Qed.

(** *** Processes other than the coordinator *)

Lemma validation_branch_other (p : Process) (i : Z) (b : bool) :
  is_main_process p = false ->
  Forall (fun e => is_coordinator_output e = false) (validation_branch p i b).1.
Proof.
  intros Hp. destruct b; [|constructor]. cbn [Training.validation_branch].
  rewrite validation_cycle_unfold, local_stop_flag_other by exact Hp.
  cbn zeta. destruct (distributed args); cbn [fst app]; repeat constructor.
Qed.

Lemma iteration_body_other (p : Process) (i : Z) :
  is_main_process p = false ->
  Forall (fun e => is_coordinator_output e = false) (iteration_body p i).1.
Proof.
  intros Hp.
  assert (Htrain : forall l,
            Forall (fun e => is_train_event e = true) l ->
            Forall (fun e => is_coordinator_output e = false) l).
  { intros l. apply List.Forall_impl. intros [] He; try discriminate He; reflexivity. }
  destruct (Z.eq_dec ve 0) as [Hv|Hv].
  { rewrite iteration_body_div0_val by exact Hv. repeat constructor. }
  destruct (Z.eq_dec g 0) as [Hg|Hg].
  { rewrite iteration_body_div0_acc by assumption. repeat constructor. }
  rewrite iteration_body_unfold by assumption. cbn zeta.
  pose proof (validation_branch_other p i (i mod ve =? 0) Hp) as Hvc.
  pose proof (Htrain _ (train_step_events i)) as Ht.
  pose proof (Htrain _ (log_step_events p i)) as Hl.
  destruct (validation_branch p i (i mod ve =? 0)) as [vlog [vf|x]];
    cbn [fst snd] in *.
  - rewrite checkpoint_step_run, Hp. cbn [andb fst].
    constructor; [reflexivity|]. rewrite !Forall_app.
    repeat split; try assumption; [constructor|].
    destruct ((i mod ve =? 0) && negb (vf.2 =? 0)); repeat constructor.
  - constructor; [reflexivity|]. rewrite !Forall_app. auto.
Qed.

(** X14: a process other than the coordinator never publishes a validation
    aggregate, never writes a validation log and never saves a checkpoint,
    over the whole run and whatever the outcome of the run. *)
Theorem non_coordinator_is_silent (p : Process) :
  is_main_process p = false ->
  Forall (fun e => is_coordinator_output e = false) (training p).1.
Proof.
  intros Hp. apply List.Forall_forall. intros e Hin.
  destruct (in_training p e Hin) as [->|[(-> & _)|[(-> & _)|(i & _ & Hi)]]];
    try reflexivity.
  pose proof (iteration_body_other p i Hp) as Hbody.
  rewrite List.Forall_forall in Hbody. now apply Hbody.
Qed.

(** *** Checkpoints *)

Lemma validation_cycle_main_value (p : Process) (i : Z) (vf : option Qc * Z) :
  is_main_process p = true ->
  (validation_cycle p i).2 = Ok vf ->
  vf.1 = Some (mean (val_metrics_list i)).
Proof.
  intros Hp. rewrite validation_cycle_unfold, local_stop_flag_cases, Hp.
  cbn zeta.
  destruct (val_metrics_list i) as [|x l] eqn:E; [discriminate|]. rewrite <- E.
  destruct (Z.of_nat (length (val_metrics_list i)) =? len_validation_dataset);
    [|discriminate].
  destruct (distributed args); cbn [fst snd].
  - destruct (dist_broadcast _ _); [|discriminate]. now intros [= <-].
  - now intros [= <-].
Qed.

Lemma in_step_events_not_checkpoint (l : list event) (j : Z) (b : bool)
    (v : option Qc) :
  Forall (fun e => is_step_event e = true) l -> ~ In (SaveCheckpoint j b v) l.
Proof.
  intros Hl Hin. rewrite List.Forall_forall in Hl. specialize (Hl _ Hin).
  discriminate Hl.
Qed.

Lemma iteration_body_checkpoint (p : Process) (i j : Z) (b : bool)
    (v : option Qc) :
  In (SaveCheckpoint j b v) (iteration_body p i).1 ->
  j = i /\ is_main_process p = true /\
  0 < checkpoint_every_iters args /\
  i mod checkpoint_every_iters args = 0 /\
  b = (i mod ve =? 0) /\
  v = (if i mod ve =? 0 then Some (mean (val_metrics_list i)) else None) /\
  exists vf : option Qc * Z,
    (iteration_body p i).2 = Ok ((i mod ve =? 0) && negb (vf.2 =? 0)) /\
    (iteration_body p i).1
    = IterationStart i
        :: ((train_step i).1 ++ (log_step p i).1
              ++ (validation_branch p i (i mod ve =? 0)).1)
        ++ SaveCheckpoint j b v
        :: (if (i mod ve =? 0) && negb (vf.2 =? 0) then [Break i] else []).
Proof.
  destruct (Z.eq_dec ve 0) as [Hv|Hv].
  { rewrite iteration_body_div0_val by exact Hv. cbn.
    intros [?|[]]; discriminate. }
  destruct (Z.eq_dec g 0) as [Hg|Hg].
  { rewrite iteration_body_div0_acc by assumption. cbn.
    intuition discriminate. }
  rewrite iteration_body_unfold by assumption. cbn zeta.
  pose proof (in_step_events_not_checkpoint _ j b v
                (validation_branch_step_events p i (i mod ve =? 0))) as Nv.
  assert (Nt : ~ In (SaveCheckpoint j b v) (train_step i).1).
  { intros Hin. pose proof (train_step_events i) as Ht.
    rewrite List.Forall_forall in Ht. specialize (Ht _ Hin). discriminate Ht. }
  assert (Nl : ~ In (SaveCheckpoint j b v) (log_step p i).1).
  { intros Hin. pose proof (log_step_events p i) as Ht.
    rewrite List.Forall_forall in Ht. specialize (Ht _ Hin). discriminate Ht. }
  pose proof (validation_cycle_main_value p i) as Hval.
  unfold Training.validation_branch in *.
  destruct (i mod ve =? 0) eqn:Em.
  - destruct (validation_cycle p i) as [vlog [vf|x]]; cbn [fst snd] in *.
    + rewrite checkpoint_step_run. cbn [fst].
      intros [Hin|Hin]; [discriminate|].
      rewrite !List.in_app_iff in Hin.
      destruct Hin as [[Hin|[Hin|Hin]]|[Hin|Hin]]; try contradiction.
      * destruct (is_main_process p) eqn:Hp; cbn [andb] in Hin |- *;
          [|destruct Hin].
        destruct (Z.ltb_spec 0 (checkpoint_every_iters args));
          cbn [andb] in Hin |- *; [|destruct Hin].
        destruct (Z.eqb_spec (i mod checkpoint_every_iters args) 0);
          [|destruct Hin].
        destruct Hin as [[= <- <- <-]|[]].
        rewrite (Hval vf eq_refl eq_refl).
        repeat (split; [solve [auto]|]). exists vf. split; reflexivity.
      * destruct (negb (vf.2 =? 0)); cbn in Hin; intuition discriminate.
    + intros [Hin|Hin]; [discriminate|].
      rewrite !List.in_app_iff in Hin. tauto.
  - cbn [mret Training.M_ret fst snd andb]. rewrite checkpoint_step_run.
    cbn [fst].
    intros [Hin|Hin]; [discriminate|].
    rewrite !List.in_app_iff in Hin.
    destruct Hin as [[Hin|[Hin|[]]]|[Hin|[]]]; try contradiction.
    destruct (is_main_process p) eqn:Hp; cbn [andb] in Hin |- *; [|destruct Hin].
    destruct (Z.ltb_spec 0 (checkpoint_every_iters args)); cbn [andb] in Hin |- *;
      [|destruct Hin].
    destruct (Z.eqb_spec (i mod checkpoint_every_iters args) 0);
      [|destruct Hin].
    destruct Hin as [[= <- <- <-]|[]].
    repeat (split; [solve [auto]|]). exists (None, 0). split; reflexivity.
Qed.

(** X15: every checkpoint saved during a run is saved by the coordinator, at an
    iteration of the range of the run at which a checkpoint is due
    ([checkpoint_every_iters] positive and dividing the iteration); it is
    tagged as a validation checkpoint exactly when the iteration ends a
    train-val cycle, and then carries the mean metric of that validation,
    and no metric otherwise. *)
Theorem checkpoint_tags (p : Process) (j : Z) (b : bool) (v : option Qc) :
  In (SaveCheckpoint j b v) (training p).1 ->
  is_main_process p = true /\
  resume_from_latest_checkpoint checkpoints < j <= num_train_iters args /\
  0 < checkpoint_every_iters args /\
  j mod checkpoint_every_iters args = 0 /\
  b = (j mod ve =? 0) /\
  v = (if j mod ve =? 0 then Some (mean (val_metrics_list j)) else None).
Proof.
  intros Hin.
  destruct (in_training p _ Hin) as [E|[(E & _)|[(E & _)|(i & Hr & Hi)]]];
    try discriminate E.
  destruct (iteration_body_checkpoint p i j b v Hi)
    as (-> & Hp & Hc & Hd & Hb & Hv & _).
  auto 10.
Qed.

(** X16: under an accepted configuration a checkpoint is never saved in the
    middle of an accumulation group: in the iteration that saves it, the
    call of the LR schedule and the optimizer step come before the
    saving. *)
Theorem checkpoint_after_optimizer_step (p : Process) (i j : Z) (b : bool)
    (v : option Qc) :
  parse_args args = Ok args ->
  In (SaveCheckpoint j b v) (iteration_body p i).1 ->
  exists pre post,
    (iteration_body p i).1 = pre ++ SaveCheckpoint j b v :: post /\
    In (LrSchedulerCall i) pre /\ In OptimizerStep pre.
Proof.
  intros Hacc Hin.
  destruct (parse_args_cases args) as [[_ C]|[line [E _]]]; [|congruence].
  destruct C as (Hg & _ & _ & Dc & _).
  destruct (iteration_body_checkpoint p i j b v Hin)
    as (-> & _ & Hc & Hd & _ & _ & vf & _ & Hlog).
  assert (Hm : i mod g = 0) by exact (mod_of_multiple _ _ _ Dc Hd).
  exists (IterationStart i
            :: (train_step i).1 ++ (log_step p i).1
                 ++ (validation_branch p i (i mod ve =? 0)).1),
    (if (i mod ve =? 0) && negb (vf.2 =? 0) then [Break i] else []).
  split; [exact Hlog|].
  rewrite train_step_run by lia. rewrite Hm. cbn [fst Z.eqb].
  split; right; rewrite !List.in_app_iff; left; right; right; right;
    right; left; cbn; auto.
Qed.

(** *** The log step *)

Lemma log_step_explicit (p : Process) (i : Z) :
  log_step p i
  = ((if (0 <? log_every_iters args) && distributed args
      then [DistReduceLossesAvg] else [])
     ++ (if (0 <? log_every_iters args) && (i mod log_every_iters args =? 0)
         then (if save_process_logs args then [SaveProcessLogs] else [])
              ++ (if is_main_process p then [SaveTrainLogs] else [])
         else []),
     Ok tt).
Proof.
  unfold Training.log_step, is_logging_enabled, py_mod, when.
  destruct (Z.ltb_spec 0 (log_every_iters args)) as [Hl|Hl]; cbn [andb].
  - destruct (Z.eqb_spec (log_every_iters args) 0) as [|_]; [lia|].
    destruct (distributed args); rewrite ?bind_emit, ?bind_ret, !bind_lift_ok;
      now destruct (i mod log_every_iters args =? 0), (save_process_logs args),
        (is_main_process p).
  - reflexivity.
Qed.

Lemma train_step_filter_none (f : event -> bool) (i : Z) :
  (forall e, is_gradient_action e = true -> f e = false) ->
  (forall j, f (ManualSeed j) = false) ->
  f NextTrainBatch = false -> f Forward = false ->
  List.filter f (train_step i).1 = [].
Proof.
  intros Hgrad Hseed Hnext Hfwd. apply filter_none.
  destruct (Z.eq_dec g 0) as [Hg|Hg].
  - rewrite train_step_div0 by exact Hg. repeat constructor; auto.
  - rewrite train_step_run by exact Hg. cbn [fst].
    destruct ((i - 1) mod g =? 0), (i mod g =? 0),
      (gradient_clipping alphafold_config), (swa_enabled alphafold_config);
      repeat constructor; auto.
Qed.

Lemma validation_branch_filter_none (f : event -> bool) (p : Process) (i : Z)
    (b : bool) :
  (forall e, is_validation_event e = true -> f e = false) ->
  List.filter f (validation_branch p i b).1 = [].
Proof.
  intros Hf. apply filter_none.
  eapply List.Forall_impl; [exact Hf | apply validation_branch_events].
Qed.

(** X17: in every iteration whose loop body gets past its cadence arithmetic,
    the actions of the log step are, in this order: the averaging of the
    losses over the ranks, present exactly when logging is enabled
    ([log_every_iters] positive) and the job is distributed; and, when
    logging is enabled and the iteration is a multiple of
    [log_every_iters], the saving of the process logs, present exactly
    when [--save_process_logs] is given, then the saving of the train
    logs, present exactly on the main process.  So a process other than
    the main one saves nothing without [--save_process_logs].  This holds
    also when the validation that follows raises. *)
Theorem log_step_cadence (p : Process) (i : Z) :
  ve <> 0 -> g <> 0 ->
  List.filter is_log_action (iteration_body p i).1
  = (if (0 <? log_every_iters args) && distributed args
     then [DistReduceLossesAvg] else [])
    ++ (if (0 <? log_every_iters args) && (i mod log_every_iters args =? 0)
        then (if save_process_logs args then [SaveProcessLogs] else [])
             ++ (if is_main_process p then [SaveTrainLogs] else [])
        else []).
Proof.
  intros Hv Hg. rewrite iteration_body_unfold by assumption. cbn zeta.
  assert (Ht : List.filter is_log_action (train_step i).1 = []).
  { apply train_step_filter_none; try reflexivity.
    intros [] He; try discriminate He; reflexivity. }
  assert (Hvc : List.filter is_log_action
                  (validation_branch p i (i mod ve =? 0)).1 = []).
  { apply validation_branch_filter_none.
    intros [] He; try discriminate He; reflexivity. }
  assert (Hl : List.filter is_log_action (log_step p i).1 = (log_step p i).1).
  { destruct (log_step_run p i) as (llog & -> & Hall). cbn [fst].
    induction Hall as [|e l He _ IH]; [reflexivity|].
    destruct He as [-> | [-> | ->]]; cbn; now rewrite IH. }
  destruct (validation_branch p i (i mod ve =? 0)) as [vlog [vf|x]];
    cbn [fst snd] in *.
  - rewrite checkpoint_step_run. cbn [fst].
    rewrite !List.filter_app. cbn [List.filter is_log_action].
    rewrite !List.filter_app, Ht, Hvc, Hl, log_step_explicit. cbn [fst].
    destruct (is_main_process p && (0 <? checkpoint_every_iters args)
              && (i mod checkpoint_every_iters args =? 0)),
      ((i mod ve =? 0) && negb (vf.2 =? 0));
      cbn [List.filter is_log_action app]; now rewrite ?app_nil_r.
  - cbn [List.filter is_log_action].
    rewrite !List.filter_app, Ht, Hvc, Hl, log_step_explicit. cbn [fst app].
    now rewrite ?app_nil_r.
Qed.

(** *** The LR schedule over a run *)

Lemma lr_calls_of_gradient_actions (l : list event) :
  lr_calls_of l = lr_calls_of (List.filter is_gradient_action l) /\
  List.filter is_optimizer_step l
  = List.filter is_optimizer_step (List.filter is_gradient_action l).
Proof.
  induction l as [|e l [IH1 IH2]]; [now split|].
  unfold lr_calls_of in *. destruct e; cbn; rewrite ?IH1, ?IH2; now split.
Qed.

Lemma lr_calls_of_app (l1 l2 : list event) :
  lr_calls_of (l1 ++ l2) = lr_calls_of l1 ++ lr_calls_of l2.
Proof. apply omap_app. Qed.

Lemma iteration_body_lr_calls (p : Process) (i : Z) :
  ve <> 0 -> g <> 0 ->
  lr_calls_of (iteration_body p i).1 = (if i mod g =? 0 then [i] else []) /\
  List.filter is_optimizer_step (iteration_body p i).1
  = (if i mod g =? 0 then [OptimizerStep] else []).
Proof.
  intros Hv Hg.
  destruct (lr_calls_of_gradient_actions (iteration_body p i).1) as [-> ->].
  rewrite iteration_gradient_actions by assumption.
  destruct (lr_calls_of_gradient_actions (train_step i).1) as [<- <-].
  rewrite train_step_run by exact Hg. cbn [fst].
  destruct ((i - 1) mod g =? 0), (i mod g =? 0),
    (gradient_clipping alphafold_config), (swa_enabled alphafold_config);
    split; reflexivity.
Qed.

(** X18: over the loop, the LR schedule is called exactly at those iterations
    the loop went through that end an accumulation group, in order and
    with the number of the iteration, and the optimizer steps exactly as
    many times as the schedule is called; this holds for a loop that
    returns, that breaks and that raises alike. *)
Theorem lr_schedule_called_at_group_ends (p : Process) (l : list Z) :
  ve <> 0 -> g <> 0 ->
  let log := (training_loop p l).1 in
  lr_calls_of log = List.filter (fun i => i mod g =? 0) (iterations_of log) /\
  length (List.filter is_optimizer_step log) = length (lr_calls_of log).
Proof.
  intros Hv Hg. cbn zeta. induction l as [|j rest [IH1 IH2]]; [now split|].
  rewrite training_loop_cons.
  destruct (iteration_body_lr_calls p j Hv Hg) as [L1 L2].
  destruct (iteration_body_markers p j) as (M1 & _).
  destruct (iteration_body p j) as [log [[]|x]]; cbn [fst snd] in *.
  - rewrite L1, L2, M1. cbn. now destruct (j mod g =? 0).
  - rewrite lr_calls_of_app, iterations_of_app, !List.filter_app, !length_app.
    rewrite L1, L2, M1, IH2, IH1. cbn. now destruct (j mod g =? 0).
  - rewrite L1, L2, M1. cbn. now destruct (j mod g =? 0).
Qed.

(** *** Collective calls *)

Lemma iteration_body_collectives (RANK : Z) (i : Z) :
  ve <> 0 -> g <> 0 ->
  (distributed args = true -> 0 < WORLD_SIZE) ->
  (i mod ve = 0 ->
   val_metrics_list i <> [] /\
   Z.of_nat (length (val_metrics_list i)) = len_validation_dataset) ->
  List.filter is_collective
    (iteration_body (init_process (distributed args) RANK WORLD_SIZE) i).1
  = (if (0 <? log_every_iters args) && distributed args
     then [DistReduceLossesAvg] else [])
    ++ (if (i mod ve =? 0) && distributed args
        then [DistGatherValMetrics; Broadcast 0] else []).
Proof.
  intros Hv Hg Hw Hok. rewrite iteration_body_unfold by assumption. cbn zeta.
  set (p := init_process (distributed args) RANK WORLD_SIZE).
  assert (Ht : List.filter is_collective (train_step i).1 = []).
  { apply train_step_filter_none; try reflexivity.
    intros [] He; try discriminate He; reflexivity. }
  assert (Hl : List.filter is_collective (log_step p i).1
               = if (0 <? log_every_iters args) && distributed args
                 then [DistReduceLossesAvg] else []).
  { rewrite log_step_explicit. cbn [fst].
    destruct ((0 <? log_every_iters args) && distributed args),
      ((0 <? log_every_iters args) && (i mod log_every_iters args =? 0)),
      (save_process_logs args), (is_main_process p);
      reflexivity. }
  assert (Hvc : exists vf,
             (validation_branch p i (i mod ve =? 0)).2 = Ok vf /\
             List.filter is_collective (validation_branch p i (i mod ve =? 0)).1
             = if (i mod ve =? 0) && distributed args
               then [DistGatherValMetrics; Broadcast 0] else []).
  { unfold Training.validation_branch.
    destruct (Z.eqb_spec (i mod ve) 0) as [E|E]; cbn [andb].
    - destruct (Hok E) as [Hne Hlen].
      rewrite validation_cycle_unfold, local_stop_flag_ok by assumption.
      cbn zeta. subst p. unfold init_process.
      destruct (distributed args) eqn:Hd;
        cbn [is_main_process main_rank default fst snd].
      + change (default 0 (Some 0)) with 0. rewrite broadcast_ok by auto.
        eexists. split; [reflexivity|].
        destruct (RANK =? 0), (is_logging_enabled args); reflexivity.
      + eexists. split; [reflexivity|].
        destruct (is_logging_enabled args); reflexivity.
    - eexists. split; reflexivity. }
  destruct Hvc as (vf & Hres & Hvlog). rewrite Hres.
  rewrite checkpoint_step_run. cbn [fst].
  rewrite !List.filter_app. cbn [List.filter is_collective].
  rewrite !List.filter_app, Ht, Hl, Hvlog.
  destruct (is_main_process p && (0 <? checkpoint_every_iters args)
            && (i mod checkpoint_every_iters args =? 0)),
    ((i mod ve =? 0) && negb (vf.2 =? 0));
    cbn [List.filter is_collective app]; now rewrite ?app_nil_r.
Qed.

Lemma training_loop_collectives (r1 r2 : Z) (l : list Z) :
  ve <> 0 -> g <> 0 ->
  (distributed args = true -> 0 < WORLD_SIZE) ->
  (forall i, In i l -> i mod ve = 0 ->
     val_metrics_list i <> [] /\
     Z.of_nat (length (val_metrics_list i)) = len_validation_dataset) ->
  List.filter is_collective
    (training_loop (init_process (distributed args) r1 WORLD_SIZE) l).1
  = List.filter is_collective
      (training_loop (init_process (distributed args) r2 WORLD_SIZE) l).1.
Proof.
  intros Hv Hg Hw Hok. induction l as [|j rest IH]; [reflexivity|].
  rewrite !training_loop_cons.
  pose proof (Hok j (or_introl eq_refl)) as Hj.
  pose proof (iteration_body_result r1 j Hv Hg Hw Hj) as R1.
  pose proof (iteration_body_result r2 j Hv Hg Hw Hj) as R2.
  pose proof (iteration_body_collectives r1 j Hv Hg Hw Hj) as C1.
  pose proof (iteration_body_collectives r2 j Hv Hg Hw Hj) as C2.
  destruct (iteration_body (init_process (distributed args) r1 WORLD_SIZE) j)
    as [log1 res1].
  destruct (iteration_body (init_process (distributed args) r2 WORLD_SIZE) j)
    as [log2 res2].
  cbn [fst snd] in *. subst res1 res2.
  destruct (target_reached args val_metrics_list j); cbn [fst].
  - now rewrite C1, C2.
  - rewrite !List.filter_app, C1, C2, IH; [reflexivity|].
    intros i Hi. apply Hok. now right.
Qed.

(** X19: in a job whose gathers bring the whole validation set, the processes
    of any two ranks make the same collective calls in the same order over
    the whole run (loss averaging, gather of the validation metrics,
    broadcast of the stop flag from rank 0, final barrier), and their runs
    end the same way: no rank waits in a collective the others never
    enter. *)
Theorem collectives_agree_across_ranks (r1 r2 : Z) :
  ve <> 0 -> g <> 0 ->
  (distributed args = true -> 0 < WORLD_SIZE) ->
  (forall i, i mod ve = 0 ->
     val_metrics_list i <> [] /\
     Z.of_nat (length (val_metrics_list i)) = len_validation_dataset) ->
  let p1 := init_process (distributed args) r1 WORLD_SIZE in
  let p2 := init_process (distributed args) r2 WORLD_SIZE in
  List.filter is_collective (training p1).1
  = List.filter is_collective (training p2).1 /\
  (training p1).2 = (training p2).2.
Proof.
  intros Hv Hg Hw Hok p1 p2. subst p1 p2.
  rewrite !training_unfold by exact Hg.
  destruct (_ mod g =? 0); [|now split].
  set (l := range _ _).
  assert (Hokl : forall i, In i l -> i mod ve = 0 ->
            val_metrics_list i <> [] /\
            Z.of_nat (length (val_metrics_list i)) = len_validation_dataset)
    by (intros i _; apply Hok).
  pose proof (training_loop_collectives r1 r2 l Hv Hg Hw Hokl) as Hc.
  destruct (training_loop_until_target r1 l Hv Hg Hw Hokl) as [R1 _].
  destruct (training_loop_until_target r2 l Hv Hg Hw Hokl) as [R2 _].
  destruct (training_loop (init_process (distributed args) r1 WORLD_SIZE) l)
    as [log1 res1].
  destruct (training_loop (init_process (distributed args) r2 WORLD_SIZE) l)
    as [log2 res2].
  cbn [fst snd] in *. subst res1 res2. cbn [fst snd].
  split; [|reflexivity].
  cbn [List.filter is_collective]. now rewrite !List.filter_app, Hc.
Qed.

(** *** The end of a run *)

Lemma iteration_body_no_exit (p : Process) (i : Z) :
  ~ In Barrier (iteration_body p i).1 /\ ~ In RunStop (iteration_body p i).1.
Proof.
  assert (Hstep : forall mid, Forall (fun e => is_step_event e = true) mid ->
            ~ In Barrier mid /\ ~ In RunStop mid).
  { intros mid Hmid. rewrite List.Forall_forall in Hmid.
    split; intros Hin; specialize (Hmid _ Hin); discriminate Hmid. }
  destruct (iteration_body_shape p i) as (mid & Hmid & [[e ->] | H]).
  - destruct (Hstep mid Hmid) as [N1 N2]. cbn [fst].
    split; intros [?|?]; try discriminate; contradiction.
  - destruct H as (vf & _ & _ & _ & ->). destruct (Hstep mid Hmid) as [N1 N2].
    rewrite checkpoint_step_run. cbn [fst].
    split; intros [?|Hin]; try discriminate;
      rewrite !List.in_app_iff in Hin; destruct Hin as [?|[Hin|Hin]];
      try contradiction;
      [destruct (_ && _ && _) | destruct (_ && negb _)
      |destruct (_ && _ && _) | destruct (_ && negb _)];
      cbn in Hin; intuition discriminate.
Qed.

(** X20: the end of the run is logged, and in a distributed job the final
    barrier entered, exactly when [training] returns without exception;
    they are then the last actions of the run, in this order. *)
Theorem run_stop_iff_returned (p : Process) :
  (In RunStop (training p).1 <-> (training p).2 = Ok tt) /\
  (In Barrier (training p).1
   <-> (training p).2 = Ok tt /\ distributed args = true) /\
  ((training p).2 = Ok tt ->
   exists log,
     (training p).1
     = log ++ (if distributed args then [Barrier] else []) ++ [RunStop] /\
     ~ In Barrier log /\ ~ In RunStop log).
Proof.
  assert (Hret : (training p).2 = Ok tt ->
            exists log,
              (training p).1
              = log ++ (if distributed args then [Barrier] else []) ++ [RunStop] /\
              ~ In Barrier log /\ ~ In RunStop log).
  { destruct (Z.eq_dec g 0) as [Hg|Hg].
    { rewrite training_div0 by exact Hg. discriminate. }
    rewrite training_unfold by exact Hg.
    destruct (_ mod g =? 0); [|discriminate].
    set (l := range _ _). pose proof (in_training_loop p l) as Hloop.
    destruct (training_loop p l) as [log [[]|x]]; cbn [fst snd] in *;
      [|discriminate].
    intros _. exists (ResumeFromLatestCheckpoint :: log).
    split; [reflexivity|].
    split; intros [?|Hin]; try discriminate;
      destruct (Hloop _ Hin) as (i & _ & Hi);
      destruct (iteration_body_no_exit p i); contradiction. }
  split; [|split; [|exact Hret]].
  - split.
    + intros Hin.
      destruct (in_training p _ Hin) as [E|[(E & _)|[(_ & R)|(i & _ & Hi)]]];
        try discriminate E; [exact R|].
      destruct (iteration_body_no_exit p i); contradiction.
    + intros R. destruct (Hret R) as (log & -> & _).
      rewrite !List.in_app_iff. right. right. now left.
  - split.
    + intros Hin.
      destruct (in_training p _ Hin)
        as [E|[(_ & D & R)|[(E & _)|(i & _ & Hi)]]];
        try discriminate E; [now split|].
      destruct (iteration_body_no_exit p i); contradiction.
    + intros [R D]. destruct (Hret R) as (log & -> & _). rewrite D.
      rewrite !List.in_app_iff. right. left. now left.
Qed.

(** *** Validation and the accumulation group *)

(** X21: under an accepted configuration validation never runs in the middle
    of an accumulation group: in an iteration that ends a train-val cycle
    the call of the LR schedule and the optimizer step come before the
    call of [validation], and nothing but the iteration's training and log
    steps does. *)
Theorem validation_after_optimizer_step (p : Process) (i : Z) :
  parse_args args = Ok args ->
  ve <> 0 ->
  i mod ve = 0 ->
  exists pre post,
    (iteration_body p i).1 = IterationStart i :: pre ++ CallValidation :: post /\
    Forall (fun e => is_train_event e = true) pre /\
    In (LrSchedulerCall i) pre /\ In OptimizerStep pre.
Proof.
  intros Hacc Hv Hi.
  destruct (parse_args_cases args) as [[_ C]|[line [E _]]]; [|congruence].
  destruct C as (Hg & _ & Dv & _).
  assert (Hm : i mod g = 0) by exact (mod_of_multiple _ _ _ Dv Hi).
  rewrite iteration_body_unfold by lia. cbn zeta. rewrite Hi.
  cbn [Z.eqb Training.validation_branch].
  rewrite validation_cycle_unfold. cbn zeta.
  exists ((train_step i).1 ++ (log_step p i).1).
  assert (Hpre : Forall (fun e => is_train_event e = true)
                   ((train_step i).1 ++ (log_step p i).1)).
  { rewrite Forall_app. split; [apply train_step_events | apply log_step_events]. }
  assert (Hin : In (LrSchedulerCall i) ((train_step i).1 ++ (log_step p i).1) /\
                In OptimizerStep ((train_step i).1 ++ (log_step p i).1)).
  { rewrite train_step_run by lia. rewrite Hm. cbn [fst Z.eqb].
    split; rewrite !List.in_app_iff; left; right; right; right;
      right; left; cbn; auto. }
  destruct (local_stop_flag p i) as [llog [vf|x]].
  - destruct (distributed args); cbn [fst snd].
    + destruct (dist_broadcast _ _) as [f|x]; cbn [fst snd];
        eexists; (split; [|split; [exact Hpre | exact Hin]]);
        rewrite <- ?app_assoc; cbn [app]; rewrite <- ?app_assoc; reflexivity.
    + eexists. split; [|split; [exact Hpre | exact Hin]].
      rewrite <- ?app_assoc; cbn [app]; rewrite <- ?app_assoc. reflexivity.
  - cbn [fst snd]. eexists. split; [|split; [exact Hpre | exact Hin]].
    rewrite <- ?app_assoc; cbn [app]; rewrite <- ?app_assoc. reflexivity.
Qed.

(** *** A validation interval of zero *)

Lemma training_zero_interval (p : Process) :
  g <> 0 -> ve = 0 ->
  resume_from_latest_checkpoint checkpoints mod g = 0 ->
  resume_from_latest_checkpoint checkpoints < num_train_iters args ->
  training p
  = ([ResumeFromLatestCheckpoint;
      IterationStart (resume_from_latest_checkpoint checkpoints + 1)],
     Raise ZeroDivisionError).
Proof.
  intros Hg Hv Hm Hlt. rewrite training_unfold by exact Hg. rewrite Hm.
  cbn [Z.eqb]. unfold range. rewrite seqZ_cons by lia.
  rewrite training_loop_cons, iteration_body_div0_val by exact Hv.
  reflexivity.
Qed.

End LoopFacts.

Section ZeroInterval.
Import Cadence Training.

Lemma cadence_ok_zero_interval (args : Args) :
  cadence_ok args -> cadence_ok (with_val_every_iters args 0).
Proof.
  unfold cadence_ok. cbn.
  intros (Hg & Dn & _ & Dc & Dl & Dw & _ & _ & Dlc).
  repeat split; try assumption; try (intros; assumption);
    intros; apply Z.divide_0_r.
Qed.

(** X22: a configuration that start-up validation accepts is accepted with
    [--val_every_iters 0] too: no check excludes a validation interval of
    zero.  But a run of that configuration with iterations left stops at
    its first iteration, before any training step, with the
    [ZeroDivisionError] of the train-val cycle arithmetic (line 737). *)
Theorem zero_validation_interval (args : Args)
    (alphafold_config : AlphaFoldConfig) (train_loss : Z -> Qc)
    (val_metrics_list : Z -> list Qc) (len_validation_dataset : Z)
    (checkpoints : list Z) (RANK WORLD_SIZE : Z) :
  parse_args args = Ok args ->
  parse_args (with_val_every_iters args 0) = Ok (with_val_every_iters args 0) /\
  (resume_from_latest_checkpoint checkpoints
     mod gradient_accumulation_iters args = 0 ->
   resume_from_latest_checkpoint checkpoints < num_train_iters args ->
   main (with_val_every_iters args 0) alphafold_config train_loss
     val_metrics_list len_validation_dataset checkpoints RANK WORLD_SIZE
   = ([ResumeFromLatestCheckpoint;
       IterationStart (resume_from_latest_checkpoint checkpoints + 1)],
      Raise ZeroDivisionError)).
Proof.
  intros Hacc.
  destruct (parse_args_cases args) as [[_ C]|[line [E _]]]; [|congruence].
  assert (Hacc0 : parse_args (with_val_every_iters args 0)
                  = Ok (with_val_every_iters args 0)).
  { destruct (parse_args_cases (with_val_every_iters args 0))
      as [[E0 _]|[line [_ N]]]; [exact E0|].
    exfalso. apply N. now apply cadence_ok_zero_interval. }
  split; [exact Hacc0|]. intros Hm Hlt.
  destruct C as (Hg & _).
  unfold main. rewrite Hacc0, bind_lift_ok.
  apply training_zero_interval; cbn; [lia | reflexivity | exact Hm | exact Hlt].
Qed.

End ZeroInterval.

(** ** The theorems on the end-to-end scenario

    8 iterations, accumulation over 2, validation and checkpoint every 4,
    logs every 2. *)

Section Scenario.
Import Cadence Training.

(** Iteration 4 of the single-process scenario ends an accumulation group:
    backward pass on half the loss, clipping, schedule, step, averaging. *)
Lemma accumulation_group_actions_witness :
  val_every_iters scenario_args <> 0 /\
  gradient_accumulation_iters scenario_args <> 0 /\
  List.filter is_gradient_action
    (iteration_body scenario_args scenario_config scenario_loss
       scenario_metrics 2 1 (init_process false 0 1) 4).1
  = [Backward (scenario_loss 4 * (1 / Qc_of_Z 2))%Qc;
     ClipGradNorm (clip_grad_max_norm scenario_config);
     LrSchedulerCall 4; OptimizerStep; SwaUpdate].
Proof.
  assert (H1 : val_every_iters scenario_args <> 0) by discriminate.
  assert (H2 : gradient_accumulation_iters scenario_args <> 0) by discriminate.
  split; [exact H1|]. split; [exact H2|].
  exact (proj1 (accumulation_group_actions scenario_args scenario_config
                  scenario_loss scenario_metrics 2 1 (init_process false 0 1)
                  4 H1 H2)).
Defined.

(** Resuming from checkpoints of iterations 4 and 2: one resume, and the
    first iteration run is 5. *)
Lemma resume_contract_witness :
  gradient_accumulation_iters scenario_args <> 0 /\
  resume_from_latest_checkpoint [4; 2] mod gradient_accumulation_iters scenario_args = 0 /\
  resume_from_latest_checkpoint [4; 2] < num_train_iters scenario_args /\
  head (iterations_of
          (training scenario_args scenario_config scenario_loss
             scenario_metrics 2 [4; 2] 1 (init_process false 0 1)).1)
  = Some 5.
Proof.
  assert (H1 : gradient_accumulation_iters scenario_args <> 0) by discriminate.
  assert (H2 : resume_from_latest_checkpoint [4; 2]
               mod gradient_accumulation_iters scenario_args = 0) by reflexivity.
  assert (H3 : resume_from_latest_checkpoint [4; 2] < num_train_iters scenario_args)
    by reflexivity.
  split; [exact H1|]. split; [exact H2|]. split; [exact H3|].
  destruct (resume_contract scenario_args scenario_config scenario_loss
              scenario_metrics 2 [4; 2] 1 (init_process false 0 1) H1)
    as (_ & _ & _ & Hrun).
  destruct (Hrun H2) as (_ & Hhead & _).
  exact (Hhead H3).
Defined.

(** Rank 1 of a job of 3 processes whose coordinator sees the target met
    at iteration 4: the loop returns. *)
Lemma stop_flag_handshake_witness :
  val_every_iters scenario_args_distributed <> 0 /\
  gradient_accumulation_iters scenario_args_distributed <> 0 /\
  0 <= 1 < 3 /\
  (training_loop scenario_args_distributed scenario_config scenario_loss
     early_metrics 2 3 (init_process true 1 3) (seqZ 1 8)).2
  = Ok tt.
Proof.
  assert (H1 : val_every_iters scenario_args_distributed <> 0) by discriminate.
  assert (H2 : gradient_accumulation_iters scenario_args_distributed <> 0)
    by discriminate.
  assert (H3 : 0 <= 1 < 3) by lia.
  split; [exact H1|]. split; [exact H2|]. split; [exact H3|].
  refine (proj1 (proj2 (stop_flag_handshake scenario_args_distributed
                          scenario_config scenario_loss early_metrics 2 3 1
                          (seqZ 1 8) H1 H2 (fun _ => H3) _))).
  intros i _ _. split; [discriminate | reflexivity].
Defined.

(** One sample missing from the gather at iteration 4: the count check
    ends the run there. *)
Lemma gather_count_mismatch_is_fatal_witness :
  is_main_process (init_process false 0 1) = true /\
  4 mod val_every_iters scenario_args = 0 /\
  Z.of_nat (length (short_metrics 4)) <> 2 /\
  exists tl,
    Forall (fun e => is_train_event e = true) tl /\
    training_loop scenario_args scenario_config scenario_loss short_metrics
      2 1 (init_process false 0 1) [4; 5; 6; 7; 8]
    = (IterationStart 4 :: tl ++ [CallValidation], Raise (AssertionError 896)).
Proof.
  assert (H1 : val_every_iters scenario_args <> 0) by discriminate.
  assert (H2 : gradient_accumulation_iters scenario_args <> 0) by discriminate.
  assert (H3 : is_main_process (init_process false 0 1) = true) by reflexivity.
  assert (H4 : 4 mod val_every_iters scenario_args = 0) by reflexivity.
  assert (H5 : Z.of_nat (length (short_metrics 4)) <> 2) by discriminate.
  split; [exact H3|]. split; [exact H4|]. split; [exact H5|].
  exact (gather_count_mismatch_is_fatal scenario_args scenario_config
           scenario_loss short_metrics 2 1 (init_process false 0 1) 4
           [5; 6; 7; 8] H1 H2 H3 H4 H5).
Defined.

(** The target is met at iteration 4, where a checkpoint is due: it is
    saved before the loop is left. *)
Lemma checkpoint_saved_before_break_witness :
  In (Break 4)
     (training_loop scenario_args scenario_config scenario_loss early_metrics
        2 1 (init_process false 0 1) (seqZ 1 8)).1 /\
  0 < checkpoint_every_iters scenario_args /\
  4 mod checkpoint_every_iters scenario_args = 0 /\
  exists pre,
    (training_loop scenario_args scenario_config scenario_loss early_metrics
       2 1 (init_process false 0 1) (seqZ 1 8)).1
    = pre ++ [SaveCheckpoint 4 true (Some (mean (early_metrics 4))); Break 4].
Proof.
  assert (H1 : In (Break 4)
                 (training_loop scenario_args scenario_config scenario_loss
                    early_metrics 2 1 (init_process false 0 1) (seqZ 1 8)).1).
  { apply in_breaks_of. vm_compute. left. reflexivity. }
  assert (H2 : 0 < checkpoint_every_iters scenario_args) by reflexivity.
  assert (H3 : 4 mod checkpoint_every_iters scenario_args = 0) by reflexivity.
  split; [exact H1|]. split; [exact H2|]. split; [exact H3|].
  destruct (checkpoint_saved_before_break scenario_args scenario_config
              scenario_loss early_metrics 2 1 (seqZ 1 8) 4 H1 H2 H3)
    as (_ & _ & pre & Hlog & _).
  exists pre. exact Hlog.
Defined.

(** The three ranks of the distributed scenario leave the loop after the
    same iteration, and only the coordinator saves the checkpoint. *)
Example ranks_stop_together :
  forall RANK, In RANK [0; 1; 2] ->
    iterations_of
      (main scenario_args_distributed scenario_config scenario_loss
         early_metrics 2 [] RANK 3).1
    = [1; 2; 3; 4].
Proof.
  intros RANK [<-|[<-|[<-|[]]]]; vm_compute; reflexivity.
Qed.

(** In the single-process scenario the optimizer steps twice before the
    first validation, and checkpoints are saved at iterations 4 and 8. *)
Example scenario_run :
  let log := (main scenario_args scenario_config scenario_loss
                scenario_metrics 2 [] 0 1).1 in
  omap (fun e => match e with
                 | SaveCheckpoint i _ _ => Some i
                 | _ => None
                 end) log = [4; 8] /\
  List.filter (fun e => match e with
                        | OptimizerStep | CallValidation => true
                        | _ => false
                        end) log
  = [OptimizerStep; OptimizerStep; CallValidation;
     OptimizerStep; OptimizerStep; CallValidation] /\
  breaks_of log = [8].
Proof. vm_compute. repeat split. Qed.

(** A dataloader of one well-formed sample: [validation] returns with the
    model in training mode. *)
Lemma validation_mode_on_exit_witness :
  exists val_metrics_list,
    Validation.validation Validation.const_forward Validation.unit_perf
      {| Validation.training := false |}
      {| Validation.dl_len := 1; Validation.dl_batches := [Validation.good_batch] |}
    = ({| Validation.training := true |}, Ok val_metrics_list) /\
    length val_metrics_list = 1%nat.
Proof.
  refine (proj2 (proj2 (proj2
            (validation_mode_on_exit Validation.const_forward
               Validation.unit_perf {| Validation.training := false |}
               {| Validation.dl_len := 1;
                  Validation.dl_batches := [Validation.good_batch] |}))) _ _).
  - cbn. lia.
  - constructor; [|constructor].
    exists [Validation.PyStr "val"; Validation.PyInt 0; Validation.PyInt 0;
            Validation.PyStr "7abc_A"], (Validation.PyInt 0),
           (Validation.PyStr "7abc_A").
    repeat split.
Defined.

(** The accepted configuration satisfies what the code checks. *)
Lemma cadence_validation_iff_witness : cadence_ok accepted_example.
Proof.
  exact (proj1 (proj1 (cadence_validation_iff accepted_example scenario_config
                         scenario_loss scenario_metrics 2 [] 0 1)) eq_refl).
Defined.


(** A dataloader of one well-formed sample: one record, that of the
    sample. *)
Lemma validation_records_witness :
  exists val_metrics_list,
    (Validation.validation Validation.const_forward Validation.unit_perf
       {| Validation.training := true |}
       {| Validation.dl_len := 1;
          Validation.dl_batches := [Validation.good_batch] |}).2
    = Ok val_metrics_list /\
    Forall2 (Validation.record_of Validation.const_forward Validation.unit_perf
               {| Validation.training := false |})
      [Validation.good_batch] val_metrics_list.
Proof.
  eexists. split; [reflexivity|].
  exact (proj1 (validation_records Validation.const_forward
                  Validation.unit_perf {| Validation.training := true |}
                  {| Validation.dl_len := 1;
                     Validation.dl_batches := [Validation.good_batch] |}
                  _ eq_refl)).
Defined.

(** A dataloader that announces two samples and yields one. *)
Lemma validation_short_dataloader_witness :
  Validation.validation Validation.const_forward Validation.unit_perf
    {| Validation.training := true |}
    {| Validation.dl_len := 2; Validation.dl_batches := [Validation.good_batch] |}
  = ({| Validation.training := false |}, Raise StopIteration).
Proof.
  refine (validation_short_dataloader Validation.const_forward
            Validation.unit_perf {| Validation.training := true |}
            {| Validation.dl_len := 2;
               Validation.dl_batches := [Validation.good_batch] |} _ _).
  - cbn. lia.
  - constructor; [|constructor].
    exists [Validation.PyStr "val"; Validation.PyInt 0; Validation.PyInt 0;
            Validation.PyStr "7abc_A"], (Validation.PyInt 0),
           (Validation.PyStr "7abc_A").
    repeat split.
Defined.

(** Rank 1 of the distributed scenario, which stops at iteration 4. *)
Lemma non_coordinator_is_silent_witness :
  Forall (fun e => is_coordinator_output e = false)
    (training scenario_args_distributed scenario_config scenario_loss
       early_metrics 2 [] 3 (init_process true 1 3)).1.
Proof.
  assert (H : is_main_process (init_process true 1 3) = false) by reflexivity.
  exact (non_coordinator_is_silent scenario_args_distributed scenario_config
           scenario_loss early_metrics 2 [] 3 (init_process true 1 3) H).
Defined.

(** The checkpoint of iteration 4 in the single-process scenario. *)
Lemma checkpoint_tags_witness :
  In (SaveCheckpoint 4 true (Some (mean (scenario_metrics 4))))
     (training scenario_args scenario_config scenario_loss scenario_metrics
        2 [] 1 (init_process false 0 1)).1 /\
  0 < checkpoint_every_iters scenario_args /\
  4 mod checkpoint_every_iters scenario_args = 0 /\
  true = (4 mod val_every_iters scenario_args =? 0).
Proof.
  assert (H : In (SaveCheckpoint 4 true (Some (mean (scenario_metrics 4))))
                (training scenario_args scenario_config scenario_loss
                   scenario_metrics 2 [] 1 (init_process false 0 1)).1).
  { vm_compute. repeat first [left; reflexivity | right]. }
  split; [exact H|].
  destruct (checkpoint_tags scenario_args scenario_config scenario_loss
              scenario_metrics 2 [] 1 (init_process false 0 1) 4 true
              (Some (mean (scenario_metrics 4))) H)
    as (_ & _ & Hc & Hd & Hb & _).
  auto.
Defined.

(** In iteration 4 of the scenario the optimizer steps before the
    checkpoint is saved. *)
Lemma checkpoint_after_optimizer_step_witness :
  exists pre post,
    (iteration_body scenario_args scenario_config scenario_loss
       scenario_metrics 2 1 (init_process false 0 1) 4).1
    = pre ++ SaveCheckpoint 4 true (Some (mean (scenario_metrics 4))) :: post /\
    In (LrSchedulerCall 4) pre /\ In OptimizerStep pre.
Proof.
  assert (H0 : Cadence.parse_args scenario_args = Ok scenario_args)
    by reflexivity.
  assert (H : In (SaveCheckpoint 4 true (Some (mean (scenario_metrics 4))))
                (iteration_body scenario_args scenario_config scenario_loss
                   scenario_metrics 2 1 (init_process false 0 1) 4).1).
  { vm_compute. repeat first [left; reflexivity | right]. }
  exact (checkpoint_after_optimizer_step scenario_args scenario_config
           scenario_loss scenario_metrics 2 1 (init_process false 0 1) 4 4
           true (Some (mean (scenario_metrics 4))) H0 H).
Defined.

(** Iteration 4 of the distributed scenario, on rank 1: the losses are
    averaged and, without [--save_process_logs], no log is saved. *)
Lemma log_step_cadence_witness :
  List.filter is_log_action
    (iteration_body scenario_args_distributed scenario_config scenario_loss
       scenario_metrics 2 3 (init_process true 1 3) 4).1
  = [DistReduceLossesAvg].
Proof.
  assert (H1 : val_every_iters scenario_args_distributed <> 0) by discriminate.
  assert (H2 : gradient_accumulation_iters scenario_args_distributed <> 0)
    by discriminate.
  exact (log_step_cadence scenario_args_distributed scenario_config
           scenario_loss scenario_metrics 2 3 (init_process true 1 3) 4 H1 H2).
Defined.

(** The scenario: the schedule is called at iterations 2, 4, 6 and 8. *)
Lemma lr_schedule_called_at_group_ends_witness :
  lr_calls_of
    (training_loop scenario_args scenario_config scenario_loss
       scenario_metrics 2 1 (init_process false 0 1) (seqZ 1 8)).1
  = List.filter (fun i => i mod 2 =? 0)
      (iterations_of
         (training_loop scenario_args scenario_config scenario_loss
            scenario_metrics 2 1 (init_process false 0 1) (seqZ 1 8)).1).
Proof.
  assert (H1 : val_every_iters scenario_args <> 0) by discriminate.
  assert (H2 : gradient_accumulation_iters scenario_args <> 0) by discriminate.
  exact (proj1 (lr_schedule_called_at_group_ends scenario_args scenario_config
                  scenario_loss scenario_metrics 2 1 (init_process false 0 1)
                  (seqZ 1 8) H1 H2)).
Defined.

(** Ranks 0 and 2 of the distributed scenario make the same collective
    calls. *)
Lemma collectives_agree_across_ranks_witness :
  List.filter is_collective
    (training scenario_args_distributed scenario_config scenario_loss
       early_metrics 2 [] 3 (init_process true 0 3)).1
  = List.filter is_collective
      (training scenario_args_distributed scenario_config scenario_loss
         early_metrics 2 [] 3 (init_process true 2 3)).1.
Proof.
  assert (H1 : val_every_iters scenario_args_distributed <> 0) by discriminate.
  assert (H2 : gradient_accumulation_iters scenario_args_distributed <> 0)
    by discriminate.
  assert (H3 : distributed scenario_args_distributed = true -> 0 < 3) by lia.
  assert (H4 : forall i, i mod val_every_iters scenario_args_distributed = 0 ->
                 early_metrics i <> [] /\
                 Z.of_nat (length (early_metrics i)) = 2)
    by (intros i _; split; [discriminate | reflexivity]).
  exact (proj1 (collectives_agree_across_ranks scenario_args_distributed
                  scenario_config scenario_loss early_metrics 2 [] 3 0 2
                  H1 H2 H3 H4)).
Defined.

(** Iteration 4 of the scenario: the optimizer steps, then validation. *)
Lemma validation_after_optimizer_step_witness :
  exists pre post,
    (iteration_body scenario_args scenario_config scenario_loss
       scenario_metrics 2 1 (init_process false 0 1) 4).1
    = IterationStart 4 :: pre ++ CallValidation :: post /\
    Forall (fun e => is_train_event e = true) pre /\
    In (LrSchedulerCall 4) pre /\ In OptimizerStep pre.
Proof.
  assert (H0 : Cadence.parse_args scenario_args = Ok scenario_args)
    by reflexivity.
  assert (H1 : val_every_iters scenario_args <> 0) by discriminate.
  assert (H2 : 4 mod val_every_iters scenario_args = 0) by reflexivity.
  exact (validation_after_optimizer_step scenario_args scenario_config
           scenario_loss scenario_metrics 2 1 (init_process false 0 1) 4
           H0 H1 H2).
Defined.

(** The single-process scenario returns: the end of the run is the last
    action logged. *)
Lemma run_stop_iff_returned_witness :
  (training scenario_args scenario_config scenario_loss scenario_metrics
     2 [] 1 (init_process false 0 1)).2 = Ok tt /\
  In RunStop
    (training scenario_args scenario_config scenario_loss scenario_metrics
       2 [] 1 (init_process false 0 1)).1.
Proof.
  assert (H : (training scenario_args scenario_config scenario_loss
                 scenario_metrics 2 [] 1 (init_process false 0 1)).2 = Ok tt)
    by (vm_compute; reflexivity).
  split; [exact H|].
  exact (proj2 (proj1 (run_stop_iff_returned scenario_args scenario_config
                         scenario_loss scenario_metrics 2 [] 1
                         (init_process false 0 1))) H).
Defined.

(** The defaults are accepted, and so are the defaults with
    [--val_every_iters 0], whose run stops at iteration 1. *)
Lemma zero_validation_interval_witness :
  Cadence.parse_args (Cadence.with_val_every_iters Cadence.default_args 0)
  = Ok (Cadence.with_val_every_iters Cadence.default_args 0) /\
  main (Cadence.with_val_every_iters Cadence.default_args 0) scenario_config
    scenario_loss scenario_metrics 2 [] 0 1
  = ([ResumeFromLatestCheckpoint; IterationStart 1], Raise ZeroDivisionError).
Proof.
  assert (H1 : Cadence.parse_args Cadence.default_args = Ok Cadence.default_args)
    by reflexivity.
  assert (H2 : resume_from_latest_checkpoint []
               mod gradient_accumulation_iters Cadence.default_args = 0)
    by reflexivity.
  assert (H3 : resume_from_latest_checkpoint []
               < num_train_iters Cadence.default_args) by reflexivity.
  destruct (zero_validation_interval Cadence.default_args scenario_config
              scenario_loss scenario_metrics 2 [] 0 1 H1) as [Hacc Hrun].
  split; [exact Hacc | exact (Hrun H2 H3)].
Defined.


(** A well-formed sample followed by a batch with two identities. *)
Lemma validation_first_failure_witness :
  Validation.validation Validation.const_forward Validation.unit_perf
    {| Validation.training := true |}
    {| Validation.dl_len := 3;
       Validation.dl_batches :=
         [Validation.good_batch] ++ Validation.double_batch :: [] |}
  = ({| Validation.training := false |}, Raise (AssertionError 355)).
Proof.
  refine (proj1 (validation_first_failure Validation.const_forward
                   Validation.unit_perf {| Validation.training := true |} 3
                   [Validation.good_batch] Validation.double_batch [] _ _) _).
  - constructor; [|constructor].
    exists [Validation.PyStr "val"; Validation.PyInt 0; Validation.PyInt 0;
            Validation.PyStr "7abc_A"], (Validation.PyInt 0),
           (Validation.PyStr "7abc_A").
    repeat split.
  - cbn. lia.
  - cbn. lia.
Defined.

End Scenario.
